(** * navAIgator: the RPA Challenge runner

    A shallow embedding of [src/agent/rpa_challenge/rpa_challenge_agent.py]:
    the artifact locator, the memoized spreadsheet parse, the two
    supervised agent invocations and the run coordinator
    [RPAChallengeRunner.run_automation], followed by the properties of
    the orchestration that the specification states.

    External collaborators (the HTTP endpoint, the browser agent, the
    event loop, the done-callback, the browser) are an environment [Env]
    that answers each call; the downloads directory, the process-wide
    parse cache, the logs directory and the sequence of observable calls
    are the [World].

    The handlers of the web tab,
    [src/webui/components/rpa_challenge_tab.py], which create a runner,
    run it and render its record, are embedded on top of the runner in
    [Tab], with the runner objects in a store that the manager and the
    handlers share. *)

From Stdlib Require Import String Ascii List Bool NArith Arith Lia.
Import ListNotations.
Open Scope string_scope.
Open Scope list_scope.

(** ** Spreadsheet data *)

(** One row of [DataFrame.to_dict('records')]: column name to value. *)
Definition Row := list (string * string).
Definition RecordSet := list Row.

(** ** The downloads directory *)

Module Fs.

(** A regular file of [DOWNLOADS_DIR].  [f_rows] is what
    [pd.read_excel] makes of its content ([None]: it raises);
    [f_locked] says that [os.remove] raises on it. *)
Record File := mkFile {
  f_name : string;
  f_size : N;
  f_rows : option RecordSet;
  f_ctime : N;
  f_locked : bool
}.

(** The directory listing, in the order [glob] reports it. *)
Definition FS := list File.

Definition DOWNLOADS_DIR : string := "tmp/rpa_challenge/downloads".
Definition LOGS_DIR : string := "tmp/rpa_challenge/logs".
Definition RECORDINGS_DIR : string := "tmp/rpa_challenge/recordings".
Definition SCRIPT_DIR : string := "tmp/rpa_challenge/playwright_scripts".

(** [str(DOWNLOADS_DIR / name)] *)
Definition downloads_path (name : string) : string :=
  (DOWNLOADS_DIR ++ "/" ++ name)%string.

Definition direct_name : string := "challenge_direct.xlsx".
Definition direct_file : string := downloads_path direct_name.

Definition lookup (path : string) (fs : FS) : option File :=
  find (fun f => String.eqb (downloads_path (f_name f)) path) fs.

Definition exists_ (path : string) (fs : FS) : bool :=
  match lookup path fs with Some _ => true | None => false end.

(** [os.path.getsize], [os.path.getctime]: [None] stands for the
    [OSError] of a missing file. *)
Definition getsize (path : string) (fs : FS) : option N :=
  option_map f_size (lookup path fs).

Definition getctime (path : string) (fs : FS) : option N :=
  option_map f_ctime (lookup path fs).

(** [pd.read_excel(path)]: [None] when it raises (missing file or
    content that is not a workbook). *)
Definition read_excel (path : string) (fs : FS) : option RecordSet :=
  match lookup path fs with
  | Some f => f_rows f
  | None => None
  end.

Definition delete (path : string) (fs : FS) : FS :=
  filter (fun f => negb (String.eqb (downloads_path (f_name f)) path)) fs.

(** [os.remove(path)]: [None] when it raises. *)
Definition remove (path : string) (fs : FS) : option FS :=
  match lookup path fs with
  | Some f => if f_locked f then None else Some (delete path fs)
  | None => None
  end.

(** A file created or overwritten under its name. *)
Fixpoint write (f : File) (fs : FS) : FS :=
  match fs with
  | [] => [f]
  | g :: rest =>
      if String.eqb (f_name g) (f_name f) then f :: rest
      else g :: write f rest
  end.

Definition write_all (files : list File) (fs : FS) : FS :=
  fold_left (fun acc f => write f acc) files fs.

(** *** [glob.glob(str(DOWNLOADS_DIR / '*challenge*.xlsx'))] *)

Fixpoint contains (sub s : string) : bool :=
  String.prefix sub s ||
  match s with
  | EmptyString => false
  | String _ s' => contains sub s'
  end.

Definition ends_with (suffix s : string) : bool :=
  let n := String.length s in
  let k := String.length suffix in
  (k <=? n)%nat && String.eqb (String.substring (n - k) k s) suffix.

(** [fnmatch(name, '*challenge*.xlsx')] on a POSIX host. *)
Definition fnmatch_challenge (name : string) : bool :=
  ends_with ".xlsx" name &&
  contains "challenge"
    (String.substring 0 (String.length name - 5) name).

(** [glob] never lets a leading [*] match a dot file. *)
Definition ishidden (name : string) : bool := String.prefix "." name.

Definition glob_match (name : string) : bool :=
  negb (ishidden name) && fnmatch_challenge name.

Definition glob_challenge (fs : FS) : list string :=
  map (fun f => downloads_path (f_name f))
      (filter (fun f => glob_match (f_name f)) fs).

End Fs.

Import Fs.

(** ** Exceptions, logging and the observable calls *)

(** The Python exceptions the module meets.  [CancelledError] derives
    from [BaseException] only; the three others derive from [Exception]. *)
Inductive exn :=
| TimeoutError
| ValueError (msg : string)
| Exception (msg : string)
| CancelledError.

Definition is_Exception (e : exn) : bool :=
  match e with
  | CancelledError => false
  | _ => true
  end.

Definition is_TimeoutError (e : exn) : bool :=
  match e with
  | TimeoutError => true
  | _ => false
  end.

(** [str(e)] *)
Definition str (e : exn) : string :=
  match e with
  | TimeoutError => ""
  | ValueError msg => msg
  | Exception msg => msg
  | CancelledError => ""
  end.

(** The task each [BrowserUseAgent] is built with. *)
Inductive AgentTask :=
| OpenSiteOnly
| DownloadExcel
| FillForm (excel_data : RecordSet).

(** The [logger.warning] and [logger.error] sites of the module
    ([logger.info] lines are left out). *)
Inductive LogSite :=
| ErrReadExcel
| ErrDirectFile
| WarnZeroSize (path : string)
| ErrInvalidFile (path : string)
| ErrInitBrowser (e : exn)
| ErrCloseResources (e : exn)
| WarnDirectEmpty
| ErrValidateExcel (e : exn)
| ErrDirectDownload (e : exn)
| WarnDownloadTimeout
| WarnProcessTimeout
| WarnPollZeroSize (path : string)
| WarnPollInvalid (attempt : nat)
| ErrRun (message : string).

Inductive Event :=
| EvUrlopen
| EvReadExcel (path : string)
| EvRemove (path : string)
| EvLocate
| EvAgentRun (task : AgentTask) (max_steps timeout : nat)
| EvSleep (seconds : nat)
| EvWriteSummary (path : string)
| EvDoneCallback (success : bool)
| EvCloseContext
| EvCloseBrowser
| EvLog (site : LogSite).

(** ** The artifact locator *)

Module Locator.

(** [try: os.remove(path) except: pass] *)
Definition try_remove (path : string) (fs : FS) : FS :=
  match remove path fs with
  | Some fs' => fs'
  | None => fs
  end.

(** The [for file in files] loop that keeps the valid candidates and
    prunes the unreadable ones. *)
Fixpoint scan (files valid_files : list string) (fs : FS)
  : list string * FS * list Event :=
  match files with
  | [] => (valid_files, fs, [])
  | file :: rest =>
      let '(valid', fs', evs) :=
        match getsize file fs with
        | Some size =>
            if (0 <? size)%N then
              match read_excel file fs with
              | Some _ => (valid_files ++ [file], fs, [EvReadExcel file])
              | None =>
                  (valid_files, try_remove file fs,
                   [EvReadExcel file; EvLog (ErrInvalidFile file);
                    EvRemove file])
              end
            else (valid_files, fs, [EvLog (WarnZeroSize file)])
        | None =>
            (valid_files, try_remove file fs,
             [EvLog (ErrInvalidFile file); EvRemove file])
        end in
      let '(valid'', fs'', evs') := scan rest valid' fs' in
      (valid'', fs'', evs ++ evs')
  end.

(** [max(l, key=...)] on the keyed list: the first element whose key
    is largest. *)
Fixpoint max_by_key (best : string * N) (l : list (string * N))
  : string :=
  match l with
  | [] => fst best
  | x :: rest =>
      if (snd best <? snd x)%N then max_by_key x rest
      else max_by_key best rest
  end.

(** The keys [os.path.getctime] yields, or [None] when it raises on
    one of the files. *)
Fixpoint keyed (l : list string) (fs : FS) : option (list (string * N)) :=
  match l with
  | [] => Some []
  | p :: rest =>
      match getctime p fs, keyed rest fs with
      | Some c, Some ks => Some ((p, c) :: ks)
      | _, _ => None
      end
  end.

(** [find_latest_challenge_file()] on a directory: the outcome
    ([inl]: the returned value, [inr]: the exception raised), the
    directory afterwards and the calls made. *)
Definition locate (fs : FS) : (option string + exn) * FS * list Event :=
  let direct_ok :=
    match lookup direct_file fs with
    | Some f => (0 <? f_size f)%N
    | None => false
    end in
  let first :=
    if direct_ok then
      match read_excel direct_file fs with
      | Some _ => (true, fs, [EvReadExcel direct_file])
      | None =>
          (false, try_remove direct_file fs,
           [EvReadExcel direct_file; EvLog ErrDirectFile;
            EvRemove direct_file])
      end
    else (false, fs, []) in
  let '(found_direct, fs1, evs1) := first in
  if found_direct then (inl (Some direct_file), fs1, evs1)
  else
    let files := glob_challenge fs1 in
    let '(valid_files, fs2, evs2) := scan files [] fs1 in
    match valid_files with
    | [] => (inl None, fs2, evs1 ++ evs2)
    | v :: vs =>
        match keyed valid_files fs2 with
        | Some (k :: ks) => (inl (Some (max_by_key k ks)), fs2, evs1 ++ evs2)
        | _ => (inr (Exception "FileNotFoundError"), fs2, evs1 ++ evs2)
        end
    end.

End Locator.

(** ** Agent histories and the result record *)

(** What the coordinator reads of an [AgentHistoryList]: [is_done()],
    the rendering of [errors()], its truth value, and the lines that
    [log_agent_history] derives from its methods. *)
Record AgentHistoryList := mkHistory {
  is_done : bool;
  errors : string;
  truthy : bool;
  report : list string
}.

Module Result.
(** The dict that [run_automation] returns and hands to the callback;
    [error] is absent on the success path. *)
Record t := mk {
  success : bool;
  error : option string;
  download_history : option AgentHistoryList;
  process_history : option AgentHistoryList;
  download_gif : option string;
  process_gif : option string;
  result_file : string;
  summary : string
}.
End Result.

Definition nl : string := String (ascii_of_nat 10) EmptyString.

(** ["\n".join(lines)] *)
Definition join_lines (lines : list string) : string :=
  String.concat nl lines.

Definition log_agent_history (agent_name : string)
    (history : AgentHistoryList) (result_lines : list string) : list string :=
  let header := (nl ++ "===== " ++ agent_name ++ " =====")%string in
  if negb (truthy history) then
    result_lines ++ [(header ++ nl ++ "Nenhum histórico disponível")%string]
  else
    result_lines ++ [header] ++ report history.

(** ** The environment *)

(** The direct HTTP download: [FetchError] when [urlopen], [read] or the
    write of the body raises; otherwise the file that now sits at
    [challenge_direct.xlsx]. *)
Inductive FetchOutcome :=
| FetchError (msg : string)
| FetchSaved (size : N) (rows : option RecordSet) (ctime : N).

(** One [asyncio.wait_for(agent.run(max_steps=..), timeout=..)]. *)
Inductive AgentResult :=
| Completed (history : AgentHistoryList)
| TimedOut
| Crashed (msg : string)
| Cancelled.

Record AgentOutcome := mkAgentOutcome {
  ao_files : list File;      (* files the browser saved meanwhile *)
  ao_result : AgentResult
}.

(** One [asyncio.sleep]: the files that changed meanwhile, and whether
    the task was cancelled while suspended. *)
Record SleepOutcome := mkSleepOutcome {
  so_files : list File;
  so_cancelled : bool
}.

Inductive LaunchOutcome :=
| LaunchOk
| BrowserFails (e : exn)
| ContextFails (e : exn).

Record Env := mkEnv {
  launch : LaunchOutcome;
  urlopen : FetchOutcome;
  agent_run : nat -> AgentOutcome;         (* the k-th invocation of the run *)
  sleep : nat -> SleepOutcome;             (* the k-th sleep of the run *)
  write_summary : bool -> option string;   (* OSError of the write on the
                                              success (true) or failure path *)
  on_done_callback : option (Result.t -> option exn);
  gif_exists : string -> bool;
  context_close : option exn;
  browser_close : option exn
}.

(** ** State *)

Inductive CustomBrowser := Browser.
Inductive BrowserContext := Context.

(** The attributes of an [RPAChallengeRunner]. *)
Record Runner := mkRunner {
  download_agent : option AgentTask;
  process_agent : option AgentTask;
  browser : option CustomBrowser;
  context : option BrowserContext;
  run_id : string;
  download_script_path : string;
  process_script_path : string;
  download_gif_path : string;
  process_gif_path : string;
  result_file : string
}.

(** The entry of [read_excel_data]'s [lru_cache(maxsize=1)]: the key
    and the value returned for it. *)
Definition Cache := option (string * option RecordSet).

(** What the module level of the process holds, shared by every runner:
    the downloads directory, the cache of [read_excel_data], the written
    summaries of the logs directory and the calls made so far. *)
Record World := mkWorld {
  w_fs : FS;
  w_cache : Cache;
  w_logs : list (string * string);
  w_trace : list Event
}.

(** The locals of [run_automation] that its handler reads. *)
Record Frame := mkFrame {
  result_lines : list string;
  loc_download_history : option AgentHistoryList;
  loc_process_history : option AgentHistoryList
}.

Record St := mkSt {
  self : Runner;
  world : World;
  frame : Frame;
  n_agent : nat;
  n_sleep : nat
}.

Definition init_frame : Frame := mkFrame [] None None.

(** [get_script_path(base_name)], with the timestamp that its own
    [datetime.now()] yields. *)
Definition get_script_path (base_name now : string) : string :=
  (SCRIPT_DIR ++ "/" ++ base_name ++ "_" ++ now ++ ".py")%string.

(** [RPAChallengeRunner.__init__]: a fresh identifier and the output
    paths, derived from timestamps; no cache is created.  The two
    script paths read the clock again, hence their own timestamps. *)
Definition Runner_init (uuid timestamp now_download now_process : string)
  : Runner :=
  {| download_agent := None;
     process_agent := None;
     browser := None;
     context := None;
     run_id := uuid;
     download_script_path :=
       get_script_path "playwright_download_script" now_download;
     process_script_path :=
       get_script_path "playwright_process_script" now_process;
     download_gif_path :=
       (RECORDINGS_DIR ++ "/download_agent_" ++ timestamp ++ ".gif")%string;
     process_gif_path :=
       (RECORDINGS_DIR ++ "/process_agent_" ++ timestamp ++ ".gif")%string;
     result_file :=
       (LOGS_DIR ++ "/resultados_" ++ timestamp ++ ".txt")%string |}.

(** A run of a runner in a world, at the start of its script. *)
Definition start (r : Runner) (w : World) : St := mkSt r w init_frame 0 0.

Definition set_world (f : World -> World) (s : St) : St :=
  mkSt (self s) (f (world s)) (frame s) (n_agent s) (n_sleep s).

Definition set_self (f : Runner -> Runner) (s : St) : St :=
  mkSt (f (self s)) (world s) (frame s) (n_agent s) (n_sleep s).

Definition set_frame (f : Frame -> Frame) (s : St) : St :=
  mkSt (self s) (world s) (f (frame s)) (n_agent s) (n_sleep s).

Definition add_trace (evs : list Event) (w : World) : World :=
  mkWorld (w_fs w) (w_cache w) (w_logs w) (w_trace w ++ evs).

Definition put_fs (fs : FS) (w : World) : World :=
  mkWorld fs (w_cache w) (w_logs w) (w_trace w).

Definition put_cache (c : Cache) (w : World) : World :=
  mkWorld (w_fs w) c (w_logs w) (w_trace w).

Definition put_log (path content : string) (w : World) : World :=
  mkWorld (w_fs w) (w_cache w) ((path, content) :: w_logs w) (w_trace w).

(** The content of a written summary file. *)
Fixpoint read_log (path : string) (logs : list (string * string))
  : option string :=
  match logs with
  | [] => None
  | (p, c) :: rest => if String.eqb p path then Some c else read_log path rest
  end.

(** ** Computations that may raise *)

Inductive Outcome (A : Type) :=
| Ret (a : A)
| Raise (e : exn).
Arguments Ret {A} a.
Arguments Raise {A} e.

Definition M (A : Type) : Type := St -> Outcome A * St.

Definition ret {A} (a : A) : M A := fun s => (Ret a, s).

Definition raise {A} (e : exn) : M A := fun s => (Raise e, s).

Definition bind {A B} (c : M A) (k : A -> M B) : M B :=
  fun s =>
    match c s with
    | (Ret a, s') => k a s'
    | (Raise e, s') => (Raise e, s')
    end.

(** [try: c  except Exception as e: h e] *)
Definition try_except {A} (c : M A) (h : exn -> M A) : M A :=
  fun s =>
    match c s with
    | (Ret a, s') => (Ret a, s')
    | (Raise e, s') => if is_Exception e then h e s' else (Raise e, s')
    end.

(** [try: c  except asyncio.TimeoutError: h] *)
Definition try_except_timeout {A} (c : M A) (h : M A) : M A :=
  fun s =>
    match c s with
    | (Ret a, s') => (Ret a, s')
    | (Raise e, s') => if is_TimeoutError e then h s' else (Raise e, s')
    end.

(** [try: c  finally: f] where [c] returns or raises: [f] runs in both
    cases, and an exception of [f] replaces the outcome of [c]. *)
Definition try_finally {A} (c : M A) (f : M unit) : M A :=
  fun s =>
    let (o, s1) := c s in
    match f s1 with
    | (Ret _, s2) => (o, s2)
    | (Raise e, s2) => (Raise e, s2)
    end.

Declare Scope m_scope.
Delimit Scope m_scope with m.
Notation "x <- c ;; k" := (bind c (fun x => k))
  (at level 61, c at next level, right associativity) : m_scope.
Notation "c ;; k" := (bind c (fun _ => k))
  (at level 61, right associativity) : m_scope.
Open Scope m_scope.

Definition emit (ev : Event) : M unit :=
  fun s => (Ret tt, set_world (add_trace [ev]) s).

Definition get_fs : M FS := fun s => (Ret (w_fs (world s)), s).

Definition get_self : M Runner := fun s => (Ret (self s), s).

Definition get_frame : M Frame := fun s => (Ret (frame s), s).

Definition append_line (line : string) : M unit :=
  fun s =>
    (Ret tt,
     set_frame (fun f => mkFrame (result_lines f ++ [line])
                                 (loc_download_history f)
                                 (loc_process_history f)) s).

Definition set_result_lines (lines : list string) : M unit :=
  fun s =>
    (Ret tt,
     set_frame (fun f => mkFrame lines (loc_download_history f)
                                 (loc_process_history f)) s).

Definition set_download_history (h : AgentHistoryList) : M unit :=
  fun s =>
    (Ret tt,
     set_frame (fun f => mkFrame (result_lines f) (Some h)
                                 (loc_process_history f)) s).

Definition set_process_history (h : AgentHistoryList) : M unit :=
  fun s =>
    (Ret tt,
     set_frame (fun f => mkFrame (result_lines f) (loc_download_history f)
                                 (Some h)) s).

(** ** The memoized parse *)

(** [read_excel_data(file_path)] under [@lru_cache(maxsize=1)]: a call
    with the cached key returns the cached value and does not run the
    body; any other call runs the body, which reads the file (returning
    [None] where [pd.read_excel] raises), and stores the result in the
    single slot. *)
Definition read_excel_data (file_path : string) : M (option RecordSet) :=
  fun s =>
    let miss :=
      let r := read_excel file_path (w_fs (world s)) in
      let evs :=
        match r with
        | Some _ => [EvReadExcel file_path]
        | None => [EvReadExcel file_path; EvLog ErrReadExcel]
        end in
      (Ret r,
       set_world (fun w => put_cache (Some (file_path, r)) (add_trace evs w)) s)
    in
    match w_cache (world s) with
    | Some (key, value) =>
        if String.eqb key file_path then (Ret value, s) else miss
    | None => miss
    end.

(** [find_latest_challenge_file()] *)
Definition find_latest_challenge_file : M (option string) :=
  fun s =>
    let '(r, fs', evs) := Locator.locate (w_fs (world s)) in
    let s' := set_world (fun w => add_trace (EvLocate :: evs) (put_fs fs' w)) s in
    match r with
    | inl found => (Ret found, s')
    | inr e => (Raise e, s')
    end.

(** [process_excel_data()].  Its test [not excel_data] holds of [None]
    and of the empty list alike. *)
Definition process_excel_data : M RecordSet :=
  excel_file <- find_latest_challenge_file ;;
  match excel_file with
  | None =>
      raise (Exception "Não foi possível encontrar o arquivo Excel baixado")
  | Some path =>
      excel_data <- read_excel_data path ;;
      match excel_data with
      | Some (row :: rows) => ret (row :: rows)
      | _ => raise (Exception "Não foi possível ler os dados do arquivo Excel")
      end
  end.

(** [with open(path, 'wb') as f: f.write(content)] *)
Definition write_file (f : File) : M unit :=
  fun s => (Ret tt, set_world (fun w => put_fs (write f (w_fs w)) w) s).

(** [os.path.getsize(path)] where the caller does not guard it. *)
Definition os_path_getsize (path : string) : M N :=
  fs <- get_fs ;;
  match getsize path fs with
  | Some size => ret size
  | None => raise (Exception "FileNotFoundError")
  end.

(** ** The runner *)

Section Runner.

Variable env : Env.

(** [initialize_browser]: the browser, then its context; [False] when
    either raises. *)
Definition initialize_browser : M bool :=
  try_except
    (match launch env with
     | BrowserFails e => raise e
     | ContextFails e =>
         (fun s => (Ret tt, set_self (fun r =>
            mkRunner (download_agent r) (process_agent r) (Some Browser)
              (context r) (run_id r) (download_script_path r)
              (process_script_path r) (download_gif_path r)
              (process_gif_path r) (result_file r)) s)) ;;
         raise e
     | LaunchOk =>
         (fun s => (Ret true, set_self (fun r =>
            mkRunner (download_agent r) (process_agent r) (Some Browser)
              (Some Context) (run_id r) (download_script_path r)
              (process_script_path r) (download_gif_path r)
              (process_gif_path r) (result_file r)) s))
     end)
    (fun e => emit (EvLog (ErrInitBrowser e)) ;; ret false).

Definition clear_context : M unit :=
  fun s => (Ret tt, set_self (fun r =>
    mkRunner (download_agent r) (process_agent r) (browser r) None
      (run_id r) (download_script_path r) (process_script_path r)
      (download_gif_path r) (process_gif_path r) (result_file r)) s).

Definition clear_browser : M unit :=
  fun s => (Ret tt, set_self (fun r =>
    mkRunner (download_agent r) (process_agent r) None (context r)
      (run_id r) (download_script_path r) (process_script_path r)
      (download_gif_path r) (process_gif_path r) (result_file r)) s).

Definition await_close (ev : Event) (answer : option exn) : M unit :=
  emit ev ;;
  match answer with
  | Some e => raise e
  | None => ret tt
  end.

(** [close_resources]: one [try] around both closes. *)
Definition close_resources : M unit :=
  try_except
    (r <- get_self ;;
     match context r with
     | Some _ => await_close EvCloseContext (context_close env) ;; clear_context
     | None => ret tt
     end ;;
     r <- get_self ;;
     match browser r with
     | Some _ => await_close EvCloseBrowser (browser_close env) ;; clear_browser
     | None => ret tt
     end)
    (fun e => emit (EvLog (ErrCloseResources e))).

(** [await asyncio.wait_for(agent.run(max_steps=..), timeout=..)] *)
Definition wait_for_agent_run (task : AgentTask) (max_steps timeout : nat)
  : M AgentHistoryList :=
  fun s =>
    let o := agent_run env (n_agent s) in
    let w := world s in
    let w' := mkWorld (write_all (ao_files o) (w_fs w)) (w_cache w) (w_logs w)
                      (w_trace w ++ [EvAgentRun task max_steps timeout]) in
    let s' := mkSt (self s) w' (frame s) (S (n_agent s)) (n_sleep s) in
    match ao_result o with
    | Completed h => (Ret h, s')
    | TimedOut => (Raise TimeoutError, s')
    | Crashed msg => (Raise (Exception msg), s')
    | Cancelled => (Raise CancelledError, s')
    end.

(** [await asyncio.sleep(seconds)] *)
Definition asyncio_sleep (seconds : nat) : M unit :=
  fun s =>
    let o := sleep env (n_sleep s) in
    let w := world s in
    let w' := mkWorld (write_all (so_files o) (w_fs w)) (w_cache w) (w_logs w)
                      (w_trace w ++ [EvSleep seconds]) in
    let s' := mkSt (self s) w' (frame s) (n_agent s) (S (n_sleep s)) in
    if so_cancelled o then (Raise CancelledError, s') else (Ret tt, s').

Definition set_download_agent (task : AgentTask) : M unit :=
  fun s => (Ret tt, set_self (fun r =>
    mkRunner (Some task) (process_agent r) (browser r) (context r)
      (run_id r) (download_script_path r) (process_script_path r)
      (download_gif_path r) (process_gif_path r) (result_file r)) s).

Definition set_process_agent (task : AgentTask) : M unit :=
  fun s => (Ret tt, set_self (fun r =>
    mkRunner (download_agent r) (Some task) (browser r) (context r)
      (run_id r) (download_script_path r) (process_script_path r)
      (download_gif_path r) (process_gif_path r) (result_file r)) s).

(** The first [try] block of [run_download_agent]: the direct HTTP
    download.  [Some h] is its early [return download_history];
    [None] falls through to the agent that clicks the download
    button. *)
Definition direct_download : M (option AgentHistoryList) :=
  try_except
    (emit EvUrlopen ;;
     match urlopen env with
     | FetchError msg => raise (Exception msg)
     | FetchSaved size rows ctime =>
         write_file (mkFile direct_name size rows ctime false) ;;
         fs <- get_fs ;;
         if exists_ direct_file fs &&
            match getsize direct_file fs with
            | Some size' => (0 <? size')%N
            | None => false
            end
         then
           try_except
             (emit (EvReadExcel direct_file) ;;
              match read_excel direct_file fs with
              | None => raise (Exception "pd.read_excel")
              | Some test_df =>
                  if (0 <? List.length test_df)%nat then
                    set_download_agent OpenSiteOnly ;;
                    download_history <- wait_for_agent_run OpenSiteOnly 5 60 ;;
                    ret (Some download_history)
                  else
                    emit (EvLog WarnDirectEmpty) ;;
                    ret None
              end)
             (fun excel_err =>
                emit (EvLog (ErrValidateExcel excel_err)) ;;
                ret None)
         else ret None
     end)
    (fun e =>
       emit (EvLog (ErrDirectDownload e)) ;;
       ret None).

(** The rest of [run_download_agent]: the download agent under its
    timeout and single retry. *)
Definition download_via_agent : M AgentHistoryList :=
  set_download_agent DownloadExcel ;;
  try_except_timeout
    (wait_for_agent_run DownloadExcel 25 300)
    (emit (EvLog WarnDownloadTimeout) ;;
     wait_for_agent_run DownloadExcel 25 300).

Definition run_download_agent : M AgentHistoryList :=
  r <- get_self ;;
  match context r with
  | None => raise (ValueError "Browser context não inicializado")
  | Some _ =>
      early <- direct_download ;;
      match early with
      | Some download_history => ret download_history
      | None => download_via_agent
      end
  end.

Definition run_process_agent (excel_data : RecordSet) : M AgentHistoryList :=
  r <- get_self ;;
  match context r with
  | None => raise (ValueError "Browser context não inicializado")
  | Some _ =>
      set_process_agent (FillForm excel_data) ;;
      try_except_timeout
        (wait_for_agent_run (FillForm excel_data) 100 600)
        (emit (EvLog WarnProcessTimeout) ;;
         wait_for_agent_run (FillForm excel_data) 100 600)
  end.

(** The [for attempt in range(5)] loop of [run_automation]; the value
    is [excel_file] when the loop is left, by [break] or by running
    out of attempts. *)
Fixpoint poll (attempts : list nat) (excel_file : option string)
  : M (option string) :=
  match attempts with
  | [] => ret excel_file
  | attempt :: rest =>
      excel_file <- find_latest_challenge_file ;;
      match excel_file with
      | Some path =>
          file_size <- os_path_getsize path ;;
          if (0 <? file_size)%N then
            asyncio_sleep 2 ;;
            size_again <- os_path_getsize path ;;
            if (file_size =? size_again)%N then ret excel_file
            else
              emit (EvLog (WarnPollInvalid (attempt + 1))) ;;
              asyncio_sleep 5 ;;
              poll rest excel_file
          else
            emit (EvLog (WarnPollZeroSize path)) ;;
            emit (EvLog (WarnPollInvalid (attempt + 1))) ;;
            asyncio_sleep 5 ;;
            poll rest excel_file
      | None =>
          emit (EvLog (WarnPollInvalid (attempt + 1))) ;;
          asyncio_sleep 5 ;;
          poll rest excel_file
      end
  end.

(** [open(self.result_file, "w")] and the write of the joined lines. *)
Definition save_summary (on_success : bool) : M unit :=
  fun s =>
    let path := result_file (self s) in
    let s1 := set_world (add_trace [EvWriteSummary path]) s in
    match write_summary env on_success with
    | Some msg => (Raise (Exception msg), s1)
    | None =>
        (Ret tt,
         set_world (put_log path (join_lines (result_lines (frame s)))) s1)
    end.

(** The dict built for the callback and for the caller. *)
Definition result_dict (ok : bool) (err : option string) : M Result.t :=
  fun s =>
    let r := self s in
    let f := frame s in
    (Ret (Result.mk ok err
            (loc_download_history f) (loc_process_history f)
            (if gif_exists env (download_gif_path r)
             then Some (download_gif_path r) else None)
            (if gif_exists env (process_gif_path r)
             then Some (process_gif_path r) else None)
            (result_file r)
            (join_lines (result_lines f))),
     s).

Definition call_done_callback (d : Result.t) : M unit :=
  match on_done_callback env with
  | None => ret tt
  | Some callback =>
      emit (EvDoneCallback (Result.success d)) ;;
      match callback d with
      | Some e => raise e
      | None => ret tt
      end
  end.

(** The [try] block of [run_automation] in four parts.  After the
    fetch phase: the wait, the validation poll and the parse. *)
Definition validate_and_parse (download_history : AgentHistoryList)
  : M (AgentHistoryList * RecordSet) :=
  asyncio_sleep 10 ;;
  excel_file <- poll (seq 0 5) None ;;
  match excel_file with
  | None =>
      let error_msg :=
        "Não foi possível encontrar o arquivo Excel após várias tentativas" in
      append_line error_msg ;;
      raise (Exception error_msg)
  | Some _ =>
      excel_data <- process_excel_data ;;
      ret (download_history, excel_data)
  end.

(** The fetch phase and what follows it up to the parsed records. *)
Definition acquire : M (AgentHistoryList * RecordSet) :=
  download_history <- run_download_agent ;;
  set_download_history download_history ;;
  (if negb (is_done download_history) then
     let error_msg :=
       ("Falha ao baixar o arquivo Excel: " ++ errors download_history)%string in
     append_line error_msg ;;
     raise (Exception error_msg)
   else ret tt) ;;
  validate_and_parse download_history.

(** After the submission phase: the summary, its file, the callback
    and the record. *)
Definition summarize (download_history process_history : AgentHistoryList)
  : M Result.t :=
  append_line (nl ++ "===== RESUMO FINAL DA EXECUÇÃO =====")%string ;;
  (if truthy download_history then
     f <- get_frame ;;
     set_result_lines
       (log_agent_history "Download Agent" download_history
          (result_lines f))
   else ret tt) ;;
  (if truthy process_history then
     f <- get_frame ;;
     set_result_lines
       (log_agent_history "Process Agent" process_history
          (result_lines f))
   else ret tt) ;;
  save_summary true ;;
  d <- result_dict true None ;;
  call_done_callback d ;;
  ret d.

(** The submission phase and what follows it. *)
Definition submit (download_history : AgentHistoryList)
    (excel_data : RecordSet) : M Result.t :=
  process_history <- run_process_agent excel_data ;;
  set_process_history process_history ;;
  (if negb (is_done process_history) then
     let error_msg :=
       ("Falha ao processar os dados do formulário: "
          ++ errors process_history)%string in
     append_line error_msg ;;
     raise (Exception error_msg)
   else ret tt) ;;
  summarize download_history process_history.

Definition run_automation_try : M Result.t :=
  acquired <- acquire ;;
  submit (fst acquired) (snd acquired).

(** The [except Exception as e] handler of [run_automation]. *)
Definition run_automation_except (e : exn) : M Result.t :=
  let error_message :=
    ("Erro durante a execução do RPA Challenge: " ++ str e)%string in
  emit (EvLog (ErrRun error_message)) ;;
  append_line error_message ;;
  save_summary false ;;
  d <- result_dict false (Some (str e)) ;;
  call_done_callback d ;;
  ret d.

(** [result_lines = []; download_history = None; process_history = None] *)
Definition enter : M unit :=
  fun s => (Ret tt, set_frame (fun _ => init_frame) s).

Definition run_automation : M Result.t :=
  enter ;;
  try_finally
    (try_except run_automation_try run_automation_except)
    close_resources.

End Runner.

(** ** Vocabulary of the properties *)

(** The events that a step added to the trace. *)
Definition added (s s' : St) (evs : list Event) : Prop :=
  w_trace (world s') = w_trace (world s) ++ evs.

(** A path whose file is there, is not empty and parses. *)
Definition is_valid (fs : FS) (path : string) : bool :=
  match lookup path fs with
  | Some f =>
      (0 <? f_size f)%N &&
      match f_rows f with Some _ => true | None => false end
  | None => false
  end.

(** A valid candidate of the scope: a path that the pattern reports
    and that is valid. *)
Definition valid_candidate (fs : FS) (path : string) : Prop :=
  In path (glob_challenge fs) /\ is_valid fs path = true.

(** The handler of [run_automation] meets no failure of its own: the
    write of the summary on the failure path succeeds and the callback
    returns normally on a failure record. *)
Definition handler_quiet (env : Env) : Prop :=
  write_summary env false = None /\
  forall callback d,
    on_done_callback env = Some callback ->
    Result.success d = false -> callback d = None.

(** Closing the context or the browser raises, if at all, an
    [Exception]: the task is not cancelled while it releases. *)
Definition release_not_cancelled (env : Env) : Prop :=
  (forall e, context_close env = Some e -> is_Exception e = true) /\
  (forall e, browser_close env = Some e -> is_Exception e = true).

(** No [CancelledError] is delivered to the run: not while an agent
    runs, not in a sleep, not by the callback, not during release. *)
Definition never_cancelled (env : Env) : Prop :=
  (forall k, ao_result (agent_run env k) <> Cancelled) /\
  (forall k, so_cancelled (sleep env k) = false) /\
  (forall callback d,
      on_done_callback env = Some callback ->
      callback d <> Some CancelledError) /\
  release_not_cancelled env.

(** What [close_resources] is to do for a runner: close the context if
    there is one, then the browser if there is one, stop at the first
    close that raises and log its error. *)
Definition release_events (env : Env) (r : Runner) : list Event :=
  let close_browser :=
    match browser r with
    | Some _ =>
        EvCloseBrowser ::
        match browser_close env with
        | Some e => [EvLog (ErrCloseResources e)]
        | None => []
        end
    | None => []
    end in
  match context r with
  | Some _ =>
      EvCloseContext ::
      match context_close env with
      | Some e => [EvLog (ErrCloseResources e)]
      | None => close_browser
      end
  | None => close_browser
  end.

(** The two invocations of a supervised agent whose first run timed
    out: same task, same step budget, same time budget, and the warning
    in between. *)
Definition retried (task : AgentTask) (max_steps timeout : nat)
    (warning : LogSite) : list Event :=
  [EvAgentRun task max_steps timeout; EvLog warning;
   EvAgentRun task max_steps timeout].

Fixpoint count_event (p : Event -> bool) (l : list Event) : nat :=
  match l with
  | [] => 0
  | ev :: rest => (if p ev then 1 else 0) + count_event p rest
  end.

Definition is_download_run (ev : Event) : bool :=
  match ev with
  | EvAgentRun DownloadExcel _ _ => true
  | _ => false
  end.

Definition is_locate (ev : Event) : bool :=
  match ev with
  | EvLocate => true
  | _ => false
  end.

Definition is_poll_rejection (ev : Event) : bool :=
  match ev with
  | EvLog (WarnPollInvalid _) => true
  | _ => false
  end.

(** A computation that never raises [CancelledError]. *)
Definition no_cancel {A} (c : M A) : Prop :=
  forall s, fst (c s) <> Raise CancelledError.

(** A postcondition of the normal returns of a computation. *)
Definition ensures {A} (c : M A) (Q : A -> St -> Prop) : Prop :=
  forall s a s', c s = (Ret a, s') -> Q a s'.

(** The record is the success record and the summary file it names
    holds its summary. *)
Definition success_recorded (d : Result.t) (s : St) : Prop :=
  Result.success d = true /\
  Result.error d = None /\
  read_log (Result.result_file d) (w_logs (world s)) = Some (Result.summary d).

(** ** Sample data *)

Module Sample.

Definition rows_a : RecordSet := [[("First Name", "Ann")]].
Definition rows_b : RecordSet := [[("First Name", "Bob")]].

Definition done : AgentHistoryList := mkHistory true "[]" true ["ok"].

Definition empty_world : World := mkWorld [] None [] [].

Definition calm : nat -> SleepOutcome := fun _ => mkSleepOutcome [] false.

Definition always_done : nat -> AgentOutcome :=
  fun _ => mkAgentOutcome [] (Completed done).

(** Two runs whose direct download succeeds, with different data. *)
Definition env_a : Env :=
  mkEnv LaunchOk (FetchSaved 10 (Some rows_a) 1) always_done calm
        (fun _ => None) None (fun _ => false) None None.

Definition env_b : Env :=
  mkEnv LaunchOk (FetchSaved 12 (Some rows_b) 2) always_done calm
        (fun _ => None) None (fun _ => false) None None.

(** A runner as the caller prepares it: constructed, then
    [initialize_browser] with a browser that launches. *)
Definition ready (uuid timestamp : string) : Runner :=
  self (snd (initialize_browser env_a
               (start (Runner_init uuid timestamp timestamp timestamp)
                      empty_world))).

Definition runner_a : Runner := ready "run-a" "20250101_100000".
Definition runner_b : Runner := ready "run-b" "20250101_110000".

(** The direct download fails and the task is cancelled while the
    download agent runs. *)
Definition env_cancelled : Env :=
  mkEnv LaunchOk (FetchError "HTTP Error 503")
        (fun _ => mkAgentOutcome [] Cancelled) calm
        (fun _ => None) None (fun _ => false) None None.

(** The direct download fails; the download agent saves
    [challenge.xlsx], which is then rewritten with another size during
    every sleep. *)
Definition rewritten (k : nat) : File :=
  mkFile "challenge.xlsx" (100 + N.of_nat k) (Some rows_a) 5 false.

Definition env_unstable : Env :=
  mkEnv LaunchOk (FetchError "HTTP Error 503")
        (fun k => match k with
                  | 0 => mkAgentOutcome [rewritten 0] (Completed done)
                  | _ => mkAgentOutcome [] (Completed done)
                  end)
        (fun k => mkSleepOutcome [rewritten (S k)] false)
        (fun _ => None) None (fun _ => false) None None.

(** The direct download succeeds and validates, and the agent that is
    only to open the site does not finish within its 60 seconds. *)
Definition env_open_site_timeout : Env :=
  mkEnv LaunchOk (FetchSaved 10 (Some rows_a) 1)
        (fun k => match k with
                  | 0 => mkAgentOutcome [] TimedOut
                  | _ => mkAgentOutcome [] (Completed done)
                  end)
        calm (fun _ => None) None (fun _ => false) None None.

(** The first agent invocation times out, the next ones complete;
    closing the context raises. *)
Definition env_retry : Env :=
  mkEnv LaunchOk (FetchError "HTTP Error 503")
        (fun k => match k with
                  | 0 => mkAgentOutcome [rewritten 0] TimedOut
                  | _ => mkAgentOutcome [] (Completed done)
                  end)
        calm (fun _ => None) None (fun _ => false)
        (Some (Exception "Target closed")) None.

End Sample.

(** ** Further vocabulary: the scope after a scan *)

(** A path whose file is there, is not empty, does not parse and can
    be removed: what the locator deletes when it meets it. *)
Definition removable_corrupt (fs : FS) (path : string) : bool :=
  match lookup path fs with
  | Some f =>
      (0 <? f_size f)%N &&
      match f_rows f with Some _ => false | None => true end &&
      negb (f_locked f)
  | None => false
  end.

(** The scope without its removable corrupt candidates. *)
Definition pruned (fs : FS) : FS :=
  filter (fun f =>
            negb (removable_corrupt fs (downloads_path (f_name f)) &&
                  glob_match (f_name f)))
         fs.

Fixpoint memb (p : string) (l : list string) : bool :=
  match l with
  | [] => false
  | q :: rest => String.eqb p q || memb p rest
  end.

(** The valid candidates of a scope, in the order of the listing, and a
    path with its creation time. *)
Definition valid_paths (fs : FS) : list string :=
  filter (is_valid fs) (glob_challenge fs).

Definition with_ctime (fs : FS) (path : string) : string * N :=
  (path, match getctime path fs with Some c => c | None => 0%N end).

(** What the locator is to answer on a scope. *)
Definition latest_valid (fs : FS) : option string :=
  if is_valid fs direct_file then Some direct_file
  else
    match map (with_ctime fs) (valid_paths fs) with
    | [] => None
    | k :: ks => Some (Locator.max_by_key k ks)
    end.

(** The two messages of [process_excel_data]. *)
Definition msg_not_found : string :=
  "Não foi possível encontrar o arquivo Excel baixado".
Definition msg_not_readable : string :=
  "Não foi possível ler os dados do arquivo Excel".

(** ** Further vocabulary: runs *)

Definition msg_no_context : string := "Browser context não inicializado".

(** The call of the done-callback, if the caller passed one. *)
Definition callback_events (env : Env) (ok : bool) : list Event :=
  match on_done_callback env with
  | Some _ => [EvDoneCallback ok]
  | None => []
  end.

(** What the failure handler does after an exception with text [msg]:
    it logs, writes the summary, calls the callback. *)
Definition handler_events (env : Env) (r : Runner) (msg : string)
  : list Event :=
  [EvLog (ErrRun ("Erro durante a execução do RPA Challenge: " ++ msg)%string);
   EvWriteSummary (result_file r)] ++ callback_events env false.

(** The record of the failure handler. *)
Definition failure_record (env : Env) (r : Runner) (f : Frame) (msg : string)
  : Result.t :=
  Result.mk false (Some msg)
    (loc_download_history f) (loc_process_history f)
    (if gif_exists env (download_gif_path r)
     then Some (download_gif_path r) else None)
    (if gif_exists env (process_gif_path r)
     then Some (process_gif_path r) else None)
    (result_file r)
    (join_lines
       (result_lines f ++
        [("Erro durante a execução do RPA Challenge: " ++ msg)%string])).

(** A computation that leaves the locals of [run_automation] alone. *)
Definition keeps_frame {A} (c : M A) : Prop :=
  forall s, frame (snd (c s)) = frame s.

(** A computation that leaves the runner's attributes alone. *)
Definition keeps_self {A} (c : M A) : Prop :=
  forall s, self (snd (c s)) = self s.

(** The messages of the two phase checks of [run_automation]. *)
Definition msg_fetch_failed (h : AgentHistoryList) : string :=
  ("Falha ao baixar o arquivo Excel: " ++ errors h)%string.
Definition msg_submit_failed (h : AgentHistoryList) : string :=
  ("Falha ao processar os dados do formulário: " ++ errors h)%string.

(** The environment of a run whose direct download succeeds, whose
    open-site agent completes and whose form agent gives up. *)
Definition env_form_gives_up : Env :=
  mkEnv LaunchOk (FetchSaved 10 (Some Sample.rows_a) 1)
        (fun k => match k with
                  | 0 => mkAgentOutcome [] (Completed Sample.done)
                  | _ => mkAgentOutcome []
                           (Completed (mkHistory false "['max steps reached']"
                                                 true []))
                  end)
        Sample.calm (fun _ => None) None (fun _ => false) None None.

(** A caller whose done-callback fails on the success record only. *)
Definition fussy_callback (d : Result.t) : option exn :=
  if Result.success d then Some (Exception "callback failed") else None.

Definition env_fussy_callback : Env :=
  mkEnv LaunchOk (FetchSaved 10 (Some Sample.rows_a) 1) Sample.always_done
        Sample.calm (fun _ => None) (Some fussy_callback) (fun _ => false)
        None None.

(** What one agent invocation gives back to the code that awaits it. *)
Definition outcome_of (r : AgentResult) : Outcome AgentHistoryList :=
  match r with
  | Completed h => Ret h
  | TimedOut => Raise TimeoutError
  | Crashed msg => Raise (Exception msg)
  | Cancelled => Raise CancelledError
  end.

(** ** Further vocabulary: counting calls *)

(** Every run of a computation adds to the trace at most [n] events
    that satisfy [p]. *)
Definition bounded (p : Event -> bool) (n : nat) {A} (c : M A) : Prop :=
  forall s, exists evs, added s (snd (c s)) evs /\ count_event p evs <= n.

Definition cost (p : Event -> bool) (ev : Event) : nat :=
  if p ev then 1 else 0.

(** The events of reading, checking and pruning files, and the log. *)
Definition is_fs_event (ev : Event) : bool :=
  match ev with
  | EvReadExcel _ | EvRemove _ | EvLog _ => true
  | _ => false
  end.

Definition is_agent_run (ev : Event) : bool :=
  match ev with EvAgentRun _ _ _ => true | _ => false end.

Definition is_urlopen (ev : Event) : bool :=
  match ev with EvUrlopen => true | _ => false end.

Definition is_sleep (ev : Event) : bool :=
  match ev with EvSleep _ => true | _ => false end.

Definition is_write_summary (ev : Event) : bool :=
  match ev with EvWriteSummary _ => true | _ => false end.

Definition is_done_callback (ev : Event) : bool :=
  match ev with EvDoneCallback _ => true | _ => false end.

Definition is_close (ev : Event) : bool :=
  match ev with EvCloseContext | EvCloseBrowser => true | _ => false end.

(** * The web tab

    [src/src/webui/components/rpa_challenge_tab.py]: the three handlers
    behind the buttons of the tab.  A handler is modelled as it runs
    when no other handler is suspended; the cancellation of a run that
    is in progress is, as before, an outcome of the run's environment.
    The lookups of components by id succeed, the values of text
    components are strings, and [headless] only reaches the launch of
    the browser, whose outcome is the environment's.  The log lines of
    the handlers themselves are not recorded. *)
Module Tab.

(** The components of the tab that the handlers update, as
    [webui_manager.get_component_by_id] returns them for the ids
    [rpa_challenge.run_button], ... *)
Inductive Component :=
| run_button
| stop_button
| status
| download_gif
| process_gif
| log_output.

Definition Component_eqb (a b : Component) : bool :=
  match a, b with
  | run_button, run_button => true
  | stop_button, stop_button => true
  | status, status => true
  | download_gif, download_gif => true
  | process_gif, process_gif => true
  | log_output, log_output => true
  | _, _ => false
  end.

Inductive Value :=
| Str (s : string)
| PyNone.

(** [gr.update(interactive=.., value=.., visible=..)]; an argument that
    is not given is [None] here. *)
Record Update := gr_update {
  interactive : option bool;
  value : option Value;
  visible : option bool
}.

(** The dict that a handler yields, in the order of its keys. *)
Definition Updates : Type := list (Component * Update).

Fixpoint get (c : Component) (u : Updates) : option Update :=
  match u with
  | [] => None
  | (c', v) :: rest => if Component_eqb c c' then Some v else get c rest
  end.

(** What [components.get] finds for the components that the run
    handler reads; [None] when the key is absent.  The values of text
    components are strings. *)
Record Inputs := mkInputs {
  llm_provider : option string;
  llm_model_name : option string;
  current_log : option string
}.

(** [if v] for an optional string. *)
Definition py_truthy (v : option string) : bool :=
  match v with
  | Some s => negb (String.eqb s EmptyString)
  | None => false
  end.

(** [components.get(log_output_comp, "")] *)
Definition log_text (components : Inputs) : string :=
  match current_log components with
  | Some s => s
  | None => EmptyString
  end.

(** What one click on [run_button] meets outside the tab. *)
Record TabEnv := mkTabEnv {
  get_llm_model : option exn;        (* the exception that
                                        [llm_provider.get_llm_model] raises *)
  uuid4 : string;
  now : string;                      (* the clock, as the constructor and *)
  now_download : string;             (* the two calls of [get_script_path] *)
  now_process : string;              (* format it *)
  runner_env : Env;
  path_exists : string -> bool       (* [os.path.exists] in the callback of
                                        the tab, after the run *)
}.

(** The handler calls [runner.run_automation(llm)]: no callback is
    passed to the runner. *)
Definition without_callback (env : Env) : Env :=
  mkEnv (launch env) (urlopen env) (agent_run env) (sleep env)
        (write_summary env) None (gif_exists env)
        (context_close env) (browser_close env).

(** ** State

    Runner objects live in a store and are named by references: the
    manager and the handler that created a runner hold the same
    object. *)
Definition Ref : Type := nat.

Inductive Task := RunTask (runner : Ref).

(** The two attributes of the [WebuiManager] that the handlers use; an
    attribute that is missing or [None] is [None]. *)
Record Manager := mkManager {
  rpa_challenge_task : option Task;
  rpa_challenge_runner : option Ref
}.

Record TabSt := mkTabSt {
  store : Ref -> Runner;
  next : Ref;                        (* the first reference not in use *)
  manager : Manager;
  tab_world : World
}.

Definition update (r : Ref) (v : Runner) (h : Ref -> Runner) : Ref -> Runner :=
  fun r' => if Nat.eqb r' r then v else h r'.

(** ** Handlers: state, exceptions and the updates yielded so far *)

Definition G (A : Type) : Type := TabSt -> Outcome A * TabSt * list Updates.

Definition gret {A} (a : A) : G A := fun t => (Ret a, t, []).

Definition graise {A} (e : exn) : G A := fun t => (Raise e, t, []).

Definition gbind {A B} (c : G A) (k : A -> G B) : G B :=
  fun t =>
    match c t with
    | (Ret a, t1, ys) =>
        match k a t1 with
        | (o, t2, ys') => (o, t2, ys ++ ys')
        end
    | (Raise e, t1, ys) => (Raise e, t1, ys)
    end.

Declare Scope g_scope.
Delimit Scope g_scope with G.
Notation "x <- c ;; k" := (gbind c (fun x => k))
  (at level 61, c at next level, right associativity) : g_scope.
Notation "c ;; k" := (gbind c (fun _ => k))
  (at level 61, right associativity) : g_scope.
#[local] Open Scope g_scope.

Definition yield_ (u : Updates) : G unit := fun t => (Ret tt, t, [u]).

(** [try: c  except asyncio.CancelledError: h1  except Exception as e: h2 e] *)
Definition try_except_cancelled {A} (c : G A) (on_cancelled : G A)
    (on_exception : exn -> G A) : G A :=
  fun t =>
    match c t with
    | (Ret a, t1, ys) => (Ret a, t1, ys)
    | (Raise e, t1, ys) =>
        match (match e with
               | CancelledError => on_cancelled
               | _ => on_exception e
               end) t1 with
        | (o, t2, ys') => (o, t2, ys ++ ys')
        end
    end.

(** [await runner.method(..)]: the method runs on the object that the
    reference names, in the world as it is, and leaves both changed. *)
Definition call {A} (runner : Ref) (method : M A) : G A :=
  fun t =>
    match method (start (store t runner) (tab_world t)) with
    | (o, s) =>
        (o,
         mkTabSt (update runner (self s) (store t)) (next t) (manager t)
                 (world s),
         [])
    end.

(** [RPAChallengeRunner(webui_manager)] *)
Definition RPAChallengeRunner (tenv : TabEnv) : G Ref :=
  fun t =>
    let r := next t in
    (Ret r,
     mkTabSt (update r (Runner_init (uuid4 tenv) (now tenv)
                          (now_download tenv) (now_process tenv))
                     (store t))
             (S r) (manager t) (tab_world t),
     []).

Definition get_manager : G Manager := fun t => (Ret (manager t), t, []).

Definition set_rpa_challenge_runner (r : option Ref) : G unit :=
  fun t =>
    (Ret tt,
     mkTabSt (store t) (next t)
             (mkManager (rpa_challenge_task (manager t)) r) (tab_world t),
     []).

Definition set_rpa_challenge_task (k : option Task) : G unit :=
  fun t =>
    (Ret tt,
     mkTabSt (store t) (next t)
             (mkManager k (rpa_challenge_runner (manager t))) (tab_world t),
     []).

(** ** The updates *)

Definition RUN_LABEL : string := "▶️ Executar RPA Challenge".

Definition text (s : string) : Update := gr_update None (Some (Str s)) None.

Definition run_enabled : Update := gr_update (Some true) (Some (Str RUN_LABEL)) None.

Definition stop_disabled : Update := gr_update (Some false) None None.

Definition starting : Updates :=
  [(run_button, gr_update (Some false) (Some (Str "⏳ Executando...")) None);
   (stop_button, gr_update (Some true) None None);
   (status, text "Iniciando o RPA Challenge...");
   (log_output, text ("Iniciando o RPA Challenge..." ++ nl)%string)].

Definition MSG_SUCCESS : string := "RPA Challenge concluído com sucesso!".

Definition MSG_CANCELLED : string := "RPA Challenge cancelado pelo usuário".

Definition MSG_NO_LLM : string :=
  "Erro: LLM não configurado. Configure nas Configurações do Agente.".

Definition MSG_NO_BROWSER : string := "Falha ao inicializar o navegador".

(** The local [on_done_callback] of the run handler, which the handler
    itself applies to the record that the run returned. *)
Definition on_done_callback (tenv : TabEnv) (components : Inputs)
    (results : Result.t) : Updates :=
  let gif (c : Component) (path : option string) : Updates :=
    match path with
    | Some p =>
        if py_truthy path && path_exists tenv p
        then [(c, gr_update None (Some (Str p)) (Some true))]
        else []
    | None => []
    end in
  [(run_button, run_enabled);
   (stop_button, stop_disabled);
   (status,
    if Result.success results then text MSG_SUCCESS
    else text ("Erro no RPA Challenge: "
               ++ match Result.error results with
                  | Some msg => msg
                  | None => "Erro desconhecido"
                  end)%string)]
  ++ gif download_gif (Result.download_gif results)
  ++ gif process_gif (Result.process_gif results)
  ++ (if py_truthy (Some (Result.summary results))
      then [(log_output,
             text (log_text components ++ nl ++ nl
                   ++ Result.summary results)%string)]
      else []).

(** ** The handlers *)

Definition run_rpa_challenge (tenv : TabEnv) (components : Inputs) : G unit :=
  let env := without_callback (runner_env tenv) in
  yield_ starting ;;
  try_except_cancelled
    (if negb (py_truthy (llm_provider components))
        || negb (py_truthy (llm_model_name components))
     then
       yield_ [(status, text MSG_NO_LLM);
               (run_button, run_enabled);
               (stop_button, stop_disabled);
               (log_output, text MSG_NO_LLM)]
     else
       yield_ [(status, text "Inicializando LLM...");
               (log_output, text ("Inicializando LLM..." ++ nl)%string)] ;;
       match get_llm_model tenv with
       | Some e => graise e
       | None => gret tt
       end ;;
       runner <- RPAChallengeRunner tenv ;;
       set_rpa_challenge_runner (Some runner) ;;
       yield_ [(status, text "Inicializando navegador...");
               (log_output,
                text (log_text components
                      ++ "Inicializando navegador..." ++ nl)%string)] ;;
       success <- call runner (initialize_browser env) ;;
       if negb success then graise (Exception MSG_NO_BROWSER)
       else
         yield_ [(status, text "Executando RPA Challenge...");
                 (log_output,
                  text (log_text components
                        ++ "Executando RPA Challenge..." ++ nl)%string)] ;;
         set_rpa_challenge_task (Some (RunTask runner)) ;;
         results <- call runner (run_automation env) ;;
         set_rpa_challenge_task None ;;
         yield_ (on_done_callback tenv components results))
    (yield_ [(status, text MSG_CANCELLED);
             (run_button, run_enabled);
             (stop_button, stop_disabled);
             (log_output,
              text (log_text components ++ nl ++ MSG_CANCELLED)%string)])
    (fun e =>
       yield_ [(status, text ("Erro: " ++ str e)%string);
               (run_button, run_enabled);
               (stop_button, stop_disabled);
               (log_output,
                text (log_text components ++ nl
                      ++ "Erro ao executar RPA Challenge: " ++ str e)%string)]).

(** [handle_stop]; the task that it finds has finished, and [cancel()]
    does nothing on a finished task. *)
Definition handle_stop (env : Env) : G Updates :=
  m <- get_manager ;;
  match rpa_challenge_task m with
  | Some _ => set_rpa_challenge_task None
  | None => gret tt
  end ;;
  match rpa_challenge_runner m with
  | Some runner => call runner (close_resources env)
  | None => gret tt
  end ;;
  gret [(status, text "RPA Challenge interrompido");
        (run_button, run_enabled);
        (stop_button, stop_disabled)].

Definition handle_clear (env : Env) : G Updates :=
  m <- get_manager ;;
  match rpa_challenge_runner m with
  | Some runner =>
      call runner (close_resources env) ;;
      set_rpa_challenge_runner None
  | None => gret tt
  end ;;
  gret [(status, text EmptyString);
        (log_output, text EmptyString);
        (download_gif, gr_update None (Some PyNone) (Some false));
        (process_gif, gr_update None (Some PyNone) (Some false))].

(** The wrappers that [create_rpa_challenge_tab] binds to the buttons. *)
Definition run_wrapper (tenv : TabEnv) (components_dict : Inputs) : G unit :=
  run_rpa_challenge tenv components_dict.

Definition stop_wrapper (env : Env) : G unit :=
  updates <- handle_stop env ;;
  yield_ updates.

Definition clear_wrapper (env : Env) : G unit :=
  updates <- handle_clear env ;;
  yield_ updates.

(** ** Sessions: one click after the other *)

Inductive Click :=
| ClickRun (tenv : TabEnv) (components : Inputs)
| ClickStop (env : Env)
| ClickClear (env : Env).

Definition click (c : Click) : G unit :=
  match c with
  | ClickRun tenv components => run_wrapper tenv components
  | ClickStop env => stop_wrapper env
  | ClickClear env => clear_wrapper env
  end.

(** The state after the clicks, each handler running to its end
    (normal or not) before the next click. *)
Fixpoint session (clicks : list Click) (t : TabSt) : TabSt :=
  match clicks with
  | [] => t
  | c :: rest => session rest (snd (fst (click c t)))
  end.

(** The updates of a handler: the first, the last, those between. *)
Definition final (ys : list Updates) : Updates := last ys [].

Definition between (ys : list Updates) : list Updates := removelast (tl ys).

Definition buttons_untouched (u : Updates) : Prop :=
  get run_button u = None /\ get stop_button u = None.

End Tab.

(** Sample clicks on the tab. *)
Module TabSample.

Definition configured : Tab.Inputs :=
  Tab.mkInputs (Some "openai") (Some "gpt-4o") (Some "ready").

Definition tenv_of (env : Env) : Tab.TabEnv :=
  Tab.mkTabEnv None "run-a" "20250101_100000" "20250101_100000"
               "20250101_100000" env (fun _ => false).

Definition tenv_a : Tab.TabEnv := tenv_of Sample.env_a.

(** A tab on which nothing was clicked yet. *)
Definition fresh_tab : Tab.TabSt :=
  Tab.mkTabSt (fun _ => Runner_init "" "" "" "") 0
              (Tab.mkManager None None) Sample.empty_world.

(** The browser launches, the creation of its context raises. *)
Definition env_no_context : Env :=
  mkEnv (ContextFails (Exception "Target closed"))
        (FetchSaved 10 (Some Sample.rows_a) 1) Sample.always_done Sample.calm
        (fun _ => None) None (fun _ => false) None None.

End TabSample.

(** ** Further vocabulary: the release

    The exception, if any, of the first close that [close_resources]
    calls and that raises: the context is closed first when the runner
    holds one, the browser when the runner holds no context or the
    close of the context returned. *)
Definition close_raises (env : Env) (r : Runner) : option exn :=
  let of_browser :=
    match browser r with
    | Some _ => browser_close env
    | None => None
    end in
  match context r with
  | Some _ =>
      match context_close env with
      | Some e => Some e
      | None => of_browser
      end
  | None => of_browser
  end.

(** Both phases succeed; the task is cancelled while the release
    awaits [context.close()]. *)
Definition env_cancelled_in_release : Env :=
  mkEnv LaunchOk (FetchSaved 10 (Some Sample.rows_a) 1) Sample.always_done
        Sample.calm (fun _ => None) None (fun _ => false)
        (Some CancelledError) None.

(** What the failure handler itself adds to the trace. *)
Definition is_handler_event (ev : Event) : bool :=
  match ev with
  | EvLog _ | EvWriteSummary _ | EvDoneCallback _ => true
  | _ => false
  end.

(** * Properties *)

(** ** The memoized parse *)

Lemma read_excel_data_hit (path : string) (v : option RecordSet) (s : St) :
  w_cache (world s) = Some (path, v) ->
  read_excel_data path s = (Ret v, s).
Proof.
  intro H. unfold read_excel_data. rewrite H. now rewrite String.eqb_refl.
Qed.

Lemma read_excel_data_miss (path : string) (s : St) :
  (forall v, w_cache (world s) <> Some (path, v)) ->
  let r := read_excel path (w_fs (world s)) in
  exists evs,
    read_excel_data path s =
      (Ret r,
       set_world (fun w => put_cache (Some (path, r))
                             (add_trace (EvReadExcel path :: evs) w)) s).
Proof.
  intros H r. unfold read_excel_data.
  destruct (w_cache (world s)) as [[key value]|] eqn:Hc.
  - destruct (String.eqb key path) eqn:Hk.
    + apply String.eqb_eq in Hk. subst key. exfalso. now apply (H value).
    + fold r. destruct r; eexists; reflexivity.
  - fold r. destruct r; eexists; reflexivity.
Qed.

Lemma read_excel_data_cache (path : string) (s : St) :
  exists v,
    fst (read_excel_data path s) = Ret v /\
    w_cache (world (snd (read_excel_data path s))) = Some (path, v).
Proof.
  unfold read_excel_data.
  destruct (w_cache (world s)) as [[key value]|] eqn:Hc.
  - destruct (String.eqb key path) eqn:Hk.
    + apply String.eqb_eq in Hk. subst key. exists value. now split.
    + eexists. split; reflexivity.
  - eexists. split; reflexivity.
Qed.

(** C8.  [read_excel_data] is memoized by the exact path string in a
    single slot.  After any call with [path] the slot holds [path] and
    the value returned; a further call with the same path, in any state
    that still has this slot, returns the same value and leaves the
    state as it is (in particular no [pd.read_excel] is added to the
    trace); a call with another path reads that file and puts its own
    entry in the slot, so that a later call with [path] has to read the
    file again. *)
Theorem read_excel_data_memoized (path other : string) (s : St) :
  other <> path ->
  let first := read_excel_data path s in
  (exists v,
      fst first = Ret v /\ w_cache (world (snd first)) = Some (path, v)) /\
  (forall s2,
      w_cache (world s2) = w_cache (world (snd first)) ->
      read_excel_data path s2 = (fst first, s2)) /\
  (forall s2,
      w_cache (world s2) = w_cache (world (snd first)) ->
      let third := read_excel_data other s2 in
      let found := read_excel other (w_fs (world s2)) in
      fst third = Ret found /\
      w_cache (world (snd third)) = Some (other, found) /\
      (exists evs, added s2 (snd third) (EvReadExcel other :: evs)) /\
      (exists evs,
          added (snd third) (snd (read_excel_data path (snd third)))
                (EvReadExcel path :: evs))).
Proof.
  intros Hneq first.
  destruct (read_excel_data_cache path s) as [v [Hv Hc]].
  fold first in Hv, Hc.
  split; [exists v; now split|].
  split.
  - intros s2 H2. rewrite Hv. apply read_excel_data_hit. now rewrite H2.
  - intros s2 H2 third found.
    assert (Hmiss : forall x, w_cache (world s2) <> Some (other, x)).
    { intros x Hx. rewrite H2, Hc in Hx. injection Hx as Hp _.
      apply Hneq. now symmetry. }
    destruct (read_excel_data_miss other s2 Hmiss) as [evs Hr].
    fold found in Hr. unfold third. rewrite Hr. cbn [fst snd].
    split; [reflexivity|]. split; [reflexivity|].
    split; [exists evs; reflexivity|].
    match goal with |- context [read_excel_data path ?st] =>
      destruct (read_excel_data_miss path st) as [evs' Hr'] end.
    { intros x Hx. cbn in Hx. injection Hx as Hp _. now apply Hneq. }
    exists evs'. rewrite Hr'. reflexivity.
Qed.

(** C10.  A failed parse is cached like any other result.  When
    [read_excel_data path] has to read the file and [pd.read_excel]
    raises, the call returns [None] and the slot holds [(path, None)].
    From then on, in every state that has this slot, whatever file now
    sits at [path], the call returns [None] and changes nothing; and a
    call keeps that entry in the slot exactly when its argument is
    [path] itself. *)
Theorem read_excel_data_caches_failure (path : string) (s : St) :
  read_excel path (w_fs (world s)) = None ->
  (forall v, w_cache (world s) <> Some (path, v)) ->
  let first := read_excel_data path s in
  fst first = Ret None /\
  w_cache (world (snd first)) = Some (path, None) /\
  (forall s2,
      w_cache (world s2) = Some (path, None) ->
      read_excel_data path s2 = (Ret None, s2)) /\
  (forall s2 other,
      w_cache (world s2) = Some (path, None) ->
      w_cache (world (snd (read_excel_data other s2))) = Some (path, None)
      <-> other = path).
Proof.
  intros Hnone Hmiss first.
  destruct (read_excel_data_miss path s Hmiss) as [evs Hr].
  rewrite Hnone in Hr. unfold first. rewrite Hr. cbn [fst snd].
  split; [reflexivity|]. split; [reflexivity|]. split.
  - intros s2 H2. now apply read_excel_data_hit.
  - intros s2 other H2. split.
    + intro H. destruct (read_excel_data_cache other s2) as [v [_ Hc]].
      rewrite Hc in H. now injection H.
    + intros ->. now rewrite (read_excel_data_hit path None s2 H2).
Qed.

Lemma read_excel_data_memoized_witness :
  let path := direct_file in
  let other := downloads_path "challenge.xlsx" in
  let s := start Sample.runner_a
             (mkWorld [mkFile direct_name 10 (Some Sample.rows_a) 1 false]
                      None [] []) in
  other <> path /\
  read_excel_data path (snd (read_excel_data path s))
  = (Ret (Some Sample.rows_a), snd (read_excel_data path s)).
Proof.
  intros path other s.
  assert (Hneq : other <> path) by discriminate.
  split; [exact Hneq|].
  destruct (read_excel_data_memoized path other s Hneq) as [_ [Hhit _]].
  exact (Hhit (snd (read_excel_data path s)) eq_refl).
Defined.

Lemma read_excel_data_caches_failure_witness :
  let path := direct_file in
  let s := start Sample.runner_a
             (mkWorld [mkFile direct_name 10 None 1 false] None [] []) in
  let repaired :=
    set_world (put_fs [mkFile direct_name 12 (Some Sample.rows_b) 2 false])
              (snd (read_excel_data path s)) in
  read_excel path (w_fs (world s)) = None /\
  (forall v, w_cache (world s) <> Some (path, v)) /\
  read_excel path (w_fs (world repaired)) = Some Sample.rows_b /\
  read_excel_data path repaired = (Ret None, repaired).
Proof.
  intros path s repaired.
  assert (H1 : read_excel path (w_fs (world s)) = None) by reflexivity.
  assert (H2 : forall v, w_cache (world s) <> Some (path, v))
    by (intros v; discriminate).
  split; [exact H1|]. split; [exact H2|]. split; [reflexivity|].
  destruct (read_excel_data_caches_failure path s H1 H2) as [_ [_ [Hhit _]]].
  exact (Hhit repaired eq_refl).
Defined.

(** C9, as stated, fails: the slot of [read_excel_data] belongs to the
    module, not to a runner.  Run A downloads and parses Ann's sheet;
    run B, a second runner in the same process, downloads Bob's sheet
    to the same path, and its parse is answered from the entry that
    run A left: the form of run B is filled with Ann's rows. *)
Lemma cache_entry_of_run_a_hits_in_run_b :
  let after_a :=
    run_automation Sample.env_a (start Sample.runner_a Sample.empty_world) in
  let start_b := start Sample.runner_b (world (snd after_a)) in
  let after_b := run_automation Sample.env_b start_b in
  w_cache (world (snd after_a)) = Some (direct_file, Some Sample.rows_a) /\
  read_excel direct_file (w_fs (world (snd after_b))) = Some Sample.rows_b /\
  added start_b (snd after_b)
    [EvUrlopen; EvReadExcel direct_file; EvAgentRun OpenSiteOnly 5 60;
     EvSleep 10; EvLocate; EvReadExcel direct_file; EvSleep 2;
     EvLocate; EvReadExcel direct_file;
     EvAgentRun (FillForm Sample.rows_a) 100 600;
     EvWriteSummary (result_file Sample.runner_b);
     EvCloseContext; EvCloseBrowser] /\
  Sample.rows_a <> Sample.rows_b.
Proof.
  cbv zeta. split; [vm_compute; reflexivity|].
  split; [vm_compute; reflexivity|].
  split; [vm_compute; reflexivity|].
  discriminate.
Qed.

(** C9, amended.  The cache is one slot of the process, shared by all
    runners: once a run of runner [rA] has parsed [path], a parse of
    the same path by a run of any runner [rB] in the world that run
    left, whatever the downloads directory holds by then, returns
    the value of run A and reads nothing. *)
Theorem cache_is_shared_by_all_runners
    (rA rB : Runner) (w : World) (path : string) (fs_later : FS) :
  let run_a := read_excel_data path (start rA w) in
  let start_b := start rB (put_fs fs_later (world (snd run_a))) in
  read_excel_data path start_b = (fst run_a, start_b).
Proof.
  intros run_a start_b.
  destruct (read_excel_data_cache path (start rA w)) as [v [Hv Hc]].
  fold run_a in Hv, Hc. rewrite Hv.
  apply read_excel_data_hit. exact Hc.
Qed.

(** ** The downloads directory *)

Lemma append_inj (p a b : string) :
  (p ++ a)%string = (p ++ b)%string -> a = b.
Proof.
  induction p as [|c p IH]; simpl; intro H.
  - exact H.
  - injection H as H. now apply IH.
Qed.

Lemma downloads_path_inj (n m : string) :
  downloads_path n = downloads_path m -> n = m.
Proof.
  unfold downloads_path. intro H.
  apply append_inj in H. now apply append_inj in H.
Qed.

Lemma lookup_some (p : string) (fs : FS) (f : File) :
  lookup p fs = Some f -> In f fs /\ downloads_path (f_name f) = p.
Proof.
  unfold lookup. intro H. apply find_some in H.
  destruct H as [Hin Heq]. split; [exact Hin|]. now apply String.eqb_eq.
Qed.

Lemma lookup_none (p : string) (fs : FS) :
  lookup p fs = None ->
  forall f, In f fs -> downloads_path (f_name f) <> p.
Proof.
  unfold lookup. intros H f Hin Heq.
  pose proof (find_none _ _ H f Hin) as Hf. cbv beta in Hf.
  rewrite Heq, String.eqb_refl in Hf. discriminate.
Qed.

Lemma lookup_delete_ne (p q : string) (fs : FS) :
  p <> q -> lookup p (delete q fs) = lookup p fs.
Proof.
  intro Hneq. unfold lookup, delete.
  induction fs as [|f fs IH]; cbn [find filter]; [reflexivity|].
  destruct (String.eqb (downloads_path (f_name f)) q) eqn:Hq; cbn [find filter negb].
  - apply String.eqb_eq in Hq.
    destruct (String.eqb (downloads_path (f_name f)) p) eqn:Hp.
    + apply String.eqb_eq in Hp. congruence.
    + exact IH.
  - destruct (String.eqb (downloads_path (f_name f)) p); [reflexivity|exact IH].
Qed.

Lemma lookup_delete_eq (q : string) (fs : FS) : lookup q (delete q fs) = None.
Proof.
  unfold lookup, delete.
  induction fs as [|f fs IH]; cbn [find filter]; [reflexivity|].
  destruct (String.eqb (downloads_path (f_name f)) q) eqn:Hq; cbn [find filter negb].
  - exact IH.
  - now rewrite Hq.
Qed.

Lemma delete_absent (p : string) (fs : FS) :
  lookup p fs = None -> delete p fs = fs.
Proof.
  unfold lookup, delete.
  induction fs as [|f fs IH]; cbn [find filter]; [reflexivity|].
  destruct (String.eqb (downloads_path (f_name f)) p); cbn [negb].
  - discriminate.
  - intro H. now rewrite IH.
Qed.

Lemma In_delete (f : File) (q : string) (fs : FS) :
  In f (delete q fs) <-> In f fs /\ downloads_path (f_name f) <> q.
Proof.
  unfold delete. rewrite filter_In. split; intros [H1 H2]; split; auto.
  - intro Heq. rewrite Heq, String.eqb_refl in H2. discriminate.
  - apply Bool.negb_true_iff. now apply String.eqb_neq.
Qed.

Lemma In_glob (p : string) (fs : FS) :
  In p (glob_challenge fs) <->
  exists f, In f fs /\ glob_match (f_name f) = true /\
            downloads_path (f_name f) = p.
Proof.
  unfold glob_challenge. rewrite in_map_iff. split.
  - intros [f [Hp Hin]]. apply filter_In in Hin. destruct Hin as [Hin Hm].
    exists f. auto.
  - intros [f [Hin [Hm Hp]]]. exists f. split; [exact Hp|].
    apply filter_In. auto.
Qed.

Lemma In_glob_delete (p q : string) (fs : FS) :
  In p (glob_challenge (delete q fs)) <->
  In p (glob_challenge fs) /\ p <> q.
Proof.
  rewrite !In_glob. split.
  - intros [f [Hin [Hm Hp]]]. apply In_delete in Hin. destruct Hin as [Hin Hq].
    split; [exists f; auto|congruence].
  - intros [[f [Hin [Hm Hp]]] Hq]. exists f. split; [|auto].
    apply In_delete. split; [exact Hin|congruence].
Qed.

Lemma try_remove_cases (q : string) (fs : FS) :
  Locator.try_remove q fs = fs \/ Locator.try_remove q fs = delete q fs.
Proof.
  unfold Locator.try_remove, remove.
  destruct (lookup q fs) as [f|]; [destruct (f_locked f)|]; auto.
Qed.

Lemma is_valid_alt (fs : FS) (p : string) :
  is_valid fs p =
  match getsize p fs with
  | Some size =>
      (0 <? size)%N &&
      match read_excel p fs with Some _ => true | None => false end
  | None => false
  end.
Proof.
  unfold is_valid, getsize, read_excel.
  destruct (lookup p fs); reflexivity.
Qed.

Lemma is_valid_try_remove (q p : string) (fs : FS) :
  is_valid fs q = false ->
  is_valid (Locator.try_remove q fs) p = is_valid fs p.
Proof.
  intro Hq. destruct (try_remove_cases q fs) as [-> | ->]; [reflexivity|].
  unfold is_valid at 1.
  destruct (String.eqb p q) eqn:Hpq.
  - apply String.eqb_eq in Hpq. subst p.
    now rewrite lookup_delete_eq, Hq.
  - apply String.eqb_neq in Hpq. now rewrite (lookup_delete_ne p q fs Hpq).
Qed.

Lemma lookup_try_remove (q p : string) (fs : FS) :
  is_valid fs q = false -> is_valid fs p = true ->
  lookup p (Locator.try_remove q fs) = lookup p fs.
Proof.
  intros Hq Hp. destruct (try_remove_cases q fs) as [-> | ->]; [reflexivity|].
  apply lookup_delete_ne. intros ->. congruence.
Qed.

(** ** The artifact locator *)

(** The scan keeps exactly the valid paths, in order; it removes only
    files that are not valid. *)
Lemma scan_valid (files : list string) :
  forall (valid : list string) (fs : FS),
    fst (fst (Locator.scan files valid fs))
      = valid ++ filter (is_valid fs) files /\
    (forall p, is_valid (snd (fst (Locator.scan files valid fs))) p
               = is_valid fs p) /\
    (forall p, is_valid fs p = true ->
               lookup p (snd (fst (Locator.scan files valid fs)))
               = lookup p fs).
Proof.
  induction files as [|file rest IH]; intros valid fs.
  - cbn. rewrite app_nil_r. auto.
  - cbn [Locator.scan filter].
    rewrite (is_valid_alt fs file).
    destruct (getsize file fs) as [size|] eqn:Hsz.
    + destruct (0 <? size)%N eqn:Hpos.
      * destruct (read_excel file fs) as [rows|] eqn:Hrd; cbn [andb].
        -- specialize (IH (valid ++ [file]) fs).
           destruct (Locator.scan rest (valid ++ [file]) fs) as [[v' fs'] evs'].
           cbn [fst snd] in *. destruct IH as [Hv [Hval Hlk]].
           rewrite Hv, <- app_assoc. auto.
        -- assert (Hinv : is_valid fs file = false).
           { rewrite is_valid_alt, Hsz, Hpos, Hrd. reflexivity. }
           specialize (IH valid (Locator.try_remove file fs)).
           destruct (Locator.scan rest valid (Locator.try_remove file fs))
             as [[v' fs'] evs'].
           cbn [fst snd] in *. destruct IH as [Hv [Hval Hlk]].
           split; [|split].
           ++ rewrite Hv. f_equal. apply filter_ext.
              intro p. now apply is_valid_try_remove.
           ++ intro p. rewrite Hval. now apply is_valid_try_remove.
           ++ intros p Hp. rewrite Hlk.
              ** now apply lookup_try_remove.
              ** now rewrite is_valid_try_remove.
      * cbn [andb].
        specialize (IH valid fs).
        destruct (Locator.scan rest valid fs) as [[v' fs'] evs'].
        cbn [fst snd] in *. exact IH.
    + assert (Hinv : is_valid fs file = false).
      { rewrite is_valid_alt, Hsz. reflexivity. }
      specialize (IH valid (Locator.try_remove file fs)).
      destruct (Locator.scan rest valid (Locator.try_remove file fs))
        as [[v' fs'] evs'].
      cbn [fst snd] in *. destruct IH as [Hv [Hval Hlk]].
      split; [|split].
      * rewrite Hv. f_equal. apply filter_ext.
        intro p. now apply is_valid_try_remove.
      * intro p. rewrite Hval. now apply is_valid_try_remove.
      * intros p Hp. rewrite Hlk.
        -- now apply lookup_try_remove.
        -- now rewrite is_valid_try_remove.
Qed.

Lemma max_by_key_spec (l : list (string * N)) :
  forall best,
    exists c,
      In (Locator.max_by_key best l, c) (best :: l) /\
      forall x, In x (best :: l) -> (snd x <= c)%N.
Proof.
  induction l as [|x rest IH]; intros best.
  - exists (snd best). cbn. split.
    + left. now destruct best.
    + intros y [<- | []]. lia.
  - cbn [Locator.max_by_key].
    destruct (snd best <? snd x)%N eqn:Hlt.
    + apply N.ltb_lt in Hlt. destruct (IH x) as [c [Hin Hmax]].
      exists c. split; [now right|].
      intros y [<- | Hy]; [|now apply Hmax].
      specialize (Hmax x (or_introl eq_refl)). lia.
    + apply N.ltb_ge in Hlt. destruct (IH best) as [c [Hin Hmax]].
      exists c. split.
      * destruct Hin as [Hin | Hin]; [now left|now right; right].
      * intros y [<- | [<- | Hy]].
        -- apply Hmax. now left.
        -- specialize (Hmax best (or_introl eq_refl)). lia.
        -- apply Hmax. now right.
Qed.

Lemma keyed_spec (l : list string) (fs : FS) :
  (forall p, In p l -> exists c, getctime p fs = Some c) ->
  exists ks,
    Locator.keyed l fs = Some ks /\ map fst ks = l /\
    forall p c, In (p, c) ks -> getctime p fs = Some c.
Proof.
  induction l as [|p rest IH]; intro H.
  - exists []. cbn. repeat split. intros ? ? [].
  - destruct (H p (or_introl eq_refl)) as [c Hc].
    destruct IH as [ks [Hk [Hm Hks]]].
    { intros q Hq. apply H. now right. }
    exists ((p, c) :: ks). cbn [Locator.keyed]. rewrite Hc, Hk.
    split; [reflexivity|]. split; [cbn; now rewrite Hm|].
    intros q cq [Heq | Hin]; [injection Heq as <- <-; exact Hc|now apply Hks].
Qed.

Lemma is_valid_getctime (fs : FS) (p : string) :
  is_valid fs p = true -> exists c, getctime p fs = Some c.
Proof.
  unfold is_valid, getctime. destruct (lookup p fs) as [f|]; [|discriminate].
  intros _. now exists (f_ctime f).
Qed.

Lemma locate_valid_direct (fs : FS) :
  is_valid fs direct_file = true ->
  Locator.locate fs = (inl (Some direct_file), fs, [EvReadExcel direct_file]).
Proof.
  unfold is_valid, Locator.locate, read_excel.
  destruct (lookup direct_file fs) as [f|]; [|discriminate].
  destruct (0 <? f_size f)%N; [|discriminate].
  destruct (f_rows f); [reflexivity|discriminate].
Qed.

Lemma locate_invalid_direct (fs : FS) :
  is_valid fs direct_file = false ->
  exists fs1 evs1,
    (fs1 = fs \/ fs1 = Locator.try_remove direct_file fs) /\
    Locator.locate fs =
      (let '(valid_files, fs2, evs2) :=
         Locator.scan (glob_challenge fs1) [] fs1 in
       match valid_files with
       | [] => (inl None, fs2, evs1 ++ evs2)
       | v :: vs =>
           match Locator.keyed valid_files fs2 with
           | Some (k :: ks) =>
               (inl (Some (Locator.max_by_key k ks)), fs2, evs1 ++ evs2)
           | _ => (inr (Exception "FileNotFoundError"), fs2, evs1 ++ evs2)
           end
       end).
Proof.
  unfold is_valid, Locator.locate, read_excel.
  destruct (lookup direct_file fs) as [f|].
  - destruct (0 <? f_size f)%N.
    + destruct (f_rows f); [discriminate|]. intros _.
      eexists. eexists. split; [right; reflexivity|reflexivity].
    + intros _. exists fs. exists []. split; [now left|reflexivity].
  - intros _. exists fs. exists []. split; [now left|reflexivity].
Qed.

(** C6, as stated, fails: a valid [challenge_direct.xlsx] is returned
    at once, although [challenge.xlsx] is valid too and was created
    later. *)
Lemma locate_prefers_older_direct_file :
  let older := mkFile direct_name 10 (Some Sample.rows_a) 1 false in
  let newer := mkFile "challenge.xlsx" 10 (Some Sample.rows_b) 2 false in
  let fs := [older; newer] in
  valid_candidate fs (downloads_path "challenge.xlsx") /\
  valid_candidate fs direct_file /\
  getctime direct_file fs = Some 1%N /\
  getctime (downloads_path "challenge.xlsx") fs = Some 2%N /\
  fst (fst (Locator.locate fs)) = inl (Some direct_file).
Proof.
  cbv zeta. unfold valid_candidate.
  repeat split; vm_compute; auto.
Qed.

(** C6, amended.  A valid [challenge_direct.xlsx] is returned whatever
    its creation time.  When it is not valid, and the scope has a valid
    candidate, the locator returns a valid candidate whose creation
    time is the latest among all valid candidates. *)
Theorem locate_returns_latest_valid (fs : FS) :
  let found := fst (fst (Locator.locate fs)) in
  (is_valid fs direct_file = true -> found = inl (Some direct_file)) /\
  (is_valid fs direct_file = false ->
   (exists p, valid_candidate fs p) ->
   exists best c,
     found = inl (Some best) /\
     valid_candidate fs best /\
     getctime best fs = Some c /\
     forall q cq,
       valid_candidate fs q -> getctime q fs = Some cq -> (cq <= c)%N).
Proof.
  intro found. split.
  - intro Hd. unfold found. now rewrite (locate_valid_direct fs Hd).
  - intros Hd [p0 [Hp0g Hp0v]].
    destruct (locate_invalid_direct fs Hd) as [fs1 [evs1 [Hfs1 Hloc]]].
    (* the direct phase changes nothing for the valid paths *)
    assert (Hval1 : forall p, is_valid fs1 p = is_valid fs p).
    { intro p. destruct Hfs1 as [-> | ->]; [reflexivity|].
      now apply is_valid_try_remove. }
    assert (Hlk1 : forall p, is_valid fs p = true -> lookup p fs1 = lookup p fs).
    { intros p Hp. destruct Hfs1 as [-> | ->]; [reflexivity|].
      now apply lookup_try_remove. }
    assert (Hglob1 : forall p, is_valid fs p = true ->
                (In p (glob_challenge fs1) <-> In p (glob_challenge fs))).
    { intros p Hp. destruct Hfs1 as [-> | ->]; [reflexivity|].
      destruct (try_remove_cases direct_file fs) as [-> | ->]; [reflexivity|].
      rewrite In_glob_delete. split; [now intros [H _]|].
      intro H. split; [exact H|]. intros ->. congruence. }
    pose proof (scan_valid (glob_challenge fs1) [] fs1) as [Hv [Hval2 Hlk2]].
    unfold found. rewrite Hloc.
    destruct (Locator.scan (glob_challenge fs1) [] fs1) as [[valid_files fs2] evs2].
    cbn [fst snd app] in Hv, Hval2, Hlk2.
    (* membership in the kept list *)
    assert (Hmem : forall p, In p valid_files <-> valid_candidate fs p).
    { intro p. rewrite Hv, filter_In, Hval1. unfold valid_candidate. split.
      - intros [Hg Hp]. split; [now apply Hglob1|exact Hp].
      - intros [Hg Hp]. split; [now apply Hglob1|exact Hp]. }
    assert (Hct : forall p c, In p valid_files ->
                getctime p fs2 = Some c -> getctime p fs = Some c).
    { intros p c Hp Hc. apply Hmem in Hp. destruct Hp as [_ Hp].
      unfold getctime in *. rewrite Hlk2 in Hc by (now rewrite Hval1).
      now rewrite Hlk1 in Hc. }
    destruct (keyed_spec valid_files fs2) as [ks [Hk [Hmap Hks]]].
    { intros p Hp. apply is_valid_getctime. rewrite Hval2, Hval1.
      apply Hmem in Hp. now destruct Hp. }
    assert (Hp0 : In p0 valid_files) by (apply Hmem; now split).
    destruct valid_files as [|v vs]; [contradiction|].
    rewrite Hk. destruct ks as [|k ks']; [discriminate|].
    cbn [fst snd].
    destruct (max_by_key_spec ks' k) as [c [Hin Hmax]].
    set (best := Locator.max_by_key k ks') in *.
    assert (Hbest : In best (v :: vs)).
    { rewrite <- Hmap. change best with (fst (best, c)). now apply in_map. }
    exists best, c. split; [reflexivity|]. split; [now apply Hmem|].
    split; [apply Hct; [exact Hbest|now apply Hks]|].
    intros q cq Hq Hcq. apply Hmem in Hq.
    rewrite <- Hmap in Hq. apply in_map_iff in Hq.
    destruct Hq as [[q' c'] [Hfst Hq]]. cbn in Hfst. subst q'.
    assert (c' = cq).
    { pose proof (Hks q c' Hq) as H1.
      apply Hct in H1.
      - congruence.
      - rewrite <- Hmap. change q with (fst (q, c')). now apply in_map. }
    subst c'. exact (Hmax (q, cq) Hq).
Qed.

Lemma locate_returns_latest_valid_witness :
  let fs := [mkFile "challenge.xlsx" 10 (Some Sample.rows_a) 1 false;
             mkFile "challenge (1).xlsx" 12 (Some Sample.rows_b) 2 false;
             mkFile direct_name 0 None 3 false] in
  is_valid fs direct_file = false /\
  valid_candidate fs (downloads_path "challenge.xlsx") /\
  exists best c,
    fst (fst (Locator.locate fs)) = inl (Some best) /\
    valid_candidate fs best /\
    getctime best fs = Some c /\
    forall q cq,
      valid_candidate fs q -> getctime q fs = Some cq -> (cq <= c)%N.
Proof.
  intro fs.
  assert (Hd : is_valid fs direct_file = false) by reflexivity.
  assert (Hc : valid_candidate fs (downloads_path "challenge.xlsx")).
  { split; vm_compute; auto. }
  split; [exact Hd|]. split; [exact Hc|].
  destruct (locate_returns_latest_valid fs) as [_ H].
  exact (H Hd (ex_intro _ _ Hc)).
Defined.

(** A scope whose candidates are all non-empty, unreadable and
    removable. *)
Lemma scan_corrupt (files : list string) :
  forall (valid : list string) (fs : FS),
    (forall f, In f fs -> glob_match (f_name f) = true ->
               (0 < f_size f)%N /\ f_rows f = None /\ f_locked f = false) ->
    (forall p, In p files ->
               exists n, p = downloads_path n /\ glob_match n = true) ->
    fst (fst (Locator.scan files valid fs)) = valid /\
    snd (fst (Locator.scan files valid fs))
      = fold_left (fun acc p => delete p acc) files fs.
Proof.
  induction files as [|file rest IH]; intros valid fs Hfs Hfiles.
  - cbn. auto.
  - destruct (Hfiles file (or_introl eq_refl)) as [n [Hn Hm]].
    assert (Hrest : forall p, In p rest ->
               exists n, p = downloads_path n /\ glob_match n = true).
    { intros p Hp. apply Hfiles. now right. }
    assert (Hdel : forall f, In f (delete file fs) ->
               glob_match (f_name f) = true ->
               (0 < f_size f)%N /\ f_rows f = None /\ f_locked f = false).
    { intros f Hf. apply In_delete in Hf. destruct Hf as [Hf _]. now apply Hfs. }
    specialize (IH valid (delete file fs) Hdel Hrest).
    cbn [Locator.scan fold_left].
    unfold getsize, read_excel, Locator.try_remove, remove.
    destruct (lookup file fs) as [f|] eqn:Hlk; cbn [option_map].
    + apply lookup_some in Hlk. destruct Hlk as [Hin Hpath].
      assert (f_name f = n) by (apply downloads_path_inj; congruence).
      subst n. destruct (Hfs f Hin Hm) as [Hsize [Hrows Hlock]].
      apply N.ltb_lt in Hsize. rewrite Hsize, Hrows, Hlock.
      destruct (Locator.scan rest valid (delete file fs)) as [[v' fs'] evs'].
      exact IH.
    + rewrite (delete_absent file fs Hlk) in IH.
      rewrite (delete_absent file fs Hlk).
      destruct (Locator.scan rest valid fs) as [[v' fs'] evs'].
      exact IH.
Qed.

Lemma In_fold_delete (files : list string) :
  forall (fs : FS) (f : File),
    In f (fold_left (fun acc p => delete p acc) files fs) <->
    In f fs /\ ~ In (downloads_path (f_name f)) files.
Proof.
  induction files as [|file rest IH]; intros fs f; cbn [fold_left].
  - cbn. tauto.
  - rewrite IH, In_delete. cbn [In]. split.
    + intros [[H1 H2] H3]. split; [exact H1|]. intros [H | H]; auto.
    + intros [H1 H2]. repeat split; auto.
Qed.

Lemma glob_match_direct_name : glob_match direct_name = true.
Proof. reflexivity. Qed.

(** C7, as stated, fails: a candidate of zero bytes does not pass
    validation, yet it is only reported and stays in the scope. *)
Lemma locate_keeps_empty_candidate :
  let fs := [mkFile "challenge.xlsx" 0 None 1 false] in
  (forall p, In p (glob_challenge fs) -> is_valid fs p = false) /\
  fst (fst (Locator.locate fs)) = inl None /\
  glob_challenge (snd (fst (Locator.locate fs)))
    = [downloads_path "challenge.xlsx"].
Proof.
  cbv zeta. split; [|split; reflexivity].
  intros p [<- | []]. reflexivity.
Qed.

Lemma locate_corrupt_direct (fs : FS) :
  (forall f, In f fs -> glob_match (f_name f) = true ->
             (0 < f_size f)%N /\ f_rows f = None /\ f_locked f = false) ->
  exists evs1,
    Locator.locate fs =
      (let fs1 := delete direct_file fs in
       let '(valid_files, fs2, evs2) :=
         Locator.scan (glob_challenge fs1) [] fs1 in
       match valid_files with
       | [] => (inl None, fs2, evs1 ++ evs2)
       | v :: vs =>
           match Locator.keyed valid_files fs2 with
           | Some (k :: ks) =>
               (inl (Some (Locator.max_by_key k ks)), fs2, evs1 ++ evs2)
           | _ => (inr (Exception "FileNotFoundError"), fs2, evs1 ++ evs2)
           end
       end).
Proof.
  intro Hfs. unfold Locator.locate, read_excel, Locator.try_remove, remove.
  destruct (lookup direct_file fs) as [f|] eqn:Hlk.
  - pose proof (lookup_some _ _ _ Hlk) as [Hin Hpath].
    apply downloads_path_inj in Hpath.
    destruct (Hfs f Hin) as [Hsize [Hrows Hlock]].
    { rewrite Hpath. exact glob_match_direct_name. }
    apply N.ltb_lt in Hsize. rewrite Hsize, Hrows, Hlock.
    eexists. reflexivity.
  - rewrite (delete_absent _ _ Hlk). exists []. reflexivity.
Qed.

(** C7, amended.  When every file of the scope that matches the
    candidate pattern is non-empty, fails to parse and can be removed,
    the locator returns absent and leaves exactly the files that do not
    match the pattern: none that matches is left. *)
Theorem locate_prunes_corrupt (fs : FS) :
  (forall f, In f fs -> glob_match (f_name f) = true ->
             (0 < f_size f)%N /\ f_rows f = None /\ f_locked f = false) ->
  let found := fst (fst (Locator.locate fs)) in
  let fs' := snd (fst (Locator.locate fs)) in
  found = inl None /\
  glob_challenge fs' = [] /\
  (forall f, In f fs' <-> In f fs /\ glob_match (f_name f) = false).
Proof.
  intros Hfs found fs'.
  destruct (locate_corrupt_direct fs Hfs) as [evs1 Hloc].
  set (fs1 := delete direct_file fs) in *.
  assert (Hfs1 : forall f, In f fs1 -> glob_match (f_name f) = true ->
             (0 < f_size f)%N /\ f_rows f = None /\ f_locked f = false).
  { intros f Hf. apply In_delete in Hf. destruct Hf as [Hf _]. now apply Hfs. }
  assert (Hfiles : forall p, In p (glob_challenge fs1) ->
             exists n, p = downloads_path n /\ glob_match n = true).
  { intros p Hp. apply In_glob in Hp. destruct Hp as [f [_ [Hm Hp]]].
    exists (f_name f). auto. }
  destruct (scan_corrupt (glob_challenge fs1) [] fs1 Hfs1 Hfiles) as [Hv Hfold].
  unfold found, fs'. rewrite Hloc. cbv zeta.
  destruct (Locator.scan (glob_challenge fs1) [] fs1) as [[valid_files fs2] evs2].
  cbn [fst snd] in Hv, Hfold. subst valid_files. cbn [fst snd].
  assert (Hleft : forall f, In f fs2 <-> In f fs /\ glob_match (f_name f) = false).
  { intro f. rewrite Hfold, In_fold_delete. unfold fs1 at 1.
    rewrite In_delete. split.
    - intros [[Hin Hnd] Hng]. split; [exact Hin|].
      destruct (glob_match (f_name f)) eqn:Hm; [|reflexivity].
      exfalso. apply Hng. apply In_glob. exists f.
      split; [apply In_delete; auto|auto].
    - intros [Hin Hm]. split; [split; [exact Hin|]|].
      + intro Heq. apply downloads_path_inj in Heq.
        rewrite Heq, glob_match_direct_name in Hm. discriminate.
      + intro Hg. apply In_glob in Hg. destruct Hg as [g [_ [Hgm Hgp]]].
        apply downloads_path_inj in Hgp. rewrite Hgp in Hgm. congruence. }
  split; [reflexivity|]. split; [|exact Hleft].
  destruct (glob_challenge fs2) as [|p rest] eqn:Hg; [reflexivity|].
  exfalso.
  assert (Hp : In p (glob_challenge fs2)) by (rewrite Hg; now left).
  apply In_glob in Hp. destruct Hp as [f [Hin [Hm _]]].
  apply Hleft in Hin. destruct Hin as [_ Hm']. congruence.
Qed.

Lemma locate_prunes_corrupt_witness :
  let fs := [mkFile direct_name 7 None 1 false;
             mkFile "notes.txt" 3 None 2 true;
             mkFile "challenge (1).xlsx" 9 None 3 false] in
  (forall f, In f fs -> glob_match (f_name f) = true ->
             (0 < f_size f)%N /\ f_rows f = None /\ f_locked f = false) /\
  fst (fst (Locator.locate fs)) = inl None /\
  glob_challenge (snd (fst (Locator.locate fs))) = [].
Proof.
  intro fs.
  assert (H : forall f, In f fs -> glob_match (f_name f) = true ->
             (0 < f_size f)%N /\ f_rows f = None /\ f_locked f = false).
  { intros f [<- | [<- | [<- | []]]] Hm; try discriminate Hm;
      repeat split; reflexivity. }
  split; [exact H|].
  destruct (locate_prunes_corrupt fs H) as [H1 [H2 _]].
  split; [exact H1|exact H2].
Defined.

(** ** The supervised agent invocations *)

Lemma download_via_agent_retry (env : Env) (s : St) :
  ao_result (agent_run env (n_agent s)) = TimedOut ->
  exists s',
    download_via_agent env s =
      (match ao_result (agent_run env (S (n_agent s))) with
       | Completed h => Ret h
       | TimedOut => Raise TimeoutError
       | Crashed msg => Raise (Exception msg)
       | Cancelled => Raise CancelledError
       end, s') /\
    added s s' (retried DownloadExcel 25 300 WarnDownloadTimeout) /\
    n_agent s' = S (S (n_agent s)).
Proof.
  intro H1.
  unfold download_via_agent, bind, set_download_agent, try_except_timeout,
    wait_for_agent_run, emit, added, retried.
  cbn. rewrite H1. cbn.
  destruct (ao_result (agent_run env (S (n_agent s))));
    eexists; (split; [reflexivity|]); cbn; rewrite <- !app_assoc; auto.
Qed.

Lemma run_process_agent_retry (env : Env) (excel_data : RecordSet) (s : St) :
  context (self s) <> None ->
  ao_result (agent_run env (n_agent s)) = TimedOut ->
  exists s',
    run_process_agent env excel_data s =
      (match ao_result (agent_run env (S (n_agent s))) with
       | Completed h => Ret h
       | TimedOut => Raise TimeoutError
       | Crashed msg => Raise (Exception msg)
       | Cancelled => Raise CancelledError
       end, s') /\
    added s s' (retried (FillForm excel_data) 100 600 WarnProcessTimeout) /\
    n_agent s' = S (S (n_agent s)).
Proof.
  intros Hc H1.
  unfold run_process_agent, bind, get_self, set_process_agent,
    try_except_timeout, wait_for_agent_run, emit, added, retried.
  destruct (context (self s)) as [c|] eqn:Hctx; [|contradiction].
  cbn. rewrite H1. cbn.
  destruct (ao_result (agent_run env (S (n_agent s))));
    eexists; (split; [reflexivity|]); cbn; rewrite <- !app_assoc; auto.
Qed.

(** ** Release, the handler and the shape of a run *)

Lemma close_resources_spec (env : Env) (s : St) :
  release_not_cancelled env ->
  exists s',
    close_resources env s = (Ret tt, s') /\
    added s s' (release_events env (self s)) /\
    w_logs (world s') = w_logs (world s) /\
    w_fs (world s') = w_fs (world s) /\
    w_cache (world s') = w_cache (world s) /\
    (context_close env = None -> browser_close env = None ->
     context (self s') = None /\ browser (self s') = None).
Proof.
  intros [Hc Hb].
  unfold close_resources, try_except, bind, get_self, await_close, emit,
    clear_context, clear_browser, ret, raise, added, release_events.
  destruct (context (self s)) as [c|] eqn:Hctx;
    destruct (browser (self s)) as [b|] eqn:Hbr; cbn;
    rewrite ?Hctx, ?Hbr; cbn.
  all: destruct (context_close env) as [e1|] eqn:H1;
    [try rewrite (Hc e1 eq_refl)|]; cbn; rewrite ?Hctx, ?Hbr; cbn.
  all: destruct (browser_close env) as [e2|] eqn:H2;
    [try rewrite (Hb e2 eq_refl)|]; cbn.
  all: eexists; (split; [reflexivity|]); cbn;
    rewrite <- ?app_assoc, ?app_nil_r; cbn;
    repeat split; auto; try discriminate.
Qed.

Lemma run_automation_except_spec (env : Env) (e : exn) (s : St) :
  handler_quiet env ->
  exists d s',
    run_automation_except env e s = (Ret d, s') /\
    Result.success d = false /\
    Result.error d = Some (str e) /\
    read_log (Result.result_file d) (w_logs (world s')) = Some (Result.summary d).
Proof.
  intros [Hw Hcb].
  unfold run_automation_except, bind, emit, append_line, save_summary,
    result_dict, call_done_callback, ret, raise.
  cbn. rewrite Hw. cbn.
  destruct (on_done_callback env) as [callback|] eqn:Hcall; cbn.
  - match goal with |- context [callback ?d] =>
      rewrite (Hcb callback d eq_refl eq_refl) end. cbn.
    eexists. eexists. split; [reflexivity|]. cbn.
    now rewrite String.eqb_refl.
  - eexists. eexists. split; [reflexivity|]. cbn.
    now rewrite String.eqb_refl.
Qed.

(** A run is its [try]/[except] part followed by [close_resources],
    whose own outcome does not replace the one of that part. *)
Lemma run_automation_shape (env : Env) (s : St) :
  release_not_cancelled env ->
  let body :=
    try_except (run_automation_try env) (run_automation_except env)
               (snd (enter s)) in
  exists s',
    run_automation env s = (fst body, s') /\
    close_resources env (snd body) = (Ret tt, s') /\
    added (snd body) s' (release_events env (self (snd body))) /\
    w_logs (world s') = w_logs (world (snd body)) /\
    (context_close env = None -> browser_close env = None ->
     context (self s') = None /\ browser (self s') = None).
Proof.
  intros Hrel body.
  destruct (close_resources_spec env (snd body) Hrel)
    as [s' [Hclose [Hadd [Hlogs [_ [_ Hself]]]]]].
  exists s'. split; [|auto].
  change (run_automation env s)
    with (try_finally
            (try_except (run_automation_try env) (run_automation_except env))
            (close_resources env) (snd (enter s))).
  unfold try_finally. fold body.
  destruct body as [o s1]. cbn [fst snd] in *.
  now rewrite Hclose.
Qed.

(** An [Exception] raised in the [try] block ends in a failure record. *)
Lemma run_automation_failure (env : Env) (s s1 : St) (e : exn) :
  handler_quiet env -> release_not_cancelled env ->
  run_automation_try env (snd (enter s)) = (Raise e, s1) ->
  is_Exception e = true ->
  exists d s',
    run_automation env s = (Ret d, s') /\
    Result.success d = false /\
    Result.error d = Some (str e) /\
    read_log (Result.result_file d) (w_logs (world s')) = Some (Result.summary d).
Proof.
  intros Hq Hrel Htry He.
  destruct (run_automation_except_spec env e s1 Hq) as [d [s2 [Hh [Hs [Herr Hlog]]]]].
  destruct (run_automation_shape env s Hrel) as [s' [Hrun [_ [_ [Hlogs _]]]]].
  revert Hrun Hlogs. unfold try_except. rewrite Htry, He, Hh. cbn [fst snd].
  intros Hrun Hlogs. exists d, s'. rewrite Hlogs. auto.
Qed.

(** ** How the phases sit in the [try] block *)

Lemma run_download_agent_falls_through (env : Env) (s0 s : St) :
  context (self s0) <> None ->
  direct_download env s0 = (Ret None, s) ->
  run_download_agent env s0 = download_via_agent env s.
Proof.
  intros Hc Hd. unfold run_download_agent, bind, get_self.
  destruct (context (self s0)); [|contradiction]. now rewrite Hd.
Qed.

Lemma acquire_after_fetch (env : Env) (s0 s' : St) (h : AgentHistoryList) :
  run_download_agent env s0 = (Ret h, s') ->
  is_done h = true ->
  acquire env s0 = validate_and_parse env h (snd (set_download_history h s')).
Proof.
  intros Hr Hd. unfold acquire, bind. rewrite Hr. cbn. now rewrite Hd.
Qed.

Lemma submit_after_process (env : Env) (s s' : St)
    (download_history h : AgentHistoryList) (excel_data : RecordSet) :
  run_process_agent env excel_data s = (Ret h, s') ->
  is_done h = true ->
  submit env download_history excel_data s
  = summarize env download_history h (snd (set_process_history h s')).
Proof.
  intros Hr Hd. unfold submit, bind. rewrite Hr. cbn. now rewrite Hd.
Qed.

Lemma try_raises_with_fetch (env : Env) (s0 s' : St) (e : exn) :
  run_download_agent env s0 = (Raise e, s') ->
  run_automation_try env s0 = (Raise e, s').
Proof.
  intro Hr. unfold run_automation_try, acquire, bind. now rewrite Hr.
Qed.

Lemma try_raises_with_process (env : Env) (s0 s s' : St) (e : exn)
    (h : AgentHistoryList) (excel_data : RecordSet) :
  acquire env s0 = (Ret (h, excel_data), s) ->
  run_process_agent env excel_data s = (Raise e, s') ->
  run_automation_try env s0 = (Raise e, s').
Proof.
  intros Ha Hr. unfold run_automation_try, bind. rewrite Ha. cbn [fst snd].
  unfold submit, bind. now rewrite Hr.
Qed.

(** C1.  Both supervised invocations, the download agent of the fetch
    phase and the form agent of the submission phase, react to a first
    [TimeoutError] with one more invocation of the same agent with the
    same step and time budgets.  If that one completes, its history is
    what the phase returns, no exception leaves the phase, and (the
    history saying done) the run goes on with the next part as after
    any completed invocation.  If it times out too, there is no third
    invocation: the [TimeoutError] leaves the phase and the run ends,
    through the handler, in a record with [success = false]. *)
Theorem retry_once_on_first_timeout (env : Env) (s : St) :
  context (self s) <> None ->
  ao_result (agent_run env (n_agent s)) = TimedOut ->
  (forall h,
      ao_result (agent_run env (S (n_agent s))) = Completed h ->
      (exists s',
          download_via_agent env s = (Ret h, s') /\
          added s s' (retried DownloadExcel 25 300 WarnDownloadTimeout) /\
          forall s0,
            context (self s0) <> None ->
            direct_download env s0 = (Ret None, s) ->
            is_done h = true ->
            acquire env s0
            = validate_and_parse env h (snd (set_download_history h s'))) /\
      (forall excel_data,
          exists s',
            run_process_agent env excel_data s = (Ret h, s') /\
            added s s'
              (retried (FillForm excel_data) 100 600 WarnProcessTimeout) /\
            forall download_history,
              is_done h = true ->
              submit env download_history excel_data s
              = summarize env download_history h
                  (snd (set_process_history h s')))) /\
  (ao_result (agent_run env (S (n_agent s))) = TimedOut ->
   (exists s',
       download_via_agent env s = (Raise TimeoutError, s') /\
       added s s' (retried DownloadExcel 25 300 WarnDownloadTimeout)) /\
   (forall excel_data,
       exists s',
         run_process_agent env excel_data s = (Raise TimeoutError, s') /\
         added s s'
           (retried (FillForm excel_data) 100 600 WarnProcessTimeout)) /\
   (handler_quiet env -> release_not_cancelled env ->
    forall s0,
      (context (self s0) <> None /\
       direct_download env (snd (enter s0)) = (Ret None, s)) \/
      (exists h excel_data,
          acquire env (snd (enter s0)) = (Ret (h, excel_data), s)) ->
      exists d s',
        run_automation env s0 = (Ret d, s') /\
        Result.success d = false /\
        Result.error d = Some (str TimeoutError))).
Proof.
  intros Hctx H1.
  destruct (download_via_agent_retry env s H1) as [sd [Hd [Had _]]].
  split.
  - intros h H2. rewrite H2 in Hd. split.
    + exists sd. split; [exact Hd|]. split; [exact Had|].
      intros s0 Hc0 Hdirect Hdone.
      apply acquire_after_fetch; [|exact Hdone].
      now rewrite (run_download_agent_falls_through env s0 s Hc0 Hdirect).
    + intro excel_data.
      destruct (run_process_agent_retry env excel_data s Hctx H1)
        as [sp [Hp [Hap _]]].
      rewrite H2 in Hp. exists sp. split; [exact Hp|]. split; [exact Hap|].
      intros download_history Hdone. now apply submit_after_process.
  - intro H2. rewrite H2 in Hd. split; [exists sd; auto|]. split.
    + intro excel_data.
      destruct (run_process_agent_retry env excel_data s Hctx H1)
        as [sp [Hp [Hap _]]].
      rewrite H2 in Hp. exists sp. auto.
    + intros Hq Hrel s0 [[Hc0 Hdirect] | [h [excel_data Hacq]]].
      * assert (Htry : run_automation_try env (snd (enter s0))
                       = (Raise TimeoutError, sd)).
        { apply try_raises_with_fetch.
          now rewrite (run_download_agent_falls_through env (snd (enter s0)) s
                         Hc0 Hdirect). }
        destruct (run_automation_failure env s0 sd TimeoutError Hq Hrel Htry eq_refl)
          as [d [s' [Hr [Hs [He _]]]]].
        exists d, s'. auto.
      * destruct (run_process_agent_retry env excel_data s Hctx H1)
          as [sp [Hp _]].
        rewrite H2 in Hp.
        pose proof (try_raises_with_process env _ s sp TimeoutError h
                      excel_data Hacq Hp) as Htry.
        destruct (run_automation_failure env s0 sp TimeoutError Hq Hrel Htry eq_refl)
          as [d [s' [Hr [Hs [He _]]]]].
        exists d, s'. auto.
Qed.

Lemma retry_once_on_first_timeout_witness :
  let env := Sample.env_retry in
  let s := snd (direct_download env
                  (start Sample.runner_a Sample.empty_world)) in
  context (self s) <> None /\
  ao_result (agent_run env (n_agent s)) = TimedOut /\
  ao_result (agent_run env (S (n_agent s))) = Completed Sample.done /\
  exists s',
    download_via_agent env s = (Ret Sample.done, s') /\
    added s s' (retried DownloadExcel 25 300 WarnDownloadTimeout).
Proof.
  intros env s.
  assert (Hc : context (self s) <> None) by discriminate.
  assert (H1 : ao_result (agent_run env (n_agent s)) = TimedOut)
    by reflexivity.
  assert (H2 : ao_result (agent_run env (S (n_agent s)))
               = Completed Sample.done) by reflexivity.
  split; [exact Hc|]. split; [exact H1|]. split; [exact H2|].
  destruct (retry_once_on_first_timeout env s Hc H1) as [Hdone _].
  destruct (Hdone Sample.done H2) as [[s' [Hr [Ha _]]] _].
  exists s'. split; [exact Hr|exact Ha].
Defined.

(** The close of the context and the close of the browser share one
    [try]: when [context.close()] raises an [Exception], the run keeps
    its outcome, the exception is logged, and [browser.close()] is not
    called; the runner still holds both. *)
Lemma failed_context_close_skips_browser_close :
  let run :=
    run_automation Sample.env_retry
      (start Sample.runner_a Sample.empty_world) in
  (exists d, fst run = Ret d /\ Result.success d = true) /\
  count_event is_close (w_trace (world (snd run))) = 1 /\
  In EvCloseContext (w_trace (world (snd run))) /\
  In (EvLog (ErrCloseResources (Exception "Target closed")))
     (w_trace (world (snd run))) /\
  context (self (snd run)) = Some Context /\
  browser (self (snd run)) = Some Browser.
Proof.
  cbv zeta. split; [eexists; split; [vm_compute; reflexivity|reflexivity]|].
  split; [vm_compute; reflexivity|].
  split; [vm_compute; tauto|].
  split; [vm_compute; tauto|].
  split; vm_compute; reflexivity.
Qed.



(** ** Runs that are not cancelled *)

Lemma no_cancel_ret {A} (a : A) : no_cancel (ret a).
Proof. intros s. discriminate. Qed.

Lemma no_cancel_raise {A} (e : exn) :
  is_Exception e = true -> no_cancel (@raise A e).
Proof. intros He s H. cbn in H. injection H as ->. discriminate. Qed.

Lemma no_cancel_bind {A B} (c : M A) (k : A -> M B) :
  no_cancel c -> (forall a, no_cancel (k a)) -> no_cancel (bind c k).
Proof.
  intros Hc Hk s. unfold bind. specialize (Hc s).
  destruct (c s) as [[a|e] s']; [apply Hk|].
  cbn in *. intro H. apply Hc. injection H as ->. reflexivity.
Qed.

Lemma no_cancel_try_except {A} (c : M A) (h : exn -> M A) :
  no_cancel c -> (forall e, no_cancel (h e)) -> no_cancel (try_except c h).
Proof.
  intros Hc Hh s. unfold try_except. specialize (Hc s).
  destruct (c s) as [[a|e] s']; [discriminate|].
  destruct (is_Exception e); [apply Hh|exact Hc].
Qed.

Lemma no_cancel_try_except_timeout {A} (c h : M A) :
  no_cancel c -> no_cancel h -> no_cancel (try_except_timeout c h).
Proof.
  intros Hc Hh s. unfold try_except_timeout. specialize (Hc s).
  destruct (c s) as [[a|e] s']; [discriminate|].
  destruct (is_TimeoutError e); [apply Hh|exact Hc].
Qed.

Lemma locate_raises (fs : FS) (e : exn) :
  fst (fst (Locator.locate fs)) = inr e -> is_Exception e = true.
Proof.
  unfold Locator.locate.
  destruct (match lookup direct_file fs with
            | Some f => (0 <? f_size f)%N | None => false end).
  - destruct (read_excel direct_file fs); cbn [fst snd].
    + discriminate.
    + destruct (Locator.scan _ _ _) as [[v fs2] evs2].
      destruct v; cbn [fst snd]; [discriminate|].
      destruct (Locator.keyed _ _) as [[|k ks]|]; cbn [fst snd];
        intro H; first [discriminate H | injection H as <-; reflexivity].
  - destruct (Locator.scan _ _ _) as [[v fs2] evs2].
    destruct v; cbn [fst snd]; [discriminate|].
    destruct (Locator.keyed _ _) as [[|k ks]|]; cbn [fst snd];
      intro H; first [discriminate H | injection H as <-; reflexivity].
Qed.

Lemma no_cancel_find_latest : no_cancel find_latest_challenge_file.
Proof.
  intros s. unfold find_latest_challenge_file.
  pose proof (locate_raises (w_fs (world s))) as H.
  destruct (Locator.locate (w_fs (world s))) as [[[found|e] fs'] evs];
    cbn [fst snd] in *; [discriminate|].
  intro Heq. injection Heq as ->. specialize (H _ eq_refl). discriminate.
Qed.

Lemma no_cancel_read_excel_data (path : string) :
  no_cancel (read_excel_data path).
Proof.
  intros s. destruct (read_excel_data_cache path s) as [v [Hv _]].
  rewrite Hv. discriminate.
Qed.

Lemma no_cancel_emit (ev : Event) : no_cancel (emit ev).
Proof. intros s. discriminate. Qed.

Lemma no_cancel_append_line (line : string) : no_cancel (append_line line).
Proof. intros s. discriminate. Qed.

Lemma no_cancel_get_fs : no_cancel get_fs.
Proof. intros s. discriminate. Qed.

Lemma no_cancel_get_self : no_cancel get_self.
Proof. intros s. discriminate. Qed.

Lemma no_cancel_get_frame : no_cancel get_frame.
Proof. intros s. discriminate. Qed.

Lemma no_cancel_set_result_lines (l : list string) :
  no_cancel (set_result_lines l).
Proof. intros s. discriminate. Qed.

Lemma no_cancel_set_download_history (h : AgentHistoryList) :
  no_cancel (set_download_history h).
Proof. intros s. discriminate. Qed.

Lemma no_cancel_set_process_history (h : AgentHistoryList) :
  no_cancel (set_process_history h).
Proof. intros s. discriminate. Qed.

Lemma no_cancel_set_download_agent (t : AgentTask) :
  no_cancel (set_download_agent t).
Proof. intros s. discriminate. Qed.

Lemma no_cancel_set_process_agent (t : AgentTask) :
  no_cancel (set_process_agent t).
Proof. intros s. discriminate. Qed.

Lemma no_cancel_write_file (f : File) : no_cancel (write_file f).
Proof. intros s. discriminate. Qed.

Create HintDb no_cancel_db.

#[local] Hint Resolve no_cancel_find_latest no_cancel_read_excel_data
  no_cancel_emit no_cancel_append_line no_cancel_get_fs no_cancel_get_self
  no_cancel_get_frame no_cancel_set_result_lines
  no_cancel_set_download_history no_cancel_set_process_history
  no_cancel_set_download_agent no_cancel_set_process_agent
  no_cancel_write_file : no_cancel_db.

(** Goes through the binds, handlers and branches of a computation. *)
Ltac no_cancel_steps :=
  repeat first
    [ apply no_cancel_ret
    | apply no_cancel_raise; reflexivity
    | solve [auto with no_cancel_db]
    | apply no_cancel_bind; [|intros ?]
    | apply no_cancel_try_except; [|intros ?]
    | apply no_cancel_try_except_timeout
    | match goal with
      | |- no_cancel (if ?b then _ else _) => destruct b
      | |- no_cancel (match ?x with _ => _ end) => destruct x
      end ].

Lemma no_cancel_os_path_getsize (path : string) :
  no_cancel (os_path_getsize path).
Proof. unfold os_path_getsize. no_cancel_steps. Qed.

Lemma no_cancel_process_excel_data : no_cancel process_excel_data.
Proof. unfold process_excel_data. no_cancel_steps. Qed.

#[local] Hint Resolve no_cancel_os_path_getsize no_cancel_process_excel_data
  : no_cancel_db.

Section NotCancelled.

Variable env : Env.
Hypothesis Hnever : never_cancelled env.

Lemma no_cancel_wait_for_agent_run (task : AgentTask) (n t : nat) :
  no_cancel (wait_for_agent_run env task n t).
Proof.
  destruct Hnever as [Hagent _]. intros s. unfold wait_for_agent_run.
  specialize (Hagent (n_agent s)).
  destruct (ao_result (agent_run env (n_agent s)));
    cbn; try discriminate. contradiction.
Qed.

Lemma no_cancel_asyncio_sleep (seconds : nat) :
  no_cancel (asyncio_sleep env seconds).
Proof.
  destruct Hnever as [_ [Hsleep _]]. intros s. unfold asyncio_sleep.
  rewrite (Hsleep (n_sleep s)). discriminate.
Qed.

Lemma no_cancel_save_summary (ok : bool) : no_cancel (save_summary env ok).
Proof.
  intros s. unfold save_summary.
  destruct (write_summary env ok); discriminate.
Qed.

Lemma no_cancel_result_dict (ok : bool) (err : option string) :
  no_cancel (result_dict env ok err).
Proof. intros s. discriminate. Qed.

Lemma no_cancel_call_done_callback (d : Result.t) :
  no_cancel (call_done_callback env d).
Proof.
  destruct Hnever as [_ [_ [Hcb _]]]. unfold call_done_callback.
  destruct (on_done_callback env) as [callback|] eqn:Hcall.
  - apply no_cancel_bind; [apply no_cancel_emit|intros _].
    specialize (Hcb callback d eq_refl).
    destruct (callback d) as [e|].
    + intros s H. cbn in H. injection H as ->. now apply Hcb.
    + apply no_cancel_ret.
  - apply no_cancel_ret.
Qed.

Hint Resolve no_cancel_wait_for_agent_run no_cancel_asyncio_sleep
  no_cancel_save_summary no_cancel_result_dict
  no_cancel_call_done_callback : no_cancel_db.

Lemma no_cancel_direct_download : no_cancel (direct_download env).
Proof.
  unfold direct_download. no_cancel_steps.
Qed.

Lemma no_cancel_run_download_agent : no_cancel (run_download_agent env).
Proof.
  pose proof no_cancel_direct_download.
  unfold run_download_agent, download_via_agent. no_cancel_steps.
Qed.

Lemma no_cancel_run_process_agent (excel_data : RecordSet) :
  no_cancel (run_process_agent env excel_data).
Proof. unfold run_process_agent. no_cancel_steps. Qed.

Lemma no_cancel_poll (attempts : list nat) :
  forall excel_file, no_cancel (poll env attempts excel_file).
Proof.
  induction attempts as [|attempt rest IH]; intro excel_file;
    cbn [poll]; no_cancel_steps; apply IH.
Qed.

Lemma no_cancel_run_automation_try : no_cancel (run_automation_try env).
Proof.
  pose proof no_cancel_run_download_agent.
  pose proof no_cancel_run_process_agent.
  pose proof no_cancel_poll.
  unfold run_automation_try, acquire, validate_and_parse, submit, summarize.
  no_cancel_steps.
Qed.

End NotCancelled.

(** ** What a normal return of the [try] block has done *)

Lemma ensures_bind {A B} (c : M A) (k : A -> M B) (Q : B -> St -> Prop) :
  (forall a, ensures (k a) Q) -> ensures (bind c k) Q.
Proof.
  intros Hk s b s' H. unfold bind in H.
  destruct (c s) as [[a|e] s1]; [|discriminate].
  exact (Hk a s1 b s' H).
Qed.

Lemma summarize_ensures (env : Env) (h1 h2 : AgentHistoryList) :
  ensures (summarize env h1 h2) success_recorded.
Proof.
  unfold summarize.
  do 3 (apply ensures_bind; intros ?).
  intros s d s' H.
  unfold bind, save_summary, result_dict, call_done_callback, emit, ret, raise
    in H.
  destruct (write_summary env true); [discriminate|].
  cbn in H.
  destruct (on_done_callback env) as [callback|]; cbn in H.
  - match type of H with context [callback ?x] => destruct (callback x) end;
      [discriminate|].
    injection H as <- <-. unfold success_recorded. cbn.
    now rewrite String.eqb_refl.
  - injection H as <- <-. unfold success_recorded. cbn.
    now rewrite String.eqb_refl.
Qed.

Lemma run_automation_try_ensures (env : Env) :
  ensures (run_automation_try env) success_recorded.
Proof.
  unfold run_automation_try. apply ensures_bind. intros [h excel_data].
  unfold submit. do 3 (apply ensures_bind; intros ?).
  apply summarize_ensures.
Qed.




(** ** The validation poll *)

(** C4.  The code departs from this property: after the loop it only asks
    whether the last attempt located a file, not whether an attempt
    accepted one.  Here the download agent leaves [challenge.xlsx], which is
    rewritten with another size during every sleep: each of the five
    attempts finds its size changed over the two seconds and reports
    the attempt as not valid, and yet the run goes on to parse the file
    and to fill the form, and ends in the success record. *)
Theorem poll_without_stable_file_goes_on :
  let run :=
    run_automation Sample.env_unstable
      (start Sample.runner_a Sample.empty_world) in
  let xlsx := downloads_path "challenge.xlsx" in
  w_trace (world (snd run))
  = [EvUrlopen; EvLog (ErrDirectDownload (Exception "HTTP Error 503"));
     EvAgentRun DownloadExcel 25 300; EvSleep 10;
     EvLocate; EvReadExcel xlsx; EvSleep 2; EvLog (WarnPollInvalid 1); EvSleep 5;
     EvLocate; EvReadExcel xlsx; EvSleep 2; EvLog (WarnPollInvalid 2); EvSleep 5;
     EvLocate; EvReadExcel xlsx; EvSleep 2; EvLog (WarnPollInvalid 3); EvSleep 5;
     EvLocate; EvReadExcel xlsx; EvSleep 2; EvLog (WarnPollInvalid 4); EvSleep 5;
     EvLocate; EvReadExcel xlsx; EvSleep 2; EvLog (WarnPollInvalid 5); EvSleep 5;
     EvLocate; EvReadExcel xlsx; EvReadExcel xlsx;
     EvAgentRun (FillForm Sample.rows_a) 100 600;
     EvWriteSummary (result_file Sample.runner_a);
     EvCloseContext; EvCloseBrowser] /\
  count_event is_poll_rejection (w_trace (world (snd run))) = 5 /\
  exists d,
    fst run = Ret d /\ Result.success d = true /\ Result.error d = None.
Proof.
  cbv zeta. split; [vm_compute; reflexivity|].
  split; [vm_compute; reflexivity|].
  eexists. split; [vm_compute; reflexivity|]. split; reflexivity.
Qed.

(** ** The fetch phase *)

(** C5.  The code departs from this property: the agent that only opens
    the site runs inside the [try] block that guards the validation of
    the downloaded file, so its failure is handled as a failed
    validation.  Here the direct
    download succeeds and validates (one row), the open-site agent
    times out after its 60 seconds, the handler reports an error of
    validation, and the download agent is invoked although the file is
    there and valid. *)
Theorem direct_success_still_runs_download_agent :
  let run :=
    run_download_agent Sample.env_open_site_timeout
      (start Sample.runner_a Sample.empty_world) in
  is_valid (w_fs (world (snd run))) direct_file = true /\
  w_trace (world (snd run))
  = [EvUrlopen; EvReadExcel direct_file; EvAgentRun OpenSiteOnly 5 60;
     EvLog (ErrValidateExcel TimeoutError); EvAgentRun DownloadExcel 25 300] /\
  count_event is_download_run (w_trace (world (snd run))) = 1 /\
  fst run = Ret Sample.done.
Proof. cbv zeta. repeat split; vm_compute; reflexivity. Qed.

Lemma lookup_write (f : File) (fs : FS) :
  lookup (downloads_path (f_name f)) (write f fs) = Some f.
Proof.
  unfold lookup.
  induction fs as [|g rest IH]; cbn [write find].
  - now rewrite String.eqb_refl.
  - destruct (String.eqb (f_name g) (f_name f)) eqn:Hn; cbn [find].
    + now rewrite String.eqb_refl.
    + destruct (String.eqb (downloads_path (f_name g))
                           (downloads_path (f_name f))) eqn:Hp.
      * apply String.eqb_eq, downloads_path_inj in Hp.
        apply String.eqb_neq in Hn. contradiction.
      * exact IH.
Qed.

(** The part of C5 that the code keeps: a direct download that
    validates, followed by an open-site agent that completes, returns
    that agent's history and never invokes the download agent. *)
Lemma validated_direct_download_skips_download_agent
    (env : Env) (s : St) (size ctime : N) (row : Row) (rows : RecordSet)
    (h : AgentHistoryList) :
  context (self s) <> None ->
  urlopen env = FetchSaved size (Some (row :: rows)) ctime ->
  (0 < size)%N ->
  ao_result (agent_run env (n_agent s)) = Completed h ->
  exists s',
    run_download_agent env s = (Ret h, s') /\
    added s s' [EvUrlopen; EvReadExcel direct_file; EvAgentRun OpenSiteOnly 5 60].
Proof.
  intros Hctx Hurl Hsize Hagent.
  unfold run_download_agent, bind, get_self.
  destruct (context (self s)) as [c|]; [|contradiction].
  unfold direct_download, try_except, bind, emit, write_file, get_fs.
  rewrite Hurl. cbn [fst snd world w_fs set_world put_fs add_trace].
  set (f := mkFile direct_name size (Some (row :: rows)) ctime false).
  assert (Hlk : lookup direct_file (write f (w_fs (world s))) = Some f)
    by apply (lookup_write f).
  unfold exists_, getsize, read_excel. rewrite Hlk.
  cbn [option_map f_size f_rows f andb].
  apply N.ltb_lt in Hsize. rewrite Hsize.
  cbn [List.length Nat.ltb Nat.leb].
  unfold set_download_agent, wait_for_agent_run, ret.
  cbn [n_agent set_self set_world]. rewrite Hagent.
  eexists. split; [reflexivity|].
  unfold added. cbn. now rewrite <- !app_assoc.
Qed.

(** The other part that the code keeps: after a direct download that
    fails (network error, empty file, unreadable file or no rows) the
    download agent is invoked, and exactly once when it does not time
    out. *)
Lemma failed_direct_download_runs_download_agent_once (env : Env) (s : St) :
  context (self s) <> None ->
  match urlopen env with
  | FetchError _ => True
  | FetchSaved size rows _ =>
      size = 0%N \/ rows = None \/ rows = Some []
  end ->
  ao_result (agent_run env (n_agent s)) <> TimedOut ->
  exists evs,
    added s (snd (run_download_agent env s)) evs /\
    count_event is_download_run evs = 1.
Proof.
  intros Hctx Hurl Hagent.
  unfold run_download_agent, bind, get_self.
  destruct (context (self s)) as [c|]; [|contradiction].
  unfold direct_download, try_except, bind, emit, write_file, get_fs.
  destruct (urlopen env) as [msg|size rows ctime].
  - cbn. unfold download_via_agent, bind, set_download_agent,
      try_except_timeout, wait_for_agent_run. cbn.
    destruct (ao_result (agent_run env (n_agent s))); try contradiction;
      cbn; eexists; (split; [unfold added; cbn; rewrite <- !app_assoc;
                             reflexivity|reflexivity]).
  - cbn [fst snd world w_fs set_world put_fs add_trace].
    set (f := mkFile direct_name size rows ctime false).
    assert (Hlk : lookup direct_file (write f (w_fs (world s))) = Some f)
      by apply (lookup_write f).
    unfold exists_, getsize, read_excel. rewrite Hlk.
    cbn [option_map f_size f_rows f andb].
    assert (Hfall :
      forall s1 evs1, added s s1 evs1 -> n_agent s1 = n_agent s ->
        count_event is_download_run evs1 = 0 ->
        exists evs,
          added s (snd (download_via_agent env s1)) evs /\
          count_event is_download_run evs = 1).
    { intros s1 evs1 Ha Hn Hc.
      unfold download_via_agent, bind, set_download_agent,
        try_except_timeout, wait_for_agent_run. cbn. rewrite Hn.
      assert (Hcount : count_event is_download_run
                (evs1 ++ [EvAgentRun DownloadExcel 25 300]) = 1).
      { clear - Hc. induction evs1 as [|ev evs1 IH]; [reflexivity|].
        cbn in *. destruct (is_download_run ev); [discriminate|].
        now apply IH. }
      destruct (ao_result (agent_run env (n_agent s))); try contradiction;
        cbn; exists (evs1 ++ [EvAgentRun DownloadExcel 25 300]);
        (split; [unfold added in *; cbn; rewrite Ha, <- !app_assoc;
                 reflexivity|exact Hcount]). }
    destruct Hurl as [-> | [-> | ->]].
    + cbn [N.ltb N.compare]. cbn.
      eapply Hfall; [unfold added; cbn; reflexivity|reflexivity|reflexivity].
    + destruct (0 <? size)%N; cbn;
        (eapply Hfall; [unfold added; cbn; rewrite <- ?app_assoc;
                        reflexivity|reflexivity|reflexivity]).
    + destruct (0 <? size)%N; cbn;
        (eapply Hfall; [unfold added; cbn; rewrite <- ?app_assoc;
                        reflexivity|reflexivity|reflexivity]).
Qed.

Lemma locate_nothing (fs : FS) :
  lookup direct_file fs = None -> glob_challenge fs = [] ->
  Locator.locate fs = (inl None, fs, []).
Proof.
  intros Hd Hg. unfold Locator.locate. rewrite Hd, Hg. reflexivity.
Qed.

(** The part of C4 that the code keeps: while the scope has no
    candidate at all, each of the attempts locates nothing, and after
    the fifth the run fails with the message of the exhausted poll
    instead of parsing. *)
Lemma poll_finds_nothing (env : Env) (attempts : list nat) :
  (forall k, sleep env k = mkSleepOutcome [] false) ->
  forall (s : St) (excel_file : option string),
    lookup direct_file (w_fs (world s)) = None ->
    glob_challenge (w_fs (world s)) = [] ->
    exists s' evs,
      poll env attempts excel_file s
      = (Ret (match attempts with [] => excel_file | _ => None end), s') /\
      w_fs (world s') = w_fs (world s) /\
      frame s' = frame s /\
      added s s' evs /\
      count_event is_locate evs = List.length attempts.
Proof.
  intro Hsleep.
  induction attempts as [|attempt rest IH]; intros s excel_file Hd Hg.
  - exists s, []. cbn. unfold added. rewrite app_nil_r. auto.
  - cbn [poll]. unfold bind at 1. unfold find_latest_challenge_file.
    rewrite (locate_nothing _ Hd Hg).
    unfold bind, emit, asyncio_sleep. cbn [fst snd n_sleep set_world].
    rewrite Hsleep. cbn [so_files so_cancelled write_all fold_left].
    match goal with |- context [poll env rest None ?st] =>
      destruct (IH st None) as [s' [evs [Hp [Hfs [Hfr [Ha Hc]]]]]];
        [exact Hd|exact Hg|] end.
    rewrite Hp. exists s'.
    exists ([EvLocate; EvLog (WarnPollInvalid (attempt + 1)); EvSleep 5] ++ evs).
    split; [destruct rest; reflexivity|].
    split; [exact Hfs|]. split; [exact Hfr|]. split.
    + unfold added in *. rewrite Ha. cbn. now rewrite <- !app_assoc.
    + cbn. now rewrite Hc.
Qed.

Lemma exhausted_poll_fails (env : Env) (h : AgentHistoryList) (s : St) :
  (forall k, sleep env k = mkSleepOutcome [] false) ->
  lookup direct_file (w_fs (world s)) = None ->
  glob_challenge (w_fs (world s)) = [] ->
  exists s',
    validate_and_parse env h s
    = (Raise (Exception
         "Não foi possível encontrar o arquivo Excel após várias tentativas"),
       s') /\
    count_event is_locate
      (skipn (List.length (w_trace (world s))) (w_trace (world s'))) = 5.
Proof.
  intros Hsleep Hd Hg.
  unfold validate_and_parse. unfold bind at 1. unfold asyncio_sleep.
  rewrite Hsleep. cbn [so_files so_cancelled write_all fold_left].
  match goal with |- context [bind (poll env (seq 0 5) None) _ ?st] =>
    destruct (poll_finds_nothing env (seq 0 5) Hsleep st None)
      as [s' [evs [Hp [Hfs [Hfr [Ha Hc]]]]]]; [exact Hd|exact Hg|];
    set (s1 := st) in * end.
  unfold bind at 1. rewrite Hp. cbn [seq].
  unfold bind, append_line, raise. cbn [fst snd].
  eexists. split; [reflexivity|].
  cbn [world set_frame w_trace]. unfold added in Ha. rewrite Ha.
  subst s1. cbn [world w_trace].
  rewrite <- app_assoc, skipn_app, skipn_all, Nat.sub_diag. cbn [app skipn].
  exact Hc.
Qed.

(** * Further properties of the code *)

(** ** The scope after a scan *)

Lemma memb_In (p : string) (l : list string) : memb p l = true <-> In p l.
Proof.
  induction l as [|q rest IH]; cbn [memb In].
  - split; [discriminate|contradiction].
  - rewrite Bool.orb_true_iff, IH, String.eqb_eq. split; intros [H|H]; auto.
Qed.

Lemma removable_corrupt_invalid (fs : FS) (p : string) :
  removable_corrupt fs p = true -> is_valid fs p = false.
Proof.
  unfold removable_corrupt, is_valid. destruct (lookup p fs) as [f|]; [|auto].
  destruct (f_rows f); [|intros _; apply Bool.andb_false_r].
  rewrite Bool.andb_false_r. discriminate.
Qed.

Lemma removable_corrupt_delete_ne (fs : FS) (p q : string) :
  p <> q ->
  removable_corrupt (delete q fs) p = removable_corrupt fs p.
Proof.
  intro H. unfold removable_corrupt. now rewrite lookup_delete_ne.
Qed.

(** One step of the scan on the scope. *)
Lemma scan_cons_fs (file : string) (rest valid : list string) (fs : FS) :
  exists valid',
    snd (fst (Locator.scan (file :: rest) valid fs))
    = snd (fst (Locator.scan rest valid'
                  (if removable_corrupt fs file then delete file fs else fs))).
Proof.
  cbn [Locator.scan].
  unfold removable_corrupt, getsize, read_excel, Locator.try_remove, remove.
  destruct (lookup file fs) as [f|] eqn:Hlk; cbn [option_map].
  - destruct (0 <? f_size f)%N; cbn [andb].
    + destruct (f_rows f); cbn [andb].
      * exists (valid ++ [file]).
        destruct (Locator.scan rest (valid ++ [file]) fs) as [[v' fs'] evs'].
        reflexivity.
      * exists valid. destruct (f_locked f); cbn [negb];
          match goal with |- context [Locator.scan rest valid ?x] =>
            destruct (Locator.scan rest valid x) as [[v' fs'] evs'] end;
          reflexivity.
    + exists valid. destruct (Locator.scan rest valid fs) as [[v' fs'] evs'].
      reflexivity.
  - exists valid. destruct (Locator.scan rest valid fs) as [[v' fs'] evs'].
    reflexivity.
Qed.

Lemma filter_filter {A} (P Q : A -> bool) (l : list A) :
  filter P (filter Q l) = filter (fun x => Q x && P x) l.
Proof.
  induction l as [|x l IH]; [reflexivity|]. cbn [filter].
  destruct (Q x); cbn [filter andb]; [destruct (P x)|]; now rewrite IH.
Qed.

Lemma scan_fs (files : list string) :
  forall (valid : list string) (fs : FS),
    snd (fst (Locator.scan files valid fs))
    = filter (fun f =>
                negb (removable_corrupt fs (downloads_path (f_name f)) &&
                      memb (downloads_path (f_name f)) files))
             fs.
Proof.
  induction files as [|file rest IH]; intros valid fs.
  - cbn [Locator.scan fst snd memb].
    symmetry. rewrite <- (filter_ext_in (fun _ => true)).
    + clear. induction fs as [|f fs IH]; [reflexivity|]. cbn. now rewrite IH.
    + intros f _. now rewrite Bool.andb_false_r.
  - destruct (scan_cons_fs file rest valid fs) as [valid' ->].
    rewrite IH. destruct (removable_corrupt fs file) eqn:Hc.
    + unfold delete at 2. rewrite filter_filter. apply filter_ext_in.
      intros f Hf. cbn [memb].
      destruct (String.eqb (downloads_path (f_name f)) file) eqn:He.
      * apply String.eqb_eq in He. rewrite He, Hc. reflexivity.
      * cbn [negb andb orb]. apply String.eqb_neq in He.
        now rewrite removable_corrupt_delete_ne.
    + apply filter_ext_in. intros f Hf. cbn [memb].
      destruct (String.eqb (downloads_path (f_name f)) file) eqn:He.
      * apply String.eqb_eq in He. rewrite He, Hc. reflexivity.
      * reflexivity.
Qed.

Lemma memb_glob (fs : FS) (f : File) :
  In f fs ->
  memb (downloads_path (f_name f)) (glob_challenge fs) = glob_match (f_name f).
Proof.
  intro Hin. destruct (glob_match (f_name f)) eqn:Hm.
  - apply memb_In, In_glob. exists f. auto.
  - destruct (memb _ _) eqn:Hmem; [|reflexivity].
    apply memb_In, In_glob in Hmem. destruct Hmem as [g [_ [Hg Hp]]].
    apply downloads_path_inj in Hp. rewrite Hp in Hg. congruence.
Qed.

Lemma locate_direct_phase (fs : FS) :
  is_valid fs direct_file = false ->
  exists evs1,
    Locator.locate fs =
      (let fs1 := if removable_corrupt fs direct_file
                  then delete direct_file fs else fs in
       let '(valid_files, fs2, evs2) :=
         Locator.scan (glob_challenge fs1) [] fs1 in
       match valid_files with
       | [] => (inl None, fs2, evs1 ++ evs2)
       | v :: vs =>
           match Locator.keyed valid_files fs2 with
           | Some (k :: ks) =>
               (inl (Some (Locator.max_by_key k ks)), fs2, evs1 ++ evs2)
           | _ => (inr (Exception "FileNotFoundError"), fs2, evs1 ++ evs2)
           end
       end).
Proof.
  unfold is_valid, removable_corrupt, Locator.locate, read_excel,
    Locator.try_remove, remove.
  destruct (lookup direct_file fs) as [f|].
  - destruct (0 <? f_size f)%N; cbn [andb].
    + destruct (f_rows f); [discriminate|]. intros _. cbn [andb].
      destruct (f_locked f); cbn [negb]; eexists; reflexivity.
    + intros _. exists []. reflexivity.
  - intros _. exists []. reflexivity.
Qed.

Lemma locate_fs_after_scan (fs : FS) :
  is_valid fs direct_file = false ->
  let fs1 := if removable_corrupt fs direct_file
             then delete direct_file fs else fs in
  snd (fst (Locator.locate fs))
  = snd (fst (Locator.scan (glob_challenge fs1) [] fs1)).
Proof.
  intros Hd fs1. destruct (locate_direct_phase fs Hd) as [evs1 ->].
  fold fs1. cbv zeta.
  destruct (Locator.scan (glob_challenge fs1) [] fs1) as [[v fs2] evs2].
  destruct v; [reflexivity|].
  destruct (Locator.keyed _ _) as [[|k ks]|]; reflexivity.
Qed.

(** X1.  The only effect of the locator on the downloads directory:
    when [challenge_direct.xlsx] is valid nothing changes; otherwise
    exactly the files that match the pattern, are not empty, do not
    parse and can be removed are deleted, and every other file stays
    as it is, in the same order. *)
Theorem locate_effect (fs : FS) :
  snd (fst (Locator.locate fs))
  = if is_valid fs direct_file then fs else pruned fs.
Proof.
  destruct (is_valid fs direct_file) eqn:Hd.
  - now rewrite (locate_valid_direct fs Hd).
  - rewrite (locate_fs_after_scan fs Hd), scan_fs. unfold pruned.
    destruct (removable_corrupt fs direct_file) eqn:Hc.
    + unfold delete at 3. rewrite filter_filter. apply filter_ext_in.
      intros f Hf.
      destruct (String.eqb (downloads_path (f_name f)) direct_file) eqn:He.
      * apply String.eqb_eq in He. rewrite He, Hc.
        apply downloads_path_inj in He. rewrite He, glob_match_direct_name.
        reflexivity.
      * cbn [negb andb]. apply String.eqb_neq in He.
        rewrite removable_corrupt_delete_ne by exact He.
        rewrite memb_glob; [reflexivity|].
        apply In_delete. auto.
    + apply filter_ext_in. intros f Hf. now rewrite memb_glob.
Qed.

(** ** The answer of the locator *)

Lemma glob_delete (q : string) (fs : FS) :
  glob_challenge (delete q fs)
  = filter (fun p => negb (String.eqb p q)) (glob_challenge fs).
Proof.
  unfold glob_challenge, delete.
  induction fs as [|f fs IH]; [reflexivity|]. cbn [filter].
  destruct (String.eqb (downloads_path (f_name f)) q) eqn:He; cbn [negb filter].
  - destruct (glob_match (f_name f)); cbn [map filter]; [rewrite He|]; exact IH.
  - destruct (glob_match (f_name f)); cbn [map filter]; [rewrite He|];
      cbn [negb]; now rewrite IH.
Qed.

Lemma keyed_valid (l : list string) (fs : FS) :
  (forall p, In p l -> is_valid fs p = true) ->
  Locator.keyed l fs = Some (map (with_ctime fs) l).
Proof.
  induction l as [|p rest IH]; intro H; [reflexivity|].
  cbn [Locator.keyed map]. unfold with_ctime at 1.
  destruct (is_valid_getctime fs p (H p (or_introl eq_refl))) as [c ->].
  rewrite IH; [reflexivity|]. intros q Hq. apply H. now right.
Qed.

Lemma map_ext_in_ctime (l : list string) (fs fs' : FS) :
  (forall p, In p l -> lookup p fs' = lookup p fs) ->
  map (with_ctime fs') l = map (with_ctime fs) l.
Proof.
  intro H. apply map_ext_in. intros p Hp. unfold with_ctime, getctime.
  now rewrite (H p Hp).
Qed.

(** The locator never raises, and its answer is a function of the
    scope: the direct file when it is valid, else the first of the
    valid candidates with the latest creation time. *)
Lemma locate_answer (fs : FS) :
  fst (fst (Locator.locate fs)) = inl (latest_valid fs).
Proof.
  unfold latest_valid. destruct (is_valid fs direct_file) eqn:Hd.
  - now rewrite (locate_valid_direct fs Hd).
  - destruct (locate_direct_phase fs Hd) as [evs1 ->]. cbv zeta.
    set (fs1 := if removable_corrupt fs direct_file
                then delete direct_file fs else fs).
    assert (Hval1 : forall p, is_valid fs1 p = is_valid fs p).
    { intro p. unfold fs1. destruct (removable_corrupt fs direct_file);
        [|reflexivity].
      unfold is_valid at 1. destruct (String.eqb p direct_file) eqn:He.
      - apply String.eqb_eq in He. subst p. now rewrite lookup_delete_eq, Hd.
      - apply String.eqb_neq in He. now rewrite lookup_delete_ne. }
    assert (Hlk1 : forall p, is_valid fs p = true -> lookup p fs1 = lookup p fs).
    { intros p Hp. unfold fs1. destruct (removable_corrupt fs direct_file);
        [|reflexivity].
      apply lookup_delete_ne. intros ->. congruence. }
    assert (Hlist : filter (is_valid fs1) (glob_challenge fs1) = valid_paths fs).
    { unfold valid_paths. rewrite (filter_ext _ _ Hval1). unfold fs1.
      destruct (removable_corrupt fs direct_file); [|reflexivity].
      rewrite glob_delete, filter_filter. apply filter_ext.
      intro p. destruct (String.eqb p direct_file) eqn:He; [|reflexivity].
      apply String.eqb_eq in He. subst p. now rewrite Hd. }
    pose proof (scan_valid (glob_challenge fs1) [] fs1) as [Hv [Hval2 Hlk2]].
    destruct (Locator.scan (glob_challenge fs1) [] fs1) as [[valid_files fs2] evs2].
    cbn [fst snd app] in Hv, Hval2, Hlk2. rewrite Hlist in Hv. subst valid_files.
    assert (Hall : forall p, In p (valid_paths fs) -> is_valid fs p = true).
    { intros p Hp. unfold valid_paths in Hp. apply filter_In in Hp. tauto. }
    assert (Hk : Locator.keyed (valid_paths fs) fs2
                 = Some (map (with_ctime fs) (valid_paths fs))).
    { rewrite keyed_valid.
      - f_equal. apply map_ext_in_ctime. intros p Hp.
        rewrite Hlk2 by (rewrite Hval1; now apply Hall).
        apply Hlk1. now apply Hall.
      - intros p Hp. rewrite Hval2, Hval1. now apply Hall. }
    destruct (valid_paths fs) as [|v vs] eqn:Hvp; [reflexivity|].
    rewrite Hk. reflexivity.
Qed.

Lemma lookup_filter_by_name (k : string -> bool) (p : string) (fs : FS) :
  lookup p (filter (fun f => k (f_name f)) fs)
  = match lookup p fs with
    | Some f => if k (f_name f) then Some f else None
    | None => None
    end.
Proof.
  unfold lookup. induction fs as [|g fs IH]; [reflexivity|].
  cbn [filter find].
  destruct (String.eqb (downloads_path (f_name g)) p) eqn:He.
  - destruct (k (f_name g)) eqn:Hk; cbn [find].
    + now rewrite He.
    + rewrite IH.
      destruct (find (fun f => String.eqb (downloads_path (f_name f)) p) fs)
        as [f|] eqn:Hf; [|reflexivity].
      apply find_some in Hf. destruct Hf as [_ Hf].
      apply String.eqb_eq in Hf, He.
      assert (f_name f = f_name g) by (apply downloads_path_inj; congruence).
      now rewrite H, Hk.
  - destruct (k (f_name g)); cbn [find]; [rewrite He|]; exact IH.
Qed.

Lemma lookup_pruned (fs : FS) (p : string) :
  lookup p (pruned fs)
  = match lookup p fs with
    | Some f =>
        if removable_corrupt fs p && glob_match (f_name f) then None
        else Some f
    | None => None
    end.
Proof.
  unfold pruned.
  rewrite (lookup_filter_by_name
             (fun n => negb (removable_corrupt fs (downloads_path n) &&
                             glob_match n))).
  destruct (lookup p fs) as [f|] eqn:Hlk; [|reflexivity].
  apply lookup_some in Hlk. destruct Hlk as [_ <-].
  now destruct (removable_corrupt fs (downloads_path (f_name f)) &&
                glob_match (f_name f)).
Qed.

Lemma is_valid_pruned (fs : FS) (p : string) :
  is_valid (pruned fs) p = is_valid fs p.
Proof.
  unfold is_valid at 1. rewrite lookup_pruned.
  destruct (removable_corrupt fs p) eqn:Hc.
  - rewrite (removable_corrupt_invalid fs p Hc).
    destruct (lookup p fs) as [f|] eqn:Hlk; [|reflexivity].
    cbn [andb]. destruct (glob_match (f_name f)); [reflexivity|].
    apply removable_corrupt_invalid in Hc. unfold is_valid in Hc.
    now rewrite Hlk in Hc.
  - unfold is_valid. now destruct (lookup p fs).
Qed.

Lemma lookup_pruned_valid (fs : FS) (p : string) :
  is_valid fs p = true -> lookup p (pruned fs) = lookup p fs.
Proof.
  intro Hv. rewrite lookup_pruned.
  destruct (removable_corrupt fs p) eqn:Hc.
  - apply removable_corrupt_invalid in Hc. congruence.
  - now destruct (lookup p fs).
Qed.

(** The scope after a call, whatever its answer, has the same valid
    paths with the same files. *)
Lemma locate_keeps_valid (fs : FS) (p : string) :
  is_valid (snd (fst (Locator.locate fs))) p = is_valid fs p /\
  (is_valid fs p = true ->
   lookup p (snd (fst (Locator.locate fs))) = lookup p fs).
Proof.
  rewrite locate_effect. destruct (is_valid fs direct_file); [auto|].
  split; [apply is_valid_pruned|apply lookup_pruned_valid].
Qed.

Lemma In_valid_paths (fs : FS) (p : string) :
  In p (valid_paths fs) <-> valid_candidate fs p.
Proof. unfold valid_paths, valid_candidate. apply filter_In. Qed.

Lemma direct_valid_is_candidate (fs : FS) :
  is_valid fs direct_file = true -> valid_candidate fs direct_file.
Proof.
  intro Hd. split; [|exact Hd]. unfold is_valid in Hd.
  destruct (lookup direct_file fs) as [f|] eqn:Hlk; [|discriminate].
  apply lookup_some in Hlk. destruct Hlk as [Hin Hp].
  apply In_glob. exists f. split; [exact Hin|]. split; [|exact Hp].
  apply downloads_path_inj in Hp. rewrite Hp. exact glob_match_direct_name.
Qed.

Lemma latest_valid_sound (fs : FS) (p : string) :
  latest_valid fs = Some p -> valid_candidate fs p.
Proof.
  unfold latest_valid. destruct (is_valid fs direct_file) eqn:Hd.
  - intro H. injection H as <-. now apply direct_valid_is_candidate.
  - destruct (map (with_ctime fs) (valid_paths fs)) as [|k ks] eqn:Hm;
      [discriminate|].
    intro H. injection H as <-.
    destruct (max_by_key_spec ks k) as [c [Hin _]].
    rewrite <- Hm in Hin. apply in_map_iff in Hin.
    destruct Hin as [q [Hq Hin]]. unfold with_ctime in Hq.
    injection Hq as Hq _. rewrite <- Hq. now apply In_valid_paths.
Qed.

Lemma latest_valid_none (fs : FS) :
  latest_valid fs = None <-> forall p, ~ valid_candidate fs p.
Proof.
  unfold latest_valid. split.
  - destruct (is_valid fs direct_file) eqn:Hd; [discriminate|].
    destruct (valid_paths fs) as [|v vs] eqn:Hv; [|discriminate].
    intros _ p Hp. apply In_valid_paths in Hp. now rewrite Hv in Hp.
  - intro H. destruct (is_valid fs direct_file) eqn:Hd.
    + exfalso. exact (H _ (direct_valid_is_candidate fs Hd)).
    + destruct (valid_paths fs) as [|v vs] eqn:Hv; [reflexivity|].
      exfalso. apply (H v). apply In_valid_paths. rewrite Hv. now left.
Qed.

(** X2.  The locator never raises, and a path it returns is a valid
    candidate of the scope it was given (it matches the pattern, is
    there, is not empty and parses) and is still valid, with the same
    file, in the scope it leaves. *)
Theorem locate_answer_is_valid (fs : FS) :
  exists found,
    fst (fst (Locator.locate fs)) = inl found /\
    forall p,
      found = Some p ->
      valid_candidate fs p /\
      is_valid (snd (fst (Locator.locate fs))) p = true /\
      lookup p (snd (fst (Locator.locate fs))) = lookup p fs.
Proof.
  exists (latest_valid fs). split; [apply locate_answer|].
  intros p Hp. apply latest_valid_sound in Hp.
  destruct (locate_keeps_valid fs p) as [Hv Hl]. destruct Hp as [Hg Hp].
  split; [now split|]. split; [now rewrite Hv|now apply Hl].
Qed.

(** X3.  The locator answers absent exactly when the scope has no
    valid candidate: no file that matches the pattern, is not empty and
    parses. *)
Theorem locate_absent_iff_no_valid_candidate (fs : FS) :
  fst (fst (Locator.locate fs)) = inl None
  <-> forall p, In p (glob_challenge fs) -> is_valid fs p = false.
Proof.
  rewrite locate_answer. split.
  - intros H p Hg. injection H as H.
    destruct (is_valid fs p) eqn:Hv; [|reflexivity].
    exfalso. apply (proj1 (latest_valid_none fs) H p). now split.
  - intro H. f_equal. apply latest_valid_none. intros p [Hg Hv].
    rewrite (H p Hg) in Hv. discriminate.
Qed.

Lemma filter_all_true {A} (P : A -> bool) (l : list A) :
  (forall x, In x l -> P x = true) -> filter P l = l.
Proof.
  induction l as [|x l IH]; intro H; [reflexivity|]. cbn [filter].
  rewrite (H x (or_introl eq_refl)), IH; [reflexivity|].
  intros y Hy. apply H. now right.
Qed.

Lemma pruned_pruned (fs : FS) : pruned (pruned fs) = pruned fs.
Proof.
  unfold pruned at 1. apply filter_all_true. intros f Hf.
  unfold pruned in Hf. apply filter_In in Hf. destruct Hf as [Hin Hk].
  unfold removable_corrupt at 1. rewrite lookup_pruned.
  destruct (lookup (downloads_path (f_name f)) fs) as [g|] eqn:Hlk;
    [|reflexivity].
  pose proof (lookup_some _ _ _ Hlk) as [_ Hp].
  apply downloads_path_inj in Hp. rewrite Hp.
  apply Bool.negb_true_iff in Hk. rewrite Hk.
  unfold removable_corrupt in Hk. rewrite Hlk in Hk.
  apply Bool.negb_true_iff. exact Hk.
Qed.

Lemma filter_valid_glob_sub (K : File -> bool) (V : string -> bool)
    (l : FS) :
  (forall f, V (downloads_path (f_name f)) = true -> K f = true) ->
  filter V (glob_challenge (filter K l)) = filter V (glob_challenge l).
Proof.
  intro H. unfold glob_challenge.
  induction l as [|f l IH]; [reflexivity|]. cbn [filter].
  destruct (K f) eqn:Hk; cbn [filter].
  - destruct (glob_match (f_name f)); cbn [map filter]; [|exact IH].
    now rewrite IH.
  - destruct (glob_match (f_name f)); cbn [map filter]; [|exact IH].
    destruct (V (downloads_path (f_name f))) eqn:Hv; [|exact IH].
    rewrite (H f Hv) in Hk. discriminate.
Qed.

Lemma latest_valid_pruned (fs : FS) :
  latest_valid (pruned fs) = latest_valid fs.
Proof.
  unfold latest_valid. rewrite is_valid_pruned.
  destruct (is_valid fs direct_file); [reflexivity|].
  assert (Hvp : valid_paths (pruned fs) = valid_paths fs).
  { unfold valid_paths.
    rewrite (filter_ext _ _ (is_valid_pruned fs)).
    unfold pruned. apply filter_valid_glob_sub.
    intros f Hv. destruct (removable_corrupt fs _) eqn:Hc; [|reflexivity].
    apply removable_corrupt_invalid in Hc. congruence. }
  rewrite Hvp.
  rewrite (map_ext_in_ctime (valid_paths fs) fs (pruned fs)); [reflexivity|].
  intros p Hp. apply lookup_pruned_valid.
  apply In_valid_paths in Hp. now destruct Hp.
Qed.

(** X4.  Locating twice in a row is the same as locating once: on the
    scope that a call leaves, the next call gives the same answer and
    deletes nothing more. *)
Theorem locate_idempotent (fs : FS) :
  let fs' := snd (fst (Locator.locate fs)) in
  fst (fst (Locator.locate fs')) = fst (fst (Locator.locate fs)) /\
  snd (fst (Locator.locate fs')) = fs'.
Proof.
  intro fs'. unfold fs'. rewrite !locate_answer, !locate_effect.
  destruct (is_valid fs direct_file) eqn:Hd.
  - rewrite Hd. auto.
  - rewrite is_valid_pruned, Hd, latest_valid_pruned, pruned_pruned. auto.
Qed.

(** ** Locating and parsing together *)

Lemma find_latest_spec (s : St) :
  exists evs,
    find_latest_challenge_file s
    = (Ret (latest_valid (w_fs (world s))),
       set_world (fun w =>
         add_trace (EvLocate :: evs)
           (put_fs (snd (fst (Locator.locate (w_fs (world s))))) w)) s).
Proof.
  unfold find_latest_challenge_file.
  pose proof (locate_answer (w_fs (world s))) as H.
  destruct (Locator.locate (w_fs (world s))) as [[r fs'] evs].
  cbn [fst snd] in H. subst r. exists evs. reflexivity.
Qed.

(** X5.  The outcomes of [process_excel_data].  It raises its first
    message exactly when the scope has no valid candidate.  A record
    set that it returns has at least one row, and both a return and
    its second message need a valid candidate.  No other exception
    leaves it. *)
Theorem process_excel_data_outcomes (s : St) :
  let fs := w_fs (world s) in
  let out := fst (process_excel_data s) in
  (out = Raise (Exception msg_not_found)
   <-> forall p, In p (glob_challenge fs) -> is_valid fs p = false) /\
  (forall excel_data,
      out = Ret excel_data ->
      excel_data <> [] /\ exists p, valid_candidate fs p) /\
  (out = Raise (Exception msg_not_readable) ->
   exists p, valid_candidate fs p) /\
  (forall e,
      out = Raise e ->
      e = Exception msg_not_found \/ e = Exception msg_not_readable).
Proof.
  intros fs out.
  assert (Hnone : latest_valid fs = None
                  <-> forall p, In p (glob_challenge fs) ->
                                is_valid fs p = false).
  { split.
    - intros Hl p Hg. destruct (is_valid fs p) eqn:Hv; [|reflexivity].
      exfalso. apply (proj1 (latest_valid_none _) Hl p). now split.
    - intro Hall. apply latest_valid_none. intros p [Hg Hv].
      rewrite (Hall p Hg) in Hv. discriminate. }
  assert (Hcases :
    (latest_valid fs = None /\ out = Raise (Exception msg_not_found)) \/
    (exists p, valid_candidate fs p /\
       (out = Raise (Exception msg_not_readable) \/
        exists row rows, out = Ret (row :: rows)))).
  { unfold out, process_excel_data, bind.
    destruct (find_latest_spec s) as [evs ->]. fold fs.
    destruct (latest_valid fs) as [p|] eqn:Hl.
    - right. exists p. split; [now apply latest_valid_sound|].
      match goal with |- context [read_excel_data p ?st] =>
        destruct (read_excel_data p st) as [[v|e] st'] eqn:Hread end.
      + destruct v as [[|row rows]|]; cbn; [now left| |now left].
        right. now exists row, rows.
      + exfalso. match type of Hread with read_excel_data p ?st = _ =>
          destruct (read_excel_data_cache p st) as [v [Hv _]] end.
        rewrite Hread in Hv. discriminate.
    - left. split; reflexivity. }
  destruct Hcases as [[Hl Ho]|[p [Hp [Ho|[row [rows Ho]]]]]].
  - split; [split; [intros _; now apply Hnone|intros _; exact Ho]|].
    split; [intros d Hd; rewrite Ho in Hd; discriminate|].
    split; [intro H; rewrite Ho in H; injection H as H;
            exfalso; revert H; unfold msg_not_readable, msg_not_found;
            discriminate|].
    intros e He. rewrite Ho in He. injection He as <-. now left.
  - assert (Hsome : latest_valid fs <> None).
    { intro Hl. apply (proj1 (latest_valid_none _) Hl p). exact Hp. }
    split; [split; [intro H; rewrite Ho in H; injection H as H;
                    exfalso; revert H;
                    unfold msg_not_readable, msg_not_found; discriminate
                   |intro Hall; now destruct (Hsome (proj2 Hnone Hall))]|].
    split; [intros d Hd; rewrite Ho in Hd; discriminate|].
    split; [intros _; now exists p|].
    intros e He. rewrite Ho in He. injection He as <-. now right.
  - assert (Hsome : latest_valid fs <> None).
    { intro Hl. apply (proj1 (latest_valid_none _) Hl p). exact Hp. }
    split; [split; [intro H; rewrite Ho in H; discriminate
                   |intro Hall; now destruct (Hsome (proj2 Hnone Hall))]|].
    split; [intros d Hd; rewrite Ho in Hd; injection Hd as <-;
            split; [discriminate|now exists p]|].
    split; [intros _; now exists p|].
    intros e He. rewrite Ho in He. discriminate.
Qed.

(** X6.  When the path the locator returns is the key of the cache
    entry, [process_excel_data] answers from that entry alone: it does
    not read the file, it returns the cached rows if there is at least
    one, and it raises its second message if the entry is a failure or
    has no rows, although the locator has just parsed the file. *)
Theorem process_excel_data_answers_from_cache
    (s : St) (p : string) (v : option RecordSet) :
  fst (fst (Locator.locate (w_fs (world s)))) = inl (Some p) ->
  w_cache (world s) = Some (p, v) ->
  process_excel_data s
  = (match v with
     | Some (row :: rows) => Ret (row :: rows)
     | _ => Raise (Exception msg_not_readable)
     end,
     snd (find_latest_challenge_file s)).
Proof.
  intros Hloc Hc. rewrite locate_answer in Hloc. injection Hloc as Hl.
  unfold process_excel_data, bind.
  destruct (find_latest_spec s) as [evs ->]. rewrite Hl. cbn [snd].
  rewrite (read_excel_data_hit p v) by exact Hc.
  destruct v as [[|row rows]|]; reflexivity.
Qed.

Lemma process_excel_data_answers_from_cache_witness :
  let fs := [mkFile direct_name 12 (Some Sample.rows_b) 2 false] in
  let s := start Sample.runner_a
             (mkWorld fs (Some (direct_file, None)) [] []) in
  fst (fst (Locator.locate (w_fs (world s)))) = inl (Some direct_file) /\
  w_cache (world s) = Some (direct_file, None) /\
  read_excel direct_file fs = Some Sample.rows_b /\
  fst (process_excel_data s) = Raise (Exception msg_not_readable).
Proof.
  intros fs s.
  assert (H1 : fst (fst (Locator.locate (w_fs (world s))))
               = inl (Some direct_file)) by reflexivity.
  assert (H2 : w_cache (world s) = Some (direct_file, None)) by reflexivity.
  split; [exact H1|]. split; [exact H2|]. split; [reflexivity|].
  now rewrite (process_excel_data_answers_from_cache s direct_file None H1 H2).
Defined.

(** X7.  When the cache has no entry for the path the locator returns,
    [process_excel_data] reads that file: it returns its rows when
    there is at least one, raises its second message when the sheet
    has none, and in both cases leaves the rows read in the cache under
    that path. *)
Theorem process_excel_data_reads_on_miss (s : St) (p : string) :
  fst (fst (Locator.locate (w_fs (world s)))) = inl (Some p) ->
  (forall v, w_cache (world s) <> Some (p, v)) ->
  exists rows,
    read_excel p (w_fs (world s)) = Some rows /\
    fst (process_excel_data s)
    = match rows with
      | [] => Raise (Exception msg_not_readable)
      | _ :: _ => Ret rows
      end /\
    w_cache (world (snd (process_excel_data s))) = Some (p, Some rows).
Proof.
  intros Hloc Hmiss. rewrite locate_answer in Hloc. injection Hloc as Hl.
  pose proof (latest_valid_sound _ _ Hl) as [_ Hv].
  destruct (locate_keeps_valid (w_fs (world s)) p) as [_ Hlk].
  specialize (Hlk Hv).
  assert (Hrows : exists rows, read_excel p (w_fs (world s)) = Some rows).
  { unfold is_valid in Hv. unfold read_excel.
    destruct (lookup p (w_fs (world s))) as [f|]; [|discriminate].
    destruct (f_rows f) as [rows|]; [now exists rows|].
    rewrite Bool.andb_false_r in Hv. discriminate. }
  destruct Hrows as [rows Hrows]. exists rows. split; [exact Hrows|].
  unfold process_excel_data, bind.
  destruct (find_latest_spec s) as [evs ->]. rewrite Hl.
  match goal with |- context [read_excel_data p ?st] =>
    destruct (read_excel_data_miss p st) as [evs' Hr] end.
  { exact Hmiss. }
  cbn [world w_fs set_world add_trace put_fs] in Hr.
  unfold read_excel in Hr at 1 2. rewrite Hlk in Hr.
  unfold read_excel in Hrows. rewrite Hrows in Hr. rewrite Hr.
  destruct rows as [|row rows]; split; reflexivity.
Qed.

Lemma process_excel_data_reads_on_miss_witness :
  let fs := [mkFile "challenge.xlsx" 12 (Some Sample.rows_b) 2 false] in
  let p := downloads_path "challenge.xlsx" in
  let s := start Sample.runner_a
             (mkWorld fs (Some (direct_file, Some Sample.rows_a)) [] []) in
  fst (fst (Locator.locate (w_fs (world s)))) = inl (Some p) /\
  (forall v, w_cache (world s) <> Some (p, v)) /\
  fst (process_excel_data s) = Ret Sample.rows_b /\
  w_cache (world (snd (process_excel_data s))) = Some (p, Some Sample.rows_b).
Proof.
  intros fs p s.
  assert (H1 : fst (fst (Locator.locate (w_fs (world s)))) = inl (Some p))
    by reflexivity.
  assert (H2 : forall v, w_cache (world s) <> Some (p, v))
    by (intros v; discriminate).
  split; [exact H1|]. split; [exact H2|].
  destruct (process_excel_data_reads_on_miss s p H1 H2) as [rows [Hr [Ho Hc]]].
  assert (rows = Sample.rows_b).
  { assert (Hx : read_excel p (w_fs (world s)) = Some Sample.rows_b)
      by reflexivity.
    rewrite Hx in Hr. now injection Hr. }
  subst rows. split; [exact Ho|exact Hc].
Defined.

(** ** Releasing twice *)

Lemma close_resources_nothing_held (env : Env) (s : St) :
  context (self s) = None -> browser (self s) = None ->
  close_resources env s = (Ret tt, s).
Proof.
  intros Hc Hb. unfold close_resources, try_except, bind, get_self.
  rewrite Hc. cbn. now rewrite Hb.
Qed.

(** X8.  [close_resources] is idempotent once it has succeeded, and a
    no-op on a runner that holds nothing: after a release in which both
    closes return, a further call, whatever closing would then do,
    closes nothing, logs nothing and leaves the state as it is. *)
Theorem close_resources_idempotent (env env' : Env) (s : St) :
  context_close env = None -> browser_close env = None ->
  let s1 := snd (close_resources env s) in
  context (self s1) = None /\ browser (self s1) = None /\
  close_resources env' s1 = (Ret tt, s1).
Proof.
  intros Hc Hb s1.
  assert (Hrel : release_not_cancelled env).
  { split; intros e H; congruence. }
  destruct (close_resources_spec env s Hrel) as [s' [Hr [_ [_ [_ [_ Hself]]]]]].
  destruct (Hself Hc Hb) as [H1 H2].
  unfold s1. rewrite Hr. cbn [snd].
  split; [exact H1|]. split; [exact H2|].
  now apply close_resources_nothing_held.
Qed.

Lemma close_resources_idempotent_witness :
  let s := start Sample.runner_a Sample.empty_world in
  let s1 := snd (close_resources Sample.env_a s) in
  context_close Sample.env_a = None /\ browser_close Sample.env_a = None /\
  context (self s) = Some Context /\
  close_resources Sample.env_retry s1 = (Ret tt, s1).
Proof.
  intros s s1.
  assert (H1 : context_close Sample.env_a = None) by reflexivity.
  assert (H2 : browser_close Sample.env_a = None) by reflexivity.
  split; [exact H1|]. split; [exact H2|]. split; [reflexivity|].
  destruct (close_resources_idempotent Sample.env_a Sample.env_retry s H1 H2)
    as [_ [_ H]].
  exact H.
Defined.

(** ** The failure handler, exactly *)

Lemma run_automation_except_exact (env : Env) (e : exn) (s : St) :
  handler_quiet env ->
  exists s',
    run_automation_except env e s
    = (Ret (failure_record env (self s) (frame s) (str e)), s') /\
    added s s' (handler_events env (self s) (str e)) /\
    self s' = self s.
Proof.
  intros [Hw Hcb].
  unfold run_automation_except, bind, emit, append_line, save_summary,
    result_dict, call_done_callback, ret, raise, handler_events,
    callback_events, failure_record, added.
  cbn. rewrite Hw. cbn.
  destruct (on_done_callback env) as [callback|] eqn:Hcall; cbn.
  - match goal with |- context [callback ?d] =>
      rewrite (Hcb callback d eq_refl eq_refl) end. cbn.
    eexists. split; [reflexivity|]. cbn. rewrite <- !app_assoc. auto.
  - eexists. split; [reflexivity|]. cbn. rewrite <- !app_assoc. auto.
Qed.

Lemma run_fails_exact (env : Env) (s s1 : St) (e : exn) :
  handler_quiet env -> release_not_cancelled env ->
  run_automation_try env (snd (enter s)) = (Raise e, s1) ->
  is_Exception e = true ->
  exists s',
    run_automation env s
    = (Ret (failure_record env (self s1) (frame s1) (str e)), s') /\
    added s1 s'
      (handler_events env (self s1) (str e) ++ release_events env (self s1)).
Proof.
  intros Hq Hrel Htry He.
  destruct (run_automation_except_exact env e s1 Hq) as [s2 [Hh [Ha Hself]]].
  destruct (run_automation_shape env s Hrel) as [s' [Hrun [_ [Hadd _]]]].
  revert Hrun Hadd. unfold try_except. rewrite Htry, He, Hh. cbn [fst snd].
  intros Hrun Hadd. exists s'. split; [exact Hrun|].
  unfold added in *. rewrite Hadd, Ha, Hself. now rewrite app_assoc.
Qed.

Lemma try_without_context (env : Env) (s : St) :
  context (self s) = None ->
  run_automation_try env s = (Raise (ValueError msg_no_context), s).
Proof.
  intro Hc.
  unfold run_automation_try, acquire, run_download_agent, bind, get_self.
  now rewrite Hc.
Qed.

(** X9.  A run of a runner whose browser context was never created
    (or was already released) touches nothing outside: no HTTP request,
    no agent, no scan of the downloads.  It ends in the failure record
    with the error ["Browser context não inicializado"], after the
    handler wrote its summary and the release ran. *)
Theorem run_without_context (env : Env) (s : St) :
  context (self s) = None ->
  handler_quiet env -> release_not_cancelled env ->
  exists s',
    run_automation env s
    = (Ret (failure_record env (self s) init_frame msg_no_context), s') /\
    added s s'
      (handler_events env (self s) msg_no_context
       ++ release_events env (self s)) /\
    w_fs (world s') = w_fs (world s) /\
    w_cache (world s') = w_cache (world s).
Proof.
  intros Hc Hq Hrel.
  pose proof (try_without_context env (snd (enter s)) Hc) as Htry.
  destruct (run_fails_exact env s _ _ Hq Hrel Htry eq_refl) as [s' [Hr Ha]].
  exists s'. split; [exact Hr|]. split; [exact Ha|].
  destruct (run_automation_except_exact env (ValueError msg_no_context)
              (snd (enter s)) Hq) as [s2 [Hh _]].
  destruct (close_resources_spec env s2 Hrel) as [s3 [Hcl [_ [_ [Hfs [Hca _]]]]]].
  assert (Hrun : run_automation env s = (Ret (failure_record env (self s)
                   init_frame msg_no_context), s3)).
  { change (run_automation env s)
      with (try_finally
              (try_except (run_automation_try env) (run_automation_except env))
              (close_resources env) (snd (enter s))).
    unfold try_finally, try_except. rewrite Htry. cbn [is_Exception].
    rewrite Hh, Hcl. reflexivity. }
  rewrite Hr in Hrun. injection Hrun as ->.
  rewrite Hfs, Hca.
  revert Hh. unfold run_automation_except, bind, emit, append_line,
    save_summary, result_dict, call_done_callback, ret, raise.
  destruct Hq as [Hw Hcb]. cbn. rewrite Hw. cbn.
  destruct (on_done_callback env) as [callback|] eqn:Hcall; cbn.
  - match goal with |- context [callback ?d] =>
      rewrite (Hcb callback d eq_refl eq_refl) end. cbn.
    intro H. injection H as <-. auto.
  - intro H. injection H as <-. auto.
Qed.

Lemma run_without_context_witness :
  let env := Sample.env_a in
  let s := start (Runner_init "run-c" "t" "t" "t") Sample.empty_world in
  context (self s) = None /\ handler_quiet env /\ release_not_cancelled env /\
  exists s',
    fst (run_automation env s)
    = Ret (failure_record env (self s) init_frame msg_no_context) /\
    added s s'
      [EvLog (ErrRun ("Erro durante a execução do RPA Challenge: "
                        ++ msg_no_context)%string);
       EvWriteSummary (result_file (self s))].
Proof.
  intros env s.
  assert (Hc : context (self s) = None) by reflexivity.
  assert (Hq : handler_quiet env) by (split; [reflexivity|discriminate]).
  assert (Hrel : release_not_cancelled env) by (split; discriminate).
  split; [exact Hc|]. split; [exact Hq|]. split; [exact Hrel|].
  destruct (run_without_context env s Hc Hq Hrel) as [s' [Hr [Ha _]]].
  exists s'. rewrite Hr. split; [reflexivity|exact Ha].
Defined.

(** The failure handler in any environment: it reads and changes no
    file of the downloads and not the cache, adds only its own events,
    and the only record it returns is the failure record. *)
Lemma run_automation_except_any (env : Env) (e : exn) (s : St) :
  let h := run_automation_except env e s in
  (exists evs,
      added s (snd h) evs /\
      Forall (fun ev => is_handler_event ev = true) evs) /\
  self (snd h) = self s /\
  w_fs (world (snd h)) = w_fs (world s) /\
  w_cache (world (snd h)) = w_cache (world s) /\
  (forall d,
      fst h = Ret d -> d = failure_record env (self s) (frame s) (str e)).
Proof.
  unfold run_automation_except, bind, emit, append_line, save_summary,
    result_dict, call_done_callback, ret, raise, added.
  cbn.
  destruct (write_summary env false) as [msg|]; cbn.
  - split; [eexists; split; [rewrite <- app_assoc; reflexivity|]|].
    + repeat constructor.
    + repeat split. intros d H. discriminate.
  - destruct (on_done_callback env) as [callback|]; cbn.
    + match goal with |- context [callback ?d] =>
        destruct (callback d) as [e'|] end; cbn;
        (split; [eexists; split; [rewrite <- !app_assoc; reflexivity|]|]);
        try (repeat constructor); repeat split; intros d H;
        first [discriminate H|injection H as <-; reflexivity].
    + split; [eexists; split; [rewrite <- app_assoc; reflexivity|]|].
      * repeat constructor.
      * repeat split. intros d H. injection H as <-. reflexivity.
Qed.

(** X10.  A runner serves one run.  After a run whose release closed
    the context and the browser, a second [run_automation] on the same
    runner starts nothing, in any environment: it adds to the trace
    only what its failure handler does (the log line, the write of the
    summary, the callback), and leaves the downloads and the cache as
    they are.  It cannot succeed: the only record it can return is the
    failure record of the missing browser context, and it does return
    that record whenever the handler's own write and callback do not
    raise. *)
Theorem runner_is_single_use (env1 env2 : Env) (s : St) :
  context_close env1 = None -> browser_close env1 = None ->
  let s1 := snd (run_automation env1 s) in
  let again := run_automation env2 s1 in
  (exists evs,
      added s1 (snd again) evs /\
      Forall (fun ev => is_handler_event ev = true) evs) /\
  w_fs (world (snd again)) = w_fs (world s1) /\
  w_cache (world (snd again)) = w_cache (world s1) /\
  (forall d,
      fst again = Ret d ->
      d = failure_record env2 (self s1) init_frame msg_no_context) /\
  (handler_quiet env2 ->
   fst again
   = Ret (failure_record env2 (self s1) init_frame msg_no_context)).
Proof.
  intros Hc Hb s1 again.
  assert (Hrel1 : release_not_cancelled env1).
  { split; intros e H; congruence. }
  destruct (run_automation_shape env1 s Hrel1) as [s1' [Hrun [_ [_ [_ Hself]]]]].
  destruct (Hself Hc Hb) as [Hctx Hbr].
  assert (Hs1 : s1 = s1') by (unfold s1; now rewrite Hrun).
  rewrite <- Hs1 in Hctx, Hbr. clear Hrun Hself Hs1 s1'.
  clearbody s1.
  pose proof (try_without_context env2 (snd (enter s1)) Hctx) as Htry.
  set (h := run_automation_except env2 (ValueError msg_no_context)
              (snd (enter s1))).
  assert (Hagain : again = h).
  { unfold again.
    change (run_automation env2 s1)
      with (try_finally
              (try_except (run_automation_try env2)
                          (run_automation_except env2))
              (close_resources env2) (snd (enter s1))).
    unfold try_finally, try_except. rewrite Htry. cbn [is_Exception].
    fold h.
    destruct (run_automation_except_any env2 (ValueError msg_no_context)
                (snd (enter s1))) as [_ [Hs _]].
    fold h in Hs. destruct h as [o sh]. cbn [snd] in Hs.
    rewrite close_resources_nothing_held; [reflexivity| |];
      rewrite Hs; assumption. }
  rewrite Hagain.
  destruct (run_automation_except_any env2 (ValueError msg_no_context)
              (snd (enter s1))) as [Hev [_ [Hfs [Hca Hd]]]].
  fold h in Hev, Hfs, Hca, Hd.
  split; [exact Hev|]. split; [exact Hfs|]. split; [exact Hca|].
  split; [exact Hd|].
  intro Hq.
  destruct (run_automation_except_exact env2 (ValueError msg_no_context)
              (snd (enter s1)) Hq) as [s2 [Hh _]].
  fold h in Hh. now rewrite Hh.
Qed.

Lemma runner_is_single_use_witness :
  let s := start Sample.runner_a Sample.empty_world in
  let s1 := snd (run_automation Sample.env_a s) in
  context_close Sample.env_a = None /\ browser_close Sample.env_a = None /\
  handler_quiet Sample.env_b /\
  Result.success
    (match fst (run_automation Sample.env_a s) with
     | Ret d => d
     | Raise _ => failure_record Sample.env_a (self s) init_frame ""
     end) = true /\
  fst (run_automation Sample.env_b s1)
  = Ret (failure_record Sample.env_b (self s1) init_frame msg_no_context).
Proof.
  intros s s1.
  assert (H1 : context_close Sample.env_a = None) by reflexivity.
  assert (H2 : browser_close Sample.env_a = None) by reflexivity.
  assert (Hq : handler_quiet Sample.env_b)
    by (split; [reflexivity|discriminate]).
  split; [exact H1|]. split; [exact H2|]. split; [exact Hq|].
  split; [vm_compute; reflexivity|].
  destruct (runner_is_single_use Sample.env_a Sample.env_b s H1 H2)
    as [_ [_ [_ [_ Hr]]]].
  exact (Hr Hq).
Defined.

(** ** Computations that leave the locals alone *)

Lemma keeps_frame_ret {A} (a : A) : keeps_frame (ret a).
Proof. intros s. reflexivity. Qed.

Lemma keeps_frame_raise {A} (e : exn) : keeps_frame (@raise A e).
Proof. intros s. reflexivity. Qed.

Lemma keeps_frame_bind {A B} (c : M A) (k : A -> M B) :
  keeps_frame c -> (forall a, keeps_frame (k a)) -> keeps_frame (bind c k).
Proof.
  intros Hc Hk s. unfold bind. specialize (Hc s).
  destruct (c s) as [[a|e] s1]; cbn [snd] in *; [|exact Hc].
  now rewrite Hk.
Qed.

Lemma keeps_frame_try_except {A} (c : M A) (h : exn -> M A) :
  keeps_frame c -> (forall e, keeps_frame (h e)) ->
  keeps_frame (try_except c h).
Proof.
  intros Hc Hh s. unfold try_except. specialize (Hc s).
  destruct (c s) as [[a|e] s1]; cbn [snd] in *; [exact Hc|].
  destruct (is_Exception e); [now rewrite Hh|exact Hc].
Qed.

Lemma keeps_frame_try_except_timeout {A} (c h : M A) :
  keeps_frame c -> keeps_frame h -> keeps_frame (try_except_timeout c h).
Proof.
  intros Hc Hh s. unfold try_except_timeout. specialize (Hc s).
  destruct (c s) as [[a|e] s1]; cbn [snd] in *; [exact Hc|].
  destruct (is_TimeoutError e); [now rewrite Hh|exact Hc].
Qed.

Lemma keeps_frame_emit (ev : Event) : keeps_frame (emit ev).
Proof. intros s. reflexivity. Qed.

Lemma keeps_frame_get_fs : keeps_frame get_fs.
Proof. intros s. reflexivity. Qed.

Lemma keeps_frame_get_self : keeps_frame get_self.
Proof. intros s. reflexivity. Qed.

Lemma keeps_frame_write_file (f : File) : keeps_frame (write_file f).
Proof. intros s. reflexivity. Qed.

Lemma keeps_frame_set_download_agent (t : AgentTask) :
  keeps_frame (set_download_agent t).
Proof. intros s. reflexivity. Qed.

Lemma keeps_frame_set_process_agent (t : AgentTask) :
  keeps_frame (set_process_agent t).
Proof. intros s. reflexivity. Qed.

Lemma keeps_frame_find_latest : keeps_frame find_latest_challenge_file.
Proof.
  intros s. destruct (find_latest_spec s) as [evs ->]. reflexivity.
Qed.

Lemma keeps_frame_read_excel_data (path : string) :
  keeps_frame (read_excel_data path).
Proof.
  intros s. unfold read_excel_data.
  destruct (w_cache (world s)) as [[key value]|];
    [destruct (String.eqb key path)|]; reflexivity.
Qed.

Lemma keeps_frame_wait_for_agent_run (env : Env) (t : AgentTask) (n m : nat) :
  keeps_frame (wait_for_agent_run env t n m).
Proof.
  intros s. unfold wait_for_agent_run.
  destruct (ao_result (agent_run env (n_agent s))); reflexivity.
Qed.

Lemma keeps_frame_asyncio_sleep (env : Env) (seconds : nat) :
  keeps_frame (asyncio_sleep env seconds).
Proof.
  intros s. unfold asyncio_sleep.
  destruct (so_cancelled (sleep env (n_sleep s))); reflexivity.
Qed.

Create HintDb keeps_frame_db.

#[local] Hint Resolve keeps_frame_emit keeps_frame_get_fs keeps_frame_get_self
  keeps_frame_write_file keeps_frame_set_download_agent
  keeps_frame_set_process_agent keeps_frame_find_latest
  keeps_frame_read_excel_data keeps_frame_wait_for_agent_run
  keeps_frame_asyncio_sleep : keeps_frame_db.

Ltac keeps_frame_steps :=
  repeat first
    [ apply keeps_frame_ret
    | apply keeps_frame_raise
    | solve [auto with keeps_frame_db]
    | apply keeps_frame_bind; [|intros ?]
    | apply keeps_frame_try_except; [|intros ?]
    | apply keeps_frame_try_except_timeout
    | match goal with
      | |- keeps_frame (if ?b then _ else _) => destruct b
      | |- keeps_frame (match ?x with _ => _ end) => destruct x
      end ].

Lemma keeps_frame_os_path_getsize (path : string) :
  keeps_frame (os_path_getsize path).
Proof. unfold os_path_getsize. keeps_frame_steps. Qed.

Lemma keeps_frame_process_excel_data : keeps_frame process_excel_data.
Proof. unfold process_excel_data. keeps_frame_steps. Qed.

#[local] Hint Resolve keeps_frame_os_path_getsize
  keeps_frame_process_excel_data : keeps_frame_db.

Lemma keeps_frame_run_download_agent (env : Env) :
  keeps_frame (run_download_agent env).
Proof.
  unfold run_download_agent, direct_download, download_via_agent.
  keeps_frame_steps.
Qed.

Lemma keeps_frame_run_process_agent (env : Env) (excel_data : RecordSet) :
  keeps_frame (run_process_agent env excel_data).
Proof. unfold run_process_agent. keeps_frame_steps. Qed.

Lemma keeps_frame_poll (env : Env) (attempts : list nat) :
  forall excel_file, keeps_frame (poll env attempts excel_file).
Proof.
  induction attempts as [|attempt rest IH]; intro excel_file;
    cbn [poll]; keeps_frame_steps; apply IH.
Qed.

(** ** What the [try] block has established when it goes on *)

Lemma bind_ret_inv {A B} (c : M A) (k : A -> M B) (s s' : St) (b : B) :
  bind c k s = (Ret b, s') ->
  exists a s1, c s = (Ret a, s1) /\ k a s1 = (Ret b, s').
Proof.
  unfold bind. destruct (c s) as [[a|e] s1]; [|discriminate].
  intro H. now exists a, s1.
Qed.

Lemma process_excel_data_nonempty (s s' : St) (excel_data : RecordSet) :
  process_excel_data s = (Ret excel_data, s') -> excel_data <> [].
Proof.
  unfold process_excel_data. intro H.
  apply bind_ret_inv in H. destruct H as [excel_file [s1 [_ H]]].
  destruct excel_file as [path|]; [|discriminate].
  apply bind_ret_inv in H. destruct H as [v [s2 [_ H]]].
  destruct v as [[|row rows]|]; try discriminate.
  cbn in H. injection H as <- _. discriminate.
Qed.

Lemma validate_and_parse_returns (env : Env) (h0 h : AgentHistoryList)
    (excel_data : RecordSet) (s sa : St) :
  validate_and_parse env h0 s = (Ret (h, excel_data), sa) ->
  h = h0 /\ excel_data <> [] /\ frame sa = frame s.
Proof.
  unfold validate_and_parse. intro H.
  apply bind_ret_inv in H. destruct H as [[] [s1 [H1 H]]].
  apply bind_ret_inv in H. destruct H as [excel_file [s2 [H2 H]]].
  destruct excel_file as [path|].
  - apply bind_ret_inv in H. destruct H as [d [s3 [H3 H]]].
    cbn in H. injection H as <- <- <-.
    split; [reflexivity|]. split.
    + exact (process_excel_data_nonempty _ _ _ H3).
    + pose proof (keeps_frame_process_excel_data s2) as K3.
      pose proof (keeps_frame_poll env (seq 0 5) None s1) as K2.
      pose proof (keeps_frame_asyncio_sleep env 10 s) as K1.
      rewrite H3 in K3. rewrite H2 in K2. rewrite H1 in K1.
      cbn [snd] in *. congruence.
  - apply bind_ret_inv in H. destruct H as [[] [s3 [_ H]]]. discriminate.
Qed.

Lemma acquire_returns (env : Env) (h : AgentHistoryList)
    (excel_data : RecordSet) (s sa : St) :
  acquire env s = (Ret (h, excel_data), sa) ->
  is_done h = true /\ excel_data <> [] /\
  (exists s1, run_download_agent env s = (Ret h, s1)) /\
  frame sa = mkFrame (result_lines (frame s)) (Some h)
                     (loc_process_history (frame s)).
Proof.
  unfold acquire. intro H.
  apply bind_ret_inv in H. destruct H as [h0 [s1 [H1 H]]].
  apply bind_ret_inv in H. destruct H as [[] [s2 [H2 H]]].
  apply bind_ret_inv in H. destruct H as [[] [s3 [H3 H]]].
  destruct (is_done h0) eqn:Hd; cbn [negb] in H3.
  - cbn in H3. injection H3 as <-.
    apply validate_and_parse_returns in H. destruct H as [-> [Hne Hf]].
    split; [exact Hd|]. split; [exact Hne|]. split; [now exists s1|].
    rewrite Hf. cbn in H2. injection H2 as <-. cbn.
    pose proof (keeps_frame_run_download_agent env s) as K.
    rewrite H1 in K. cbn [snd] in K. now rewrite K.
  - apply bind_ret_inv in H3. destruct H3 as [[] [s4 [_ H3]]]. discriminate.
Qed.

(** ** A phase that does not report done *)

(** X11.  When the fetch phase returns a history that is not done,
    the run stops there: it does not wait, does not look for the file
    and starts no other agent.  It ends in the failure record whose
    error is ["Falha ao baixar o arquivo Excel: "] followed by the
    errors of that history, which carries the history itself and whose
    summary is that message followed by the handler's line. *)
Theorem fetch_not_done_fails (env : Env) (s s1 : St) (h : AgentHistoryList) :
  run_download_agent env (snd (enter s)) = (Ret h, s1) ->
  is_done h = false ->
  handler_quiet env -> release_not_cancelled env ->
  exists s',
    run_automation env s
    = (Ret (failure_record env (self s1)
              (mkFrame [msg_fetch_failed h] (Some h) None)
              (msg_fetch_failed h)), s') /\
    added s1 s'
      (handler_events env (self s1) (msg_fetch_failed h)
       ++ release_events env (self s1)).
Proof.
  intros Hrun Hdone Hq Hrel.
  pose proof (keeps_frame_run_download_agent env (snd (enter s))) as K.
  rewrite Hrun in K. cbn [snd enter frame set_frame] in K.
  assert (Htry : exists s2,
            run_automation_try env (snd (enter s))
            = (Raise (Exception (msg_fetch_failed h)), s2) /\
            self s2 = self s1 /\ world s2 = world s1 /\
            frame s2 = mkFrame [msg_fetch_failed h] (Some h) None).
  { unfold run_automation_try, acquire, bind. rewrite Hrun. cbn.
    rewrite Hdone. cbn. eexists. split; [reflexivity|]. cbn.
    rewrite K. auto. }
  destruct Htry as [s2 [Htry [Hself [Hworld Hframe]]]].
  destruct (run_fails_exact env s s2 _ Hq Hrel Htry eq_refl) as [s' [Hr Ha]].
  exists s'. rewrite Hself, Hframe in Hr. split; [exact Hr|].
  unfold added in *. now rewrite <- Hworld, <- Hself.
Qed.

Lemma fetch_not_done_fails_witness :
  let gave_up := mkHistory false "['max steps reached']" true [] in
  let env :=
    mkEnv LaunchOk (FetchError "HTTP Error 503")
          (fun _ => mkAgentOutcome [] (Completed gave_up)) Sample.calm
          (fun _ => None) None (fun _ => false) None None in
  let s := start Sample.runner_a Sample.empty_world in
  let s1 := snd (run_download_agent env (snd (enter s))) in
  run_download_agent env (snd (enter s)) = (Ret gave_up, s1) /\
  is_done gave_up = false /\
  handler_quiet env /\ release_not_cancelled env /\
  fst (run_automation env s)
  = Ret (failure_record env (self s1)
           (mkFrame [msg_fetch_failed gave_up] (Some gave_up) None)
           (msg_fetch_failed gave_up)).
Proof.
  intros gave_up env s s1.
  assert (H1 : run_download_agent env (snd (enter s)) = (Ret gave_up, s1))
    by reflexivity.
  assert (Hq : handler_quiet env) by (split; [reflexivity|discriminate]).
  assert (Hrel : release_not_cancelled env) by (split; discriminate).
  split; [exact H1|]. split; [reflexivity|]. split; [exact Hq|].
  split; [exact Hrel|].
  destruct (fetch_not_done_fails env s s1 gave_up H1 eq_refl Hq Hrel)
    as [s' [Hr _]].
  now rewrite Hr.
Defined.

(** X12.  When the submission agent returns a history that is not
    done, the run ends in the failure record whose error is
    ["Falha ao processar os dados do formulário: "] followed by the
    errors of that history; the record carries both histories, and no
    success summary is built. *)
Theorem submit_not_done_fails (env : Env) (s sa sp : St)
    (h1 h2 : AgentHistoryList) (excel_data : RecordSet) :
  acquire env (snd (enter s)) = (Ret (h1, excel_data), sa) ->
  run_process_agent env excel_data sa = (Ret h2, sp) ->
  is_done h2 = false ->
  handler_quiet env -> release_not_cancelled env ->
  exists s',
    run_automation env s
    = (Ret (failure_record env (self sp)
              (mkFrame [msg_submit_failed h2] (Some h1) (Some h2))
              (msg_submit_failed h2)), s') /\
    added sp s'
      (handler_events env (self sp) (msg_submit_failed h2)
       ++ release_events env (self sp)).
Proof.
  intros Hacq Hrun Hdone Hq Hrel.
  destruct (acquire_returns env h1 excel_data _ sa Hacq) as [_ [_ [_ Hfa]]].
  cbn [enter snd frame set_frame init_frame result_lines
       loc_process_history] in Hfa.
  pose proof (keeps_frame_run_process_agent env excel_data sa) as K.
  rewrite Hrun in K. cbn [snd] in K. rewrite Hfa in K.
  assert (Htry : exists s2,
            run_automation_try env (snd (enter s))
            = (Raise (Exception (msg_submit_failed h2)), s2) /\
            self s2 = self sp /\ world s2 = world sp /\
            frame s2 = mkFrame [msg_submit_failed h2] (Some h1) (Some h2)).
  { unfold run_automation_try, bind. rewrite Hacq. cbn [fst snd].
    unfold submit, bind. rewrite Hrun. cbn.
    rewrite Hdone. cbn. eexists. split; [reflexivity|]. cbn.
    rewrite K. auto. }
  destruct Htry as [s2 [Htry [Hself [Hworld Hframe]]]].
  destruct (run_fails_exact env s s2 _ Hq Hrel Htry eq_refl) as [s' [Hr Ha]].
  exists s'. rewrite Hself, Hframe in Hr. split; [exact Hr|].
  unfold added in *. now rewrite <- Hworld, <- Hself.
Qed.

Lemma submit_not_done_fails_witness :
  let env := env_form_gives_up in
  let gave_up := mkHistory false "['max steps reached']" true [] in
  let s := start Sample.runner_a Sample.empty_world in
  let sa := snd (acquire env (snd (enter s))) in
  let sp := snd (run_process_agent env Sample.rows_a sa) in
  acquire env (snd (enter s)) = (Ret (Sample.done, Sample.rows_a), sa) /\
  run_process_agent env Sample.rows_a sa = (Ret gave_up, sp) /\
  is_done gave_up = false /\
  handler_quiet env /\ release_not_cancelled env /\
  fst (run_automation env s)
  = Ret (failure_record env (self sp)
           (mkFrame [msg_submit_failed gave_up] (Some Sample.done)
                    (Some gave_up))
           (msg_submit_failed gave_up)).
Proof.
  intros env gave_up s sa sp.
  assert (H1 : acquire env (snd (enter s))
               = (Ret (Sample.done, Sample.rows_a), sa))
    by (vm_compute; reflexivity).
  assert (H2 : run_process_agent env Sample.rows_a sa = (Ret gave_up, sp))
    by (vm_compute; reflexivity).
  assert (Hq : handler_quiet env) by (split; [reflexivity|discriminate]).
  assert (Hrel : release_not_cancelled env) by (split; discriminate).
  split; [exact H1|]. split; [exact H2|]. split; [reflexivity|].
  split; [exact Hq|]. split; [exact Hrel|].
  destruct (submit_not_done_fails env s sa sp Sample.done gave_up
              Sample.rows_a H1 H2 eq_refl Hq Hrel) as [s' [Hr _]].
  now rewrite Hr.
Defined.

(** ** The success record *)

Lemma handler_returns_failure (env : Env) (e : exn) (s s' : St)
    (d : Result.t) :
  run_automation_except env e s = (Ret d, s') -> Result.success d = false.
Proof.
  unfold run_automation_except. intro H.
  apply bind_ret_inv in H. destruct H as [[] [s1 [_ H]]].
  apply bind_ret_inv in H. destruct H as [[] [s2 [_ H]]].
  apply bind_ret_inv in H. destruct H as [[] [s3 [_ H]]].
  apply bind_ret_inv in H. destruct H as [d0 [s4 [Hd H]]].
  apply bind_ret_inv in H. destruct H as [[] [s5 [_ H]]].
  cbn in H. injection H as <- _.
  unfold result_dict in Hd. injection Hd as <- _. reflexivity.
Qed.

Lemma summarize_returns (env : Env) (h1 h2 : AgentHistoryList)
    (s s' : St) (d : Result.t) :
  summarize env h1 h2 s = (Ret d, s') ->
  Result.success d = true /\ Result.error d = None /\
  Result.download_history d = loc_download_history (frame s) /\
  Result.process_history d = loc_process_history (frame s) /\
  read_log (Result.result_file d) (w_logs (world s')) = Some (Result.summary d) /\
  exists evs, added s s' evs.
Proof.
  unfold summarize, bind, append_line, get_frame, set_result_lines,
    save_summary, result_dict, call_done_callback, emit, ret, raise, added.
  cbn.
  destruct (truthy h1), (truthy h2); cbn;
    (destruct (write_summary env true); [discriminate|]); cbn;
    (destruct (on_done_callback env) as [callback|]; cbn;
     [match goal with |- context [callback ?x] => destruct (callback x) end;
      [discriminate|]|]);
    intro H; injection H as <- <-; cbn; rewrite String.eqb_refl;
    rewrite <- ?app_assoc; repeat split; eauto.
Qed.

Lemma run_process_agent_invoked (env : Env) (excel_data : RecordSet)
    (s s' : St) (h : AgentHistoryList) :
  run_process_agent env excel_data s = (Ret h, s') ->
  In (EvAgentRun (FillForm excel_data) 100 600) (w_trace (world s')).
Proof.
  unfold run_process_agent, bind, get_self, set_process_agent,
    try_except_timeout, wait_for_agent_run, emit.
  destruct (context (self s)); [|discriminate]. cbn.
  destruct (ao_result (agent_run env (n_agent s))); cbn;
    try discriminate.
  - intro H. injection H as _ <-. cbn. apply in_or_app. right. now left.
  - destruct (ao_result (agent_run env (S (n_agent s)))); cbn;
      try discriminate.
    intro H. injection H as _ <-. cbn. apply in_or_app. right. now left.
Qed.

Lemma close_resources_grows (env : Env) (s : St) :
  (exists evs, added s (snd (close_resources env s)) evs) /\
  w_logs (world (snd (close_resources env s))) = w_logs (world s).
Proof.
  unfold close_resources, try_except, bind, get_self, await_close, emit,
    clear_context, clear_browser, ret, raise, added.
  destruct (context (self s)) as [c|] eqn:Hctx;
    destruct (browser (self s)) as [b|] eqn:Hbr; cbn;
    rewrite ?Hctx, ?Hbr; cbn.
  all: destruct (context_close env) as [e1|]; cbn;
    [destruct (is_Exception e1); cbn|]; rewrite ?Hctx, ?Hbr; cbn.
  all: try (destruct (browser_close env) as [e2|]; cbn;
            [destruct (is_Exception e2); cbn|]).
  all: split; [rewrite <- ?app_assoc; eexists; try reflexivity;
               symmetry; apply app_nil_r|reflexivity].
Qed.

(** What a record with [success = true] tells about the run. *)
Lemma successful_record_inv (env : Env) (s s' : St)
    (d : Result.t) :
  run_automation env s = (Ret d, s') ->
  Result.success d = true ->
  exists h1 h2 excel_data,
    Result.download_history d = Some h1 /\ is_done h1 = true /\
    Result.process_history d = Some h2 /\ is_done h2 = true /\
    Result.error d = None /\
    excel_data <> [] /\
    In (EvAgentRun (FillForm excel_data) 100 600) (w_trace (world s')) /\
    read_log (Result.result_file d) (w_logs (world s')) = Some (Result.summary d).
Proof.
  intros Hrun Hs.
  change (run_automation env s)
    with (try_finally
            (try_except (run_automation_try env) (run_automation_except env))
            (close_resources env) (snd (enter s))) in Hrun.
  unfold try_finally in Hrun.
  destruct (try_except (run_automation_try env) (run_automation_except env)
              (snd (enter s))) as [o sb] eqn:Hbody.
  destruct (close_resources_grows env sb) as [[evc Hgrow] Hlogs].
  destruct (close_resources env sb) as [[[]|e] sc]; [|discriminate].
  injection Hrun as -> ->. cbn [snd] in Hgrow, Hlogs.
  unfold try_except in Hbody.
  destruct (run_automation_try env (snd (enter s))) as [[d0|e] s1] eqn:Htry.
  - injection Hbody as -> ->.
    unfold run_automation_try in Htry.
    apply bind_ret_inv in Htry. destruct Htry as [[h1 excel_data] [sa [Hacq Hsub]]].
    cbn [fst snd] in Hsub.
    destruct (acquire_returns env h1 excel_data _ sa Hacq)
      as [Hd1 [Hne [_ Hfa]]].
    unfold submit in Hsub.
    apply bind_ret_inv in Hsub. destruct Hsub as [h2 [sp [Hproc Hsub]]].
    apply bind_ret_inv in Hsub. destruct Hsub as [[] [s2 [Hset Hsub]]].
    apply bind_ret_inv in Hsub. destruct Hsub as [[] [s3 [Hchk Hsum]]].
    destruct (is_done h2) eqn:Hd2; cbn [negb] in Hchk.
    + cbn in Hchk. injection Hchk as <-.
      destruct (summarize_returns env h1 h2 _ _ _ Hsum)
        as [_ [He [Hdh [Hph [Hlog [evs Hadd]]]]]].
      cbn in Hset. injection Hset as <-.
      pose proof (keeps_frame_run_process_agent env excel_data sa) as K.
      rewrite Hproc in K. cbn [snd] in K.
      cbn [frame set_frame loc_download_history loc_process_history]
        in Hdh, Hph.
      rewrite K, Hfa in Hdh. cbn in Hdh.
      exists h1, h2, excel_data.
      split; [exact Hdh|]. split; [exact Hd1|]. split; [exact Hph|].
      split; [exact Hd2|]. split; [exact He|]. split; [exact Hne|].
      split; [|now rewrite Hlogs].
      pose proof (run_process_agent_invoked env excel_data sa sp h2 Hproc) as Hin.
      unfold added in Hgrow, Hadd. rewrite Hgrow, Hadd.
      cbn [world set_frame]. apply in_or_app. left. apply in_or_app. now left.
    + apply bind_ret_inv in Hchk. destruct Hchk as [[] [s4 [_ Hchk]]].
      discriminate.
  - destruct (is_Exception e); [|discriminate].
    apply handler_returns_failure in Hbody. congruence.
Qed.

(** X13.  A record with [success = true] is never returned lightly: in
    every environment, if [run_automation] returns one, then both
    agents returned a history that says done and both histories are in
    the record, the error is absent, the form agent was invoked on a
    record set with at least one row, and the summary file named in the
    record holds the record's summary. *)
Theorem success_means_both_phases_done (env : Env) (s s' : St)
    (d : Result.t) :
  run_automation env s = (Ret d, s') ->
  Result.success d = true ->
  exists h1 h2 excel_data,
    Result.download_history d = Some h1 /\ is_done h1 = true /\
    Result.process_history d = Some h2 /\ is_done h2 = true /\
    Result.error d = None /\
    excel_data <> [] /\
    In (EvAgentRun (FillForm excel_data) 100 600) (w_trace (world s')) /\
    read_log (Result.result_file d) (w_logs (world s')) = Some (Result.summary d).
Proof. exact (successful_record_inv env s s' d). Qed.

Lemma success_means_both_phases_done_witness :
  let run := run_automation Sample.env_a
               (start Sample.runner_a Sample.empty_world) in
  exists d,
    run = (Ret d, snd run) /\ Result.success d = true /\
    exists h1 h2 excel_data,
      Result.download_history d = Some h1 /\ is_done h1 = true /\
      Result.process_history d = Some h2 /\ is_done h2 = true /\
      Result.error d = None /\
      excel_data <> [] /\
      In (EvAgentRun (FillForm excel_data) 100 600)
         (w_trace (world (snd run))) /\
      read_log (Result.result_file d) (w_logs (world (snd run)))
      = Some (Result.summary d).
Proof.
  intro run.
  assert (H : exists d, run = (Ret d, snd run) /\ Result.success d = true).
  { eexists. split; [vm_compute; reflexivity|reflexivity]. }
  destruct H as [d [Hr Hs]]. exists d. split; [exact Hr|]. split; [exact Hs|].
  exact (success_means_both_phases_done Sample.env_a _ _ d Hr Hs).
Defined.

(** ** A done-callback that raises *)

Lemma summarize_callback_raises (env : Env) (h1 h2 : AgentHistoryList)
    (s : St) (callback : Result.t -> option exn) (e : exn) :
  write_summary env true = None ->
  on_done_callback env = Some callback ->
  (forall d, Result.success d = true -> callback d = Some e) ->
  exists s',
    summarize env h1 h2 s = (Raise e, s') /\
    self s' = self s /\
    loc_download_history (frame s') = loc_download_history (frame s) /\
    loc_process_history (frame s') = loc_process_history (frame s) /\
    added s s' [EvWriteSummary (result_file (self s)); EvDoneCallback true].
Proof.
  intros Hw Hcall Hcb.
  unfold summarize, bind, append_line, get_frame, set_result_lines,
    save_summary, result_dict, call_done_callback, emit, ret, raise, added.
  cbn. rewrite Hcall.
  destruct (truthy h1), (truthy h2); cbn; rewrite Hw; cbn;
    match goal with |- context [callback ?x] =>
      rewrite (Hcb x eq_refl) end;
    eexists; (split; [reflexivity|]); cbn; rewrite <- ?app_assoc; auto.
Qed.

(** X14.  If both phases succeed and the done-callback raises an
    [Exception] when it is given the success record, the run does not
    succeed: the exception is handled like a failure of the run.  The
    summary file, already written, is written again by the handler; the
    callback is called a second time, with a failure record; and the
    caller receives that record, [success = false] with the text of the
    exception as error, although it carries both completed
    histories. *)
Theorem raising_callback_turns_success_into_failure
    (env : Env) (s sa sp : St) (h1 h2 : AgentHistoryList)
    (excel_data : RecordSet) (callback : Result.t -> option exn) (e : exn) :
  acquire env (snd (enter s)) = (Ret (h1, excel_data), sa) ->
  run_process_agent env excel_data sa = (Ret h2, sp) ->
  is_done h2 = true ->
  write_summary env true = None ->
  on_done_callback env = Some callback ->
  (forall d, Result.success d = true -> callback d = Some e) ->
  is_Exception e = true ->
  handler_quiet env -> release_not_cancelled env ->
  exists d s',
    run_automation env s = (Ret d, s') /\
    Result.success d = false /\
    Result.error d = Some (str e) /\
    Result.download_history d = Some h1 /\
    Result.process_history d = Some h2 /\
    read_log (Result.result_file d) (w_logs (world s')) = Some (Result.summary d) /\
    added sp s'
      ([EvWriteSummary (result_file (self sp)); EvDoneCallback true;
        EvLog (ErrRun ("Erro durante a execução do RPA Challenge: "
                         ++ str e)%string);
        EvWriteSummary (result_file (self sp)); EvDoneCallback false]
       ++ release_events env (self sp)).
Proof.
  intros Hacq Hproc Hdone Hw Hcall Hcb He Hq Hrel.
  destruct (acquire_returns env h1 excel_data _ sa Hacq) as [_ [_ [_ Hfa]]].
  pose proof (keeps_frame_run_process_agent env excel_data sa) as K.
  rewrite Hproc in K. cbn [snd] in K.
  set (s3 := snd (set_process_history h2 sp)).
  destruct (summarize_callback_raises env h1 h2 s3 callback e Hw Hcall Hcb)
    as [s4 [Hsum [Hself [Hdh [Hph Hadd]]]]].
  assert (Htry : run_automation_try env (snd (enter s)) = (Raise e, s4)).
  { unfold run_automation_try, bind. rewrite Hacq. cbn [fst snd].
    rewrite (submit_after_process env sa sp h1 h2 excel_data Hproc Hdone).
    exact Hsum. }
  destruct (run_automation_failure env s s4 e Hq Hrel Htry He)
    as [d [s' [Hrun [Hs [Herr Hlog]]]]].
  destruct (run_fails_exact env s s4 e Hq Hrel Htry He) as [s'' [Hrun' Ha]].
  rewrite Hrun in Hrun'. injection Hrun' as Hd <-.
  exists d, s'. split; [exact Hrun|]. split; [exact Hs|]. split; [exact Herr|].
  subst s3. cbn [set_process_history snd self set_frame frame
                 loc_download_history loc_process_history] in Hself, Hdh, Hph.
  split; [rewrite Hd; cbn; rewrite Hdh, K, Hfa; reflexivity|].
  split; [rewrite Hd; cbn; rewrite Hph; reflexivity|].
  split; [exact Hlog|].
  unfold added in *. rewrite Ha, Hadd. cbn [set_process_history snd world
    set_frame]. rewrite Hself.
  unfold handler_events, callback_events. rewrite Hcall.
  now rewrite <- !app_assoc.
Qed.

Lemma raising_callback_turns_success_into_failure_witness :
  let env := env_fussy_callback in
  let e := Exception "callback failed" in
  let s := start Sample.runner_a Sample.empty_world in
  let sa := snd (acquire env (snd (enter s))) in
  let sp := snd (run_process_agent env Sample.rows_a sa) in
  acquire env (snd (enter s)) = (Ret (Sample.done, Sample.rows_a), sa) /\
  run_process_agent env Sample.rows_a sa = (Ret Sample.done, sp) /\
  is_done Sample.done = true /\
  write_summary env true = None /\
  on_done_callback env = Some fussy_callback /\
  (forall d, Result.success d = true -> fussy_callback d = Some e) /\
  is_Exception e = true /\
  handler_quiet env /\ release_not_cancelled env /\
  exists d s',
    run_automation env s = (Ret d, s') /\
    Result.success d = false /\
    Result.error d = Some "callback failed" /\
    Result.process_history d = Some Sample.done.
Proof.
  intros env e s sa sp.
  assert (H1 : acquire env (snd (enter s))
               = (Ret (Sample.done, Sample.rows_a), sa))
    by (vm_compute; reflexivity).
  assert (H2 : run_process_agent env Sample.rows_a sa = (Ret Sample.done, sp))
    by (vm_compute; reflexivity).
  assert (H3 : forall d, Result.success d = true -> fussy_callback d = Some e).
  { intros d Hd. unfold fussy_callback. now rewrite Hd. }
  assert (Hq : handler_quiet env).
  { split; [reflexivity|]. intros callback d Hc Hd.
    injection Hc as <-. unfold fussy_callback. now rewrite Hd. }
  assert (Hrel : release_not_cancelled env) by (split; discriminate).
  repeat (split; [first [exact H1|exact H2|exact H3|exact Hq|exact Hrel
                        |reflexivity]|]).
  destruct (raising_callback_turns_success_into_failure env s sa sp
              Sample.done Sample.done Sample.rows_a fussy_callback e
              H1 H2 eq_refl eq_refl eq_refl H3 eq_refl Hq Hrel)
    as [d [s' [Hr [Hs [He [_ [Hp _]]]]]]].
  exists d, s'. auto.
Defined.

(** ** The direct download, case by case *)

(** X15.  The outcome of the direct-download block as a function of
    the HTTP answer and of the open-site agent.  It returns a history
    (the early return of [run_download_agent]) only when the saved file
    is not empty, parses and has at least one row, and the open-site
    agent completes; every failure on the way, of the request, of the
    validation or of that agent, is swallowed and makes the block fall
    through; only a cancellation during the open-site agent leaves
    it. *)
Theorem direct_download_outcome (env : Env) (s : St) :
  fst (direct_download env s)
  = match urlopen env with
    | FetchSaved size (Some (_ :: _)) _ =>
        if (0 <? size)%N then
          match ao_result (agent_run env (n_agent s)) with
          | Completed h => Ret (Some h)
          | Cancelled => Raise CancelledError
          | TimedOut => Ret None
          | Crashed _ => Ret None
          end
        else Ret None
    | _ => Ret None
    end.
Proof.
  unfold direct_download, try_except, bind, emit, write_file, get_fs.
  destruct (urlopen env) as [msg|size rows ctime]; [reflexivity|].
  cbn [fst snd world w_fs set_world put_fs add_trace].
  set (f := mkFile direct_name size rows ctime false).
  assert (Hlk : lookup direct_file (write f (w_fs (world s))) = Some f)
    by apply (lookup_write f).
  unfold exists_, getsize, read_excel. rewrite Hlk.
  cbn [option_map f_size f_rows f andb].
  destruct (0 <? size)%N.
  - destruct rows as [[|row rows]|]; cbn; try reflexivity.
    unfold set_download_agent, wait_for_agent_run. cbn.
    destruct (ao_result (agent_run env (n_agent s))); reflexivity.
  - destruct rows as [[|row rows]|]; reflexivity.
Qed.

(** ** No retry without a timeout *)

(** X16.  Only a [TimeoutError] makes a supervised agent run again.
    When the first invocation completes, raises another exception or
    is cancelled, both supervisors pass that outcome on after this one
    invocation: no warning, no second run. *)
Theorem no_retry_without_timeout (env : Env) (s : St)
    (excel_data : RecordSet) :
  context (self s) <> None ->
  ao_result (agent_run env (n_agent s)) <> TimedOut ->
  let first := outcome_of (ao_result (agent_run env (n_agent s))) in
  (exists s',
      download_via_agent env s = (first, s') /\
      added s s' [EvAgentRun DownloadExcel 25 300]) /\
  (exists s',
      run_process_agent env excel_data s = (first, s') /\
      added s s' [EvAgentRun (FillForm excel_data) 100 600]).
Proof.
  intros Hctx Hnt first. unfold first. split.
  - unfold download_via_agent, bind, set_download_agent, try_except_timeout,
      wait_for_agent_run, added. cbn.
    destruct (ao_result (agent_run env (n_agent s))); try contradiction;
      cbn; eexists; split; reflexivity.
  - unfold run_process_agent, bind, get_self, set_process_agent,
      try_except_timeout, wait_for_agent_run, added.
    destruct (context (self s)); [|contradiction]. cbn.
    destruct (ao_result (agent_run env (n_agent s))); try contradiction;
      cbn; eexists; split; reflexivity.
Qed.

Lemma no_retry_without_timeout_witness :
  let env :=
    mkEnv LaunchOk (FetchError "HTTP Error 503")
          (fun _ => mkAgentOutcome [] (Crashed "Target page closed"))
          Sample.calm (fun _ => None) None (fun _ => false) None None in
  let s := start Sample.runner_a Sample.empty_world in
  context (self s) <> None /\
  ao_result (agent_run env (n_agent s)) <> TimedOut /\
  exists s',
    download_via_agent env s = (Raise (Exception "Target page closed"), s') /\
    added s s' [EvAgentRun DownloadExcel 25 300].
Proof.
  intros env s.
  assert (H1 : context (self s) <> None) by discriminate.
  assert (H2 : ao_result (agent_run env (n_agent s)) <> TimedOut)
    by discriminate.
  split; [exact H1|]. split; [exact H2|].
  destruct (no_retry_without_timeout env s [] H1 H2) as [H _]. exact H.
Defined.

(** ** Counting the calls of a run *)

Lemma count_event_app (p : Event -> bool) (a b : list Event) :
  count_event p (a ++ b) = count_event p a + count_event p b.
Proof.
  induction a as [|ev a IH]; [reflexivity|]. cbn. rewrite IH. lia.
Qed.

Lemma bounded_le' (p : Event -> bool) (n m : nat) {A} (c : M A) :
  bounded p n c -> n <= m -> bounded p m c.
Proof.
  intros H Hle s. destruct (H s) as [evs [Ha Hc]]. exists evs. split; [auto|lia].
Qed.

Lemma bounded_max_l (p : Event -> bool) (n m : nat) {A} (c : M A) :
  bounded p n c -> bounded p (Nat.max n m) c.
Proof. intro H. apply (bounded_le' p n _ c H). lia. Qed.

Lemma bounded_max_r (p : Event -> bool) (n m : nat) {A} (c : M A) :
  bounded p m c -> bounded p (Nat.max n m) c.
Proof. intro H. apply (bounded_le' p m _ c H). lia. Qed.

Lemma bounded_pure (p : Event -> bool) {A} (c : M A) :
  (forall s, w_trace (world (snd (c s))) = w_trace (world s)) ->
  bounded p 0 c.
Proof.
  intros H s. exists []. unfold added. rewrite H, app_nil_r. auto.
Qed.

Lemma bounded_ret (p : Event -> bool) {A} (a : A) : bounded p 0 (ret a).
Proof. now apply bounded_pure. Qed.

Lemma bounded_raise (p : Event -> bool) {A} (e : exn) :
  bounded p 0 (@raise A e).
Proof. now apply bounded_pure. Qed.

Lemma bounded_bind (p : Event -> bool) (n m : nat) {A B}
    (c : M A) (k : A -> M B) :
  bounded p n c -> (forall a, bounded p m (k a)) -> bounded p (n + m) (bind c k).
Proof.
  intros Hc Hk s. unfold bind. destruct (Hc s) as [e1 [H1 C1]].
  destruct (c s) as [[a|e] s1]; cbn [snd] in *.
  - destruct (Hk a s1) as [e2 [H2 C2]]. exists (e1 ++ e2). split.
    + unfold added in *. now rewrite H2, H1, app_assoc.
    + rewrite count_event_app. lia.
  - exists e1. split; [exact H1|lia].
Qed.

Lemma bounded_try_except (p : Event -> bool) (n m : nat) {A}
    (c : M A) (h : exn -> M A) :
  bounded p n c -> (forall e, bounded p m (h e)) ->
  bounded p (n + m) (try_except c h).
Proof.
  intros Hc Hh s. unfold try_except. destruct (Hc s) as [e1 [H1 C1]].
  destruct (c s) as [[a|e] s1]; cbn [snd] in *.
  - exists e1. split; [exact H1|lia].
  - destruct (is_Exception e).
    + destruct (Hh e s1) as [e2 [H2 C2]]. exists (e1 ++ e2). split.
      * unfold added in *. now rewrite H2, H1, app_assoc.
      * rewrite count_event_app. lia.
    + exists e1. split; [exact H1|lia].
Qed.

Lemma bounded_try_except_timeout (p : Event -> bool) (n m : nat) {A}
    (c h : M A) :
  bounded p n c -> bounded p m h ->
  bounded p (n + m) (try_except_timeout c h).
Proof.
  intros Hc Hh s. unfold try_except_timeout. destruct (Hc s) as [e1 [H1 C1]].
  destruct (c s) as [[a|e] s1]; cbn [snd] in *.
  - exists e1. split; [exact H1|lia].
  - destruct (is_TimeoutError e).
    + destruct (Hh s1) as [e2 [H2 C2]]. exists (e1 ++ e2). split.
      * unfold added in *. now rewrite H2, H1, app_assoc.
      * rewrite count_event_app. lia.
    + exists e1. split; [exact H1|lia].
Qed.

Lemma bounded_try_finally (p : Event -> bool) (n m : nat) {A}
    (c : M A) (f : M unit) :
  bounded p n c -> bounded p m f -> bounded p (n + m) (try_finally c f).
Proof.
  intros Hc Hf s. unfold try_finally. destruct (Hc s) as [e1 [H1 C1]].
  destruct (c s) as [o s1]. cbn [snd] in *.
  destruct (Hf s1) as [e2 [H2 C2]].
  exists (e1 ++ e2). split.
  - unfold added in *.
    destruct (f s1) as [[[]|e] s2]; cbn [snd] in *;
      now rewrite H2, H1, app_assoc.
  - rewrite count_event_app. lia.
Qed.

Lemma bounded_emit (p : Event -> bool) (ev : Event) :
  bounded p (cost p ev) (emit ev).
Proof.
  intros s. exists [ev]. split; [reflexivity|]. unfold cost. cbn.
  destruct (p ev); lia.
Qed.

Lemma scan_events (files : list string) :
  forall (valid : list string) (fs : FS),
    Forall (fun ev => is_fs_event ev = true)
           (snd (Locator.scan files valid fs)).
Proof.
  induction files as [|file rest IH]; intros valid fs; [constructor|].
  cbn [Locator.scan].
  destruct (getsize file fs) as [size|];
    [destruct (0 <? size)%N; [destruct (read_excel file fs)|]|];
    match goal with |- context [Locator.scan rest ?v ?f] =>
      specialize (IH v f); destruct (Locator.scan rest v f) as [[v' fs'] evs']
    end;
    cbn [snd] in *; apply Forall_app; split; auto;
    repeat constructor.
Qed.

Lemma locate_events (fs : FS) :
  Forall (fun ev => is_fs_event ev = true) (snd (Locator.locate fs)).
Proof.
  unfold Locator.locate.
  destruct (match lookup direct_file fs with
            | Some f => (0 <? f_size f)%N | None => false end).
  - destruct (read_excel direct_file fs); cbn [fst snd].
    + repeat constructor.
    + match goal with |- context [Locator.scan ?l ?v ?f] =>
        pose proof (scan_events l v f) as H;
        destruct (Locator.scan l v f) as [[v' fs2] evs2] end.
      cbn [snd] in H.
      destruct v'; [|destruct (Locator.keyed _ _) as [[|k ks]|]];
        cbn [snd]; apply Forall_app; split; auto; repeat constructor.
  - match goal with |- context [Locator.scan ?l ?v ?f] =>
      pose proof (scan_events l v f) as H;
      destruct (Locator.scan l v f) as [[v' fs2] evs2] end.
    cbn [snd] in H.
    destruct v'; [|destruct (Locator.keyed _ _) as [[|k ks]|]];
      cbn [snd app]; auto.
Qed.

Lemma count_event_blind (p : Event -> bool) (evs : list Event) :
  (forall ev, is_fs_event ev = true -> p ev = false) ->
  Forall (fun ev => is_fs_event ev = true) evs ->
  count_event p evs = 0.
Proof.
  intros Hp H. induction H as [|ev evs Hev _ IH]; [reflexivity|].
  cbn. now rewrite (Hp ev Hev), IH.
Qed.

Section Counting.

Variable p : Event -> bool.
Hypothesis Hblind : forall ev, is_fs_event ev = true -> p ev = false.

(** Upper bounds of what one event of each kind counts for [p]. *)
Variables a u l sl w cb cc cbr : nat.
Hypothesis Ha : forall t n m, cost p (EvAgentRun t n m) <= a.
Hypothesis Hu : cost p EvUrlopen <= u.
Hypothesis Hl : cost p EvLocate <= l.
Hypothesis Hsl : forall k, cost p (EvSleep k) <= sl.
Hypothesis Hw : forall path, cost p (EvWriteSummary path) <= w.
Hypothesis Hcb : forall ok, cost p (EvDoneCallback ok) <= cb.
Hypothesis Hcc : cost p EvCloseContext <= cc.
Hypothesis Hcbr : cost p EvCloseBrowser <= cbr.

Variable env : Env.

Lemma cost_blind (ev : Event) : is_fs_event ev = true -> cost p ev = 0.
Proof. intro H. unfold cost. now rewrite (Hblind ev H). Qed.

Lemma b_emit_fs (ev : Event) : is_fs_event ev = true -> bounded p 0 (emit ev).
Proof.
  intro H. apply (bounded_le' p (cost p ev)); [apply bounded_emit|].
  rewrite (cost_blind ev H). lia.
Qed.

Lemma b_emit_urlopen : bounded p u (emit EvUrlopen).
Proof. apply (bounded_le' p (cost p EvUrlopen)); [apply bounded_emit|exact Hu]. Qed.

Lemma b_find_latest : bounded p l find_latest_challenge_file.
Proof.
  intros s. unfold find_latest_challenge_file.
  pose proof (locate_events (w_fs (world s))) as H.
  destruct (Locator.locate (w_fs (world s))) as [[r fs'] evs].
  cbn [snd] in H. exists (EvLocate :: evs).
  split; [destruct r; reflexivity|].
  cbn [count_event]. rewrite (count_event_blind p evs Hblind H).
  fold (cost p EvLocate). lia.
Qed.

Lemma b_read_excel_data (path : string) : bounded p 0 (read_excel_data path).
Proof.
  intros s. unfold read_excel_data.
  destruct (w_cache (world s)) as [[key value]|];
    [destruct (String.eqb key path)|].
  1: { exists []. unfold added. rewrite app_nil_r. auto. }
  all: destruct (read_excel path (w_fs (world s)));
    eexists; (split; [reflexivity|]); cbn;
    rewrite ?(Hblind (EvReadExcel path) eq_refl),
            ?(Hblind (EvLog ErrReadExcel) eq_refl); lia.
Qed.

Lemma b_wait (t : AgentTask) (n m : nat) :
  bounded p a (wait_for_agent_run env t n m).
Proof.
  intros s. exists [EvAgentRun t n m]. split.
  - unfold wait_for_agent_run.
    destruct (ao_result (agent_run env (n_agent s))); reflexivity.
  - cbn. fold (cost p (EvAgentRun t n m)). specialize (Ha t n m). lia.
Qed.

Lemma b_sleep (seconds : nat) : bounded p sl (asyncio_sleep env seconds).
Proof.
  intros s. exists [EvSleep seconds]. split.
  - unfold asyncio_sleep.
    destruct (so_cancelled (sleep env (n_sleep s))); reflexivity.
  - cbn. fold (cost p (EvSleep seconds)). specialize (Hsl seconds). lia.
Qed.

Lemma b_save_summary (ok : bool) : bounded p w (save_summary env ok).
Proof.
  intros s. exists [EvWriteSummary (result_file (self s))]. split.
  - unfold save_summary. destruct (write_summary env ok); reflexivity.
  - cbn. fold (cost p (EvWriteSummary (result_file (self s)))).
    specialize (Hw (result_file (self s))). lia.
Qed.

Lemma b_call_done_callback (d : Result.t) :
  bounded p cb (call_done_callback env d).
Proof.
  unfold call_done_callback. destruct (on_done_callback env) as [callback|].
  - apply (bounded_le' p (cost p (EvDoneCallback (Result.success d)) + 0)).
    + apply bounded_bind; [apply bounded_emit|intros _].
      destruct (callback d); [apply bounded_raise|apply bounded_ret].
    + specialize (Hcb (Result.success d)). lia.
  - apply (bounded_le' p 0); [apply bounded_ret|lia].
Qed.

Lemma b_await_close_context (answer : option exn) :
  bounded p cc (await_close EvCloseContext answer).
Proof.
  unfold await_close.
  apply (bounded_le' p (cost p EvCloseContext + 0)); [|lia].
  apply bounded_bind; [apply bounded_emit|intros _].
  destruct answer; [apply bounded_raise|apply bounded_ret].
Qed.

Lemma b_await_close_browser (answer : option exn) :
  bounded p cbr (await_close EvCloseBrowser answer).
Proof.
  unfold await_close.
  apply (bounded_le' p (cost p EvCloseBrowser + 0)); [|lia].
  apply bounded_bind; [apply bounded_emit|intros _].
  destruct answer; [apply bounded_raise|apply bounded_ret].
Qed.

(** Splits an unknown bound in two before a case distinction. *)
Ltac bounded_branch x :=
  match goal with
  | |- bounded _ ?n _ =>
      let n1 := fresh "n" in
      let n2 := fresh "n" in
      evar (n1 : nat); evar (n2 : nat);
      unify n (Nat.max n1 n2); subst n1 n2;
      destruct x; [apply bounded_max_l|apply bounded_max_r]
  end.

Ltac bounded_leaf :=
  first
    [ apply bounded_ret
    | apply bounded_raise
    | apply b_emit_fs; reflexivity
    | apply b_emit_urlopen
    | apply b_find_latest
    | apply b_read_excel_data
    | apply b_wait
    | apply b_sleep
    | apply b_save_summary
    | apply b_call_done_callback
    | apply b_await_close_context
    | apply b_await_close_browser
    | apply bounded_pure; intros ?; reflexivity ].

Ltac bounded_steps :=
  repeat first
    [ bounded_leaf
    | eapply bounded_bind; [|intros ?]
    | eapply bounded_try_except; [|intros ?]
    | eapply bounded_try_except_timeout
    | eapply bounded_try_finally
    | match goal with
      | |- bounded _ _ (if ?b then _ else _) => bounded_branch b
      | |- bounded _ _ (match ?x with _ => _ end) => bounded_branch x
      end ].

Lemma b_os_path_getsize (path : string) : bounded p 0 (os_path_getsize path).
Proof.
  eapply bounded_le'; [unfold os_path_getsize; bounded_steps|]. cbn. lia.
Qed.

Lemma b_process_excel_data : bounded p l process_excel_data.
Proof.
  eapply bounded_le'; [unfold process_excel_data; bounded_steps|]. cbn. lia.
Qed.

Lemma b_direct_download : bounded p (u + a) (direct_download env).
Proof.
  eapply bounded_le'; [unfold direct_download; bounded_steps|]. cbn. lia.
Qed.

Lemma b_download_via_agent : bounded p (a + a) (download_via_agent env).
Proof.
  eapply bounded_le'; [unfold download_via_agent; bounded_steps|]. cbn. lia.
Qed.

Lemma b_run_download_agent : bounded p (u + 3 * a) (run_download_agent env).
Proof.
  eapply bounded_le';
    [unfold run_download_agent; bounded_steps;
     first [apply b_direct_download|apply b_download_via_agent]|].
  cbn. lia.
Qed.

Lemma b_run_process_agent (excel_data : RecordSet) :
  bounded p (a + a) (run_process_agent env excel_data).
Proof.
  eapply bounded_le'; [unfold run_process_agent; bounded_steps|]. cbn. lia.
Qed.

Lemma b_poll (attempts : list nat) :
  forall excel_file,
    bounded p (List.length attempts * (l + sl + sl))
            (poll env attempts excel_file).
Proof.
  induction attempts as [|attempt rest IH]; intro excel_file.
  - cbn. apply bounded_ret.
  - eapply bounded_le';
      [cbn [poll]; bounded_steps;
       first [apply b_os_path_getsize|apply IH]|].
    cbn [List.length Nat.mul]. lia.
Qed.

Lemma b_validate_and_parse (h : AgentHistoryList) :
  bounded p (l + sl + 5 * (l + sl + sl)) (validate_and_parse env h).
Proof.
  eapply bounded_le';
    [unfold validate_and_parse; bounded_steps;
     first [apply (b_poll (seq 0 5))|apply b_process_excel_data]|].
  cbn. lia.
Qed.

Lemma b_acquire :
  bounded p (u + 3 * a + (l + sl + 5 * (l + sl + sl))) (acquire env).
Proof.
  eapply bounded_le';
    [unfold acquire; bounded_steps;
     first [apply b_run_download_agent|apply b_validate_and_parse]|].
  cbn. lia.
Qed.

Lemma b_summarize (h1 h2 : AgentHistoryList) :
  bounded p (w + cb) (summarize env h1 h2).
Proof.
  eapply bounded_le'; [unfold summarize; bounded_steps|]. cbn. lia.
Qed.

Lemma b_submit (h : AgentHistoryList) (excel_data : RecordSet) :
  bounded p (a + a + (w + cb)) (submit env h excel_data).
Proof.
  eapply bounded_le';
    [unfold submit; bounded_steps;
     first [apply b_run_process_agent|apply b_summarize]|].
  cbn. lia.
Qed.

Lemma b_run_automation_except (e : exn) :
  bounded p (w + cb) (run_automation_except env e).
Proof.
  eapply bounded_le'; [unfold run_automation_except; bounded_steps|].
  cbn. lia.
Qed.

Lemma b_close_resources : bounded p (cc + cbr) (close_resources env).
Proof.
  eapply bounded_le'; [unfold close_resources; bounded_steps|]. cbn. lia.
Qed.

Lemma b_run_automation :
  bounded p (u + 5 * a + 6 * l + 11 * sl + 2 * w + 2 * cb + cc + cbr)
          (run_automation env).
Proof.
  eapply bounded_le';
    [unfold run_automation, run_automation_try; bounded_steps;
     first [apply b_acquire|apply b_submit|apply b_run_automation_except
           |apply b_close_resources]|].
  cbn. lia.
Qed.

End Counting.

Lemma bounded_both (p q : Event -> bool) (n m : nat) {A} (c : M A) (s : St) :
  bounded p n c -> bounded q m c ->
  forall evs, added s (snd (c s)) evs ->
              count_event p evs <= n /\ count_event q evs <= m.
Proof.
  intros Hp Hq evs Ha.
  destruct (Hp s) as [e1 [H1 C1]]. destruct (Hq s) as [e2 [H2 C2]].
  unfold added in *. rewrite Ha in H1, H2.
  apply app_inv_head in H1, H2. subst. auto.
Qed.

Ltac blind := intros [] H; first [discriminate H|reflexivity].
Ltac unit_cost := intros; unfold cost; cbn; lia.

(** X17.  The validation poll is bounded in every environment: from
    any state and whatever the files do meanwhile, it calls the locator
    at most 5 times and sleeps at most 10 times (a 2-second and a
    5-second sleep per attempt); it starts no agent and makes no HTTP
    request. *)
Theorem poll_is_bounded (env : Env) (s : St) (excel_file : option string) :
  exists evs,
    added s (snd (poll env (seq 0 5) excel_file s)) evs /\
    count_event is_locate evs <= 5 /\
    count_event is_sleep evs <= 10 /\
    count_event is_agent_run evs = 0 /\
    count_event is_urlopen evs = 0.
Proof.
  assert (H1 : bounded is_locate 5 (poll env (seq 0 5) excel_file)).
  { apply (bounded_le' _ (List.length (seq 0 5) * (1 + 0 + 0)));
      [apply (b_poll is_locate) with (u := 1) (l := 1) (sl := 0) (cc := 1) (cbr := 1);
       first [blind|unit_cost]|cbn; lia]. }
  assert (H2 : bounded is_sleep 10 (poll env (seq 0 5) excel_file)).
  { apply (bounded_le' _ (List.length (seq 0 5) * (0 + 1 + 1)));
      [apply (b_poll is_sleep) with (u := 1) (l := 0) (sl := 1) (cc := 1) (cbr := 1);
       first [blind|unit_cost]|cbn; lia]. }
  assert (H3 : bounded is_agent_run 0 (poll env (seq 0 5) excel_file)).
  { apply (bounded_le' _ (List.length (seq 0 5) * (0 + 0 + 0)));
      [apply (b_poll is_agent_run) with (u := 1) (l := 0) (sl := 0) (cc := 1) (cbr := 1);
       first [blind|unit_cost]|cbn; lia]. }
  assert (H4 : bounded is_urlopen 0 (poll env (seq 0 5) excel_file)).
  { apply (bounded_le' _ (List.length (seq 0 5) * (0 + 0 + 0)));
      [apply (b_poll is_urlopen) with (u := 1) (l := 0) (sl := 0) (cc := 1) (cbr := 1);
       first [blind|unit_cost]|cbn; lia]. }
  destruct (H1 s) as [evs [Ha C1]]. exists evs. split; [exact Ha|].
  destruct (bounded_both _ _ _ _ _ s H2 H3 evs Ha) as [C2 C3].
  destruct (bounded_both _ _ _ _ _ s H4 H4 evs Ha) as [C4 _].
  repeat split; try assumption; lia.
Qed.

(** X18.  A run is bounded in every environment, whatever its outcome:
    it makes at most one HTTP request, invokes agents at most 5 times
    (the open-site agent once, the download agent and the form agent
    twice each), calls the locator at most 6 times, sleeps at most 11
    times, writes the summary file at most twice, calls the
    done-callback at most twice and closes at most two handles. *)
Theorem run_automation_is_bounded (env : Env) (s : St) :
  exists evs,
    added s (snd (run_automation env s)) evs /\
    count_event is_urlopen evs <= 1 /\
    count_event is_agent_run evs <= 5 /\
    count_event is_locate evs <= 6 /\
    count_event is_sleep evs <= 11 /\
    count_event is_write_summary evs <= 2 /\
    count_event is_done_callback evs <= 2 /\
    count_event is_close evs <= 2.
Proof.
  assert (H1 : bounded is_urlopen 1 (run_automation env)).
  { apply (bounded_le' _ (1 + 5 * 0 + 6 * 0 + 11 * 0 + 2 * 0 + 2 * 0
                          + 0 + 0));
      [apply (b_run_automation is_urlopen) with (a := 0) (u := 1) (l := 0)
         (sl := 0) (w := 0) (cb := 0) (cc := 0) (cbr := 0);
       first [blind|unit_cost]|cbn; lia]. }
  assert (H2 : bounded is_agent_run 5 (run_automation env)).
  { apply (bounded_le' _ (0 + 5 * 1 + 6 * 0 + 11 * 0 + 2 * 0 + 2 * 0
                          + 0 + 0));
      [apply (b_run_automation is_agent_run) with (a := 1) (u := 0) (l := 0)
         (sl := 0) (w := 0) (cb := 0) (cc := 0) (cbr := 0);
       first [blind|unit_cost]|cbn; lia]. }
  assert (H3 : bounded is_locate 6 (run_automation env)).
  { apply (bounded_le' _ (0 + 5 * 0 + 6 * 1 + 11 * 0 + 2 * 0 + 2 * 0
                          + 0 + 0));
      [apply (b_run_automation is_locate) with (a := 0) (u := 0) (l := 1)
         (sl := 0) (w := 0) (cb := 0) (cc := 0) (cbr := 0);
       first [blind|unit_cost]|cbn; lia]. }
  assert (H4 : bounded is_sleep 11 (run_automation env)).
  { apply (bounded_le' _ (0 + 5 * 0 + 6 * 0 + 11 * 1 + 2 * 0 + 2 * 0
                          + 0 + 0));
      [apply (b_run_automation is_sleep) with (a := 0) (u := 0) (l := 0)
         (sl := 1) (w := 0) (cb := 0) (cc := 0) (cbr := 0);
       first [blind|unit_cost]|cbn; lia]. }
  assert (H5 : bounded is_write_summary 2 (run_automation env)).
  { apply (bounded_le' _ (0 + 5 * 0 + 6 * 0 + 11 * 0 + 2 * 1 + 2 * 0
                          + 0 + 0));
      [apply (b_run_automation is_write_summary) with (a := 0) (u := 0) (l := 0)
         (sl := 0) (w := 1) (cb := 0) (cc := 0) (cbr := 0);
       first [blind|unit_cost]|cbn; lia]. }
  assert (H6 : bounded is_done_callback 2 (run_automation env)).
  { apply (bounded_le' _ (0 + 5 * 0 + 6 * 0 + 11 * 0 + 2 * 0 + 2 * 1
                          + 0 + 0));
      [apply (b_run_automation is_done_callback) with (a := 0) (u := 0) (l := 0)
         (sl := 0) (w := 0) (cb := 1) (cc := 0) (cbr := 0);
       first [blind|unit_cost]|cbn; lia]. }
  assert (H7 : bounded is_close 2 (run_automation env)).
  { apply (bounded_le' _ (0 + 5 * 0 + 6 * 0 + 11 * 0 + 2 * 0 + 2 * 0
                          + 1 + 1));
      [apply (b_run_automation is_close) with (a := 0) (u := 0) (l := 0)
         (sl := 0) (w := 0) (cb := 0) (cc := 1) (cbr := 1);
       first [blind|unit_cost]|cbn; lia]. }
  destruct (H1 s) as [evs [Ha C1]]. exists evs. split; [exact Ha|].
  destruct (bounded_both _ _ _ _ _ s H2 H3 evs Ha) as [C2 C3].
  destruct (bounded_both _ _ _ _ _ s H4 H5 evs Ha) as [C4 C5].
  destruct (bounded_both _ _ _ _ _ s H6 H7 evs Ha) as [C6 C7].
  repeat split; assumption.
Qed.

(** ** Witnesses of the fetch and poll lemmas *)

Lemma validated_direct_download_skips_download_agent_witness :
  let env := Sample.env_a in
  let s := start Sample.runner_a Sample.empty_world in
  context (self s) <> None /\
  urlopen env = FetchSaved 10 (Some Sample.rows_a) 1 /\
  (0 < 10)%N /\
  ao_result (agent_run env (n_agent s)) = Completed Sample.done /\
  exists s',
    run_download_agent env s = (Ret Sample.done, s') /\
    added s s' [EvUrlopen; EvReadExcel direct_file; EvAgentRun OpenSiteOnly 5 60].
Proof.
  intros env s.
  assert (H1 : context (self s) <> None) by discriminate.
  assert (H2 : urlopen env = FetchSaved 10 (Some Sample.rows_a) 1)
    by reflexivity.
  assert (H3 : (0 < 10)%N) by reflexivity.
  assert (H4 : ao_result (agent_run env (n_agent s)) = Completed Sample.done)
    by reflexivity.
  split; [exact H1|]. split; [exact H2|]. split; [exact H3|].
  split; [exact H4|].
  exact (validated_direct_download_skips_download_agent env s 10 1
           [("First Name", "Ann")] [] Sample.done H1 H2 H3 H4).
Defined.

Lemma failed_direct_download_runs_download_agent_once_witness :
  let env := Sample.env_unstable in
  let s := start Sample.runner_a Sample.empty_world in
  context (self s) <> None /\
  ao_result (agent_run env (n_agent s)) <> TimedOut /\
  exists evs,
    added s (snd (run_download_agent env s)) evs /\
    count_event is_download_run evs = 1.
Proof.
  intros env s.
  assert (H1 : context (self s) <> None) by discriminate.
  assert (H3 : ao_result (agent_run env (n_agent s)) <> TimedOut)
    by discriminate.
  split; [exact H1|]. split; [exact H3|].
  exact (failed_direct_download_runs_download_agent_once env s H1 I H3).
Defined.

Lemma exhausted_poll_fails_witness :
  let env := Sample.env_cancelled in
  let s := start Sample.runner_a
             (mkWorld [mkFile "notes.txt" 3 None 1 false] None [] []) in
  (forall k, sleep env k = mkSleepOutcome [] false) /\
  lookup direct_file (w_fs (world s)) = None /\
  glob_challenge (w_fs (world s)) = [] /\
  exists s',
    validate_and_parse env Sample.done s
    = (Raise (Exception
         "Não foi possível encontrar o arquivo Excel após várias tentativas"),
       s') /\
    count_event is_locate
      (skipn (List.length (w_trace (world s))) (w_trace (world s'))) = 5.
Proof.
  intros env s.
  assert (H1 : forall k, sleep env k = mkSleepOutcome [] false)
    by reflexivity.
  assert (H2 : lookup direct_file (w_fs (world s)) = None) by reflexivity.
  assert (H3 : glob_challenge (w_fs (world s)) = []) by reflexivity.
  split; [exact H1|]. split; [exact H2|]. split; [exact H3|].
  exact (exhausted_poll_fails env Sample.done s H1 H2 H3).
Defined.

(** ** An attempt that is accepted *)

Lemma is_valid_getsize (fs : FS) (p : string) :
  is_valid fs p = true -> exists size, getsize p fs = Some size /\ (0 < size)%N.
Proof.
  unfold is_valid, getsize. destruct (lookup p fs) as [f|]; [|discriminate].
  intro H. apply Bool.andb_true_iff in H. destruct H as [H _].
  exists (f_size f). split; [reflexivity|now apply N.ltb_lt].
Qed.

Lemma os_path_getsize_found (path : string) (size : N) (s : St) :
  getsize path (w_fs (world s)) = Some size ->
  os_path_getsize path s = (Ret size, s).
Proof.
  intro H. unfold os_path_getsize, bind, get_fs. now rewrite H.
Qed.

(** X19.  The poll stops at the first attempt whose candidate is
    stable: when the locator returns a path, the sleep of 2 seconds is
    not cancelled and the size of that file is the same after it, the
    loop returns this path at once, after one locator call and one
    sleep, without back-off and without using the attempts that are
    left. *)
Theorem poll_accepts_first_stable (env : Env) (s : St) (p : string)
    (attempt : nat) (rest : list nat) (excel_file : option string) :
  let fs' := snd (fst (Locator.locate (w_fs (world s)))) in
  let nap := sleep env (n_sleep s) in
  fst (fst (Locator.locate (w_fs (world s)))) = inl (Some p) ->
  so_cancelled nap = false ->
  getsize p (write_all (so_files nap) fs') = getsize p fs' ->
  exists s' evs,
    poll env (attempt :: rest) excel_file s = (Ret (Some p), s') /\
    added s s' (EvLocate :: evs ++ [EvSleep 2]) /\
    count_event is_locate evs = 0 /\ count_event is_sleep evs = 0.
Proof.
  intros fs' nap Hloc Hnc Hsame.
  rewrite locate_answer in Hloc. injection Hloc as Hl.
  pose proof (latest_valid_sound _ _ Hl) as [_ Hv].
  destruct (locate_keeps_valid (w_fs (world s)) p) as [Hv' _].
  fold fs' in Hv'. rewrite Hv in Hv'.
  destruct (is_valid_getsize fs' p Hv') as [size [Hsz Hpos]].
  apply N.ltb_lt in Hpos.
  pose proof (locate_events (w_fs (world s))) as Hevs.
  cbn [poll]. unfold bind at 1. unfold find_latest_challenge_file.
  pose proof (locate_answer (w_fs (world s))) as Hans.
  unfold fs' in *. clear fs'.
  destruct (Locator.locate (w_fs (world s))) as [[r fs1] evs].
  cbn [fst snd] in *. subst r. rewrite Hl.
  unfold bind at 1.
  rewrite (os_path_getsize_found p size) by exact Hsz.
  rewrite Hpos. unfold bind at 1. unfold asyncio_sleep.
  cbn [n_sleep set_world]. fold nap. rewrite Hnc.
  unfold bind at 1.
  rewrite (os_path_getsize_found p size)
    by (cbn [world w_fs set_world add_trace put_fs]; now rewrite Hsame).
  rewrite N.eqb_refl. unfold ret.
  eexists. exists evs. split; [reflexivity|]. split.
  - unfold added. cbn. now rewrite <- app_assoc.
  - split; apply count_event_blind; auto; intros [] H;
      first [discriminate H|reflexivity].
Qed.

Lemma poll_accepts_first_stable_witness :
  let env := Sample.env_a in
  let s := start Sample.runner_a
             (mkWorld [mkFile "challenge.xlsx" 100 (Some Sample.rows_a) 5 false]
                      None [] []) in
  let p := downloads_path "challenge.xlsx" in
  fst (fst (Locator.locate (w_fs (world s)))) = inl (Some p) /\
  so_cancelled (sleep env (n_sleep s)) = false /\
  exists s' evs,
    poll env (seq 0 5) None s = (Ret (Some p), s') /\
    added s s' (EvLocate :: evs ++ [EvSleep 2]) /\
    count_event is_locate evs = 0 /\ count_event is_sleep evs = 0.
Proof.
  intros env s p.
  assert (H1 : fst (fst (Locator.locate (w_fs (world s)))) = inl (Some p))
    by (vm_compute; reflexivity).
  assert (H2 : so_cancelled (sleep env (n_sleep s)) = false) by reflexivity.
  split; [exact H1|]. split; [exact H2|].
  apply (poll_accepts_first_stable env s p 0 (seq 1 4) None H1 H2).
  vm_compute. reflexivity.
Defined.


(** * The web tab *)

Ltac tab_unfold :=
  cbv beta iota delta
    [Tab.run_rpa_challenge Tab.run_wrapper Tab.stop_wrapper Tab.clear_wrapper
     Tab.handle_stop Tab.handle_clear Tab.click
     Tab.gbind Tab.try_except_cancelled Tab.yield_ Tab.gret Tab.graise
     Tab.call Tab.RPAChallengeRunner Tab.get_manager
     Tab.set_rpa_challenge_runner Tab.set_rpa_challenge_task].

(** The exits of the run handler, one goal for each. *)
Ltac tab_run_cases :=
  let ellm := fresh "ellm" in
  let einit := fresh "einit" in
  let erun := fresh "erun" in
  let d := fresh "d" in
  let sinit := fresh "sinit" in
  let srun := fresh "srun" in
  let Hcfg := fresh "Hcfg" in
  let Hllm := fresh "Hllm" in
  let Hinit := fresh "Hinit" in
  let Hrun := fresh "Hrun" in
  tab_unfold;
  match goal with
  | |- context [negb (Tab.py_truthy ?a) || negb (Tab.py_truthy ?b)] =>
      destruct (negb (Tab.py_truthy a) || negb (Tab.py_truthy b)) eqn:Hcfg
  end;
  [|match goal with
    | |- context [Tab.get_llm_model ?tenv] =>
        destruct (Tab.get_llm_model tenv) as [ellm|] eqn:Hllm
    end;
    [destruct ellm|
     cbn [Tab.store Tab.tab_world Tab.next Tab.manager];
     match goal with
     | |- context [initialize_browser ?env ?s] =>
         destruct (initialize_browser env s) as [[[]|einit] sinit] eqn:Hinit
     end;
     [cbn [negb Tab.store Tab.tab_world Tab.next Tab.manager];
      match goal with
      | |- context [run_automation ?env ?s] =>
          destruct (run_automation env s) as [[d|erun] srun] eqn:Hrun
      end;
      [|destruct erun]
     | |destruct einit]]].

(** X20.  However the run handler ends (language model not
    configured or not available, browser not initialised, run
    finished with or without success, run failed, task cancelled), it
    ends normally, its first update is the one that disables the run
    button and enables the stop button, its last update enables the
    run button again and disables the stop button, and no update
    between them touches either button. *)
Theorem run_handler_restores_buttons (tenv : Tab.TabEnv)
    (components : Tab.Inputs) (t : Tab.TabSt) :
  let r := Tab.run_rpa_challenge tenv components t in
  fst (fst r) = Ret tt /\
  2 <= List.length (snd r) /\
  hd [] (snd r) = Tab.starting /\
  Forall Tab.buttons_untouched (Tab.between (snd r)) /\
  Tab.get Tab.run_button (Tab.final (snd r)) = Some Tab.run_enabled /\
  Tab.get Tab.stop_button (Tab.final (snd r)) = Some Tab.stop_disabled.
Proof.
  cbv zeta. tab_run_cases.
  all: cbn.
  all: repeat split; try lia; repeat constructor.
Qed.


(** X21.  The tab reports success only for a run that succeeded: if
    the last update of the run handler sets the status to the success
    message, then that update is the callback's rendering of a record
    with [success = true] that the run returned, both agents returned a
    history that says done, the form agent was invoked on at least one
    row, the summary file holds the record's summary, and the manager
    holds no task any more. *)
Theorem reported_success_is_real (tenv : Tab.TabEnv)
    (components : Tab.Inputs) (t : Tab.TabSt) :
  let r := Tab.run_rpa_challenge tenv components t in
  let t' := snd (fst r) in
  Tab.get Tab.status (Tab.final (snd r)) = Some (Tab.text Tab.MSG_SUCCESS) ->
  exists d h1 h2 excel_data,
    Tab.final (snd r) = Tab.on_done_callback tenv components d /\
    Result.success d = true /\
    Result.download_history d = Some h1 /\ is_done h1 = true /\
    Result.process_history d = Some h2 /\ is_done h2 = true /\
    excel_data <> [] /\
    In (EvAgentRun (FillForm excel_data) 100 600)
       (w_trace (Tab.tab_world t')) /\
    read_log (Result.result_file d) (w_logs (Tab.tab_world t'))
    = Some (Result.summary d) /\
    Tab.rpa_challenge_task (Tab.manager t') = None.
Proof.
  cbv zeta. tab_run_cases.
  all: cbn [fst snd Tab.final last app Tab.get Tab.Component_eqb
            Tab.on_done_callback str].
  all: try (intro H; exfalso; revert H; cbn; discriminate).
  destruct (Result.success d) eqn:Hs;
    [|intro H; exfalso; revert H; cbn; discriminate].
  intros _.
  destruct (successful_record_inv _ _ _ _ Hrun Hs)
    as [h1 [h2 [excel_data [H1 [H2 [H3 [H4 [_ [H5 [H6 H7]]]]]]]]]].
  exists d, h1, h2, excel_data.
  split; [cbn; now rewrite Hs|]. split; [exact Hs|].
  repeat (split; [assumption|]). reflexivity.
Qed.

Lemma reported_success_is_real_witness :
  let r := Tab.run_rpa_challenge TabSample.tenv_a TabSample.configured
             TabSample.fresh_tab in
  Tab.get Tab.status (Tab.final (snd r)) = Some (Tab.text Tab.MSG_SUCCESS) /\
  exists d h1 h2 excel_data,
    Tab.final (snd r)
    = Tab.on_done_callback TabSample.tenv_a TabSample.configured d /\
    Result.success d = true /\
    Result.download_history d = Some h1 /\ is_done h1 = true /\
    Result.process_history d = Some h2 /\ is_done h2 = true /\
    excel_data <> [] /\
    In (EvAgentRun (FillForm excel_data) 100 600)
       (w_trace (Tab.tab_world (snd (fst r)))) /\
    read_log (Result.result_file d) (w_logs (Tab.tab_world (snd (fst r))))
    = Some (Result.summary d) /\
    Tab.rpa_challenge_task (Tab.manager (snd (fst r))) = None.
Proof.
  intro r.
  assert (H : Tab.get Tab.status (Tab.final (snd r))
              = Some (Tab.text Tab.MSG_SUCCESS))
    by (vm_compute; reflexivity).
  split; [exact H|].
  exact (reported_success_is_real TabSample.tenv_a TabSample.configured
           TabSample.fresh_tab H).
Defined.


(** ** The runner that the handlers reach *)

Lemma update_other (r r0 : Tab.Ref) (v : Runner) (h : Tab.Ref -> Runner) :
  r <> r0 -> Tab.update r0 v h r = h r.
Proof.
  intro H. unfold Tab.update. apply Nat.eqb_neq in H. now rewrite H.
Qed.

Lemma update_same (r : Tab.Ref) (v : Runner) (h : Tab.Ref -> Runner) :
  Tab.update r v h r = v.
Proof. unfold Tab.update. now rewrite Nat.eqb_refl. Qed.

Ltac tab_project :=
  cbn [fst snd negb app Tab.store Tab.tab_world Tab.next Tab.manager
       Tab.rpa_challenge_runner Tab.rpa_challenge_task].

Lemma click_frame (c : Tab.Click) (t : Tab.TabSt) (r : Tab.Ref) :
  r < Tab.next t ->
  Tab.rpa_challenge_runner (Tab.manager t) <> Some r ->
  let t' := snd (fst (Tab.click c t)) in
  Tab.store t' r = Tab.store t r /\
  Tab.rpa_challenge_runner (Tab.manager t') <> Some r /\
  r < Tab.next t'.
Proof.
  intros Hlt Hreg.
  assert (Hne : r <> Tab.next t) by lia.
  assert (Hne' : Some (Tab.next t) <> Some r) by congruence.
  destruct c as [tenv components|env|env]; cbv zeta.
  - unfold Tab.click, Tab.run_wrapper. tab_run_cases; tab_project;
      rewrite ?(update_other r (Tab.next t)) by exact Hne;
      repeat split; first [assumption|lia].
  - tab_unfold.
    destruct (Tab.manager t) as [k [r0|]] eqn:Hm; cbn [Tab.rpa_challenge_runner
      Tab.rpa_challenge_task] in *.
    + assert (Hr0 : r <> r0) by congruence.
      destruct k; tab_project; rewrite ?Hm; tab_project;
        destruct (close_resources env _) as [[[]|e] s1]; tab_project;
        rewrite ?(update_other r r0) by exact Hr0;
        repeat split; first [assumption|lia|congruence].
    + destruct k; tab_project; rewrite ?Hm; tab_project;
        repeat split; first [assumption|lia|congruence].
  - tab_unfold.
    destruct (Tab.manager t) as [k [r0|]] eqn:Hm; cbn [Tab.rpa_challenge_runner
      Tab.rpa_challenge_task] in *.
    + assert (Hr0 : r <> r0) by congruence.
      destruct (close_resources env _) as [[[]|e] s1]; tab_project;
        rewrite ?Hm; tab_project;
        rewrite ?(update_other r r0) by exact Hr0;
        repeat split; first [assumption|lia|congruence|discriminate].
    + tab_project. rewrite ?Hm. tab_project.
      repeat split; first [assumption|lia|congruence].
Qed.

Lemma session_frame (clicks : list Tab.Click) (t : Tab.TabSt) (r : Tab.Ref) :
  r < Tab.next t ->
  Tab.rpa_challenge_runner (Tab.manager t) <> Some r ->
  Tab.store (Tab.session clicks t) r = Tab.store t r /\
  Tab.rpa_challenge_runner (Tab.manager (Tab.session clicks t)) <> Some r.
Proof.
  revert t. induction clicks as [|c rest IH]; intros t Hlt Hreg.
  - split; [reflexivity|exact Hreg].
  - destruct (click_frame c t r Hlt Hreg) as [Hs [Hm Hn]].
    cbn [Tab.session].
    destruct (IH _ Hn Hm) as [Hs' Hm'].
    split; [now rewrite Hs'|exact Hm'].
Qed.




(** ** Initialisation and release, seen from the tab *)

Lemma initialize_browser_context_fails (env : Env) (s : St) (e : exn) :
  launch env = ContextFails e -> is_Exception e = true ->
  exists s',
    initialize_browser env s = (Ret false, s') /\
    browser (self s') = Some Browser /\
    context (self s') = context (self s) /\
    w_trace (world s') = w_trace (world s) ++ [EvLog (ErrInitBrowser e)].
Proof.
  intros Hl He.
  unfold initialize_browser, try_except, bind, raise, emit, ret.
  rewrite Hl. cbn. rewrite He. cbn. eexists. repeat split.
Qed.

Lemma initialize_browser_ok (env : Env) (s : St) :
  launch env = LaunchOk ->
  exists s',
    initialize_browser env s = (Ret true, s') /\
    world s' = world s.
Proof.
  intros Hl. unfold initialize_browser, try_except. rewrite Hl.
  eexists. split; reflexivity.
Qed.

Lemma initialize_browser_no_browser (env : Env) (s : St) (e : exn) :
  launch env = BrowserFails e ->
  self (snd (initialize_browser env s)) = self s /\
  fst (initialize_browser env s) <> Ret true.
Proof.
  intros Hl. unfold initialize_browser, try_except, bind, raise, emit, ret.
  rewrite Hl. destruct (is_Exception e); cbn; split;
    first [reflexivity|discriminate].
Qed.

(** After a run handler that was given a language model, the runner it
    created is the registered one and older runners are as they
    were. *)
Lemma run_click_registers_new (tenv : Tab.TabEnv) (components : Tab.Inputs)
    (t : Tab.TabSt) :
  Tab.py_truthy (Tab.llm_provider components) = true ->
  Tab.py_truthy (Tab.llm_model_name components) = true ->
  Tab.get_llm_model tenv = None ->
  let t' := snd (fst (Tab.run_rpa_challenge tenv components t)) in
  Tab.rpa_challenge_runner (Tab.manager t') = Some (Tab.next t) /\
  Tab.next t' = S (Tab.next t) /\
  forall r, r < Tab.next t -> Tab.store t' r = Tab.store t r.
Proof.
  intros Hp Hm Hllm. cbv zeta.
  tab_run_cases; try (rewrite Hp, Hm in *; discriminate);
    try congruence; tab_project;
    (split; [reflexivity|]); (split; [reflexivity|]);
    intros r Hr; rewrite ?(update_other r (Tab.next t)) by lia; reflexivity.
Qed.

(** X23.  A browser whose context could not be created is not
    released by the run handler.  The handler reports the failure,
    closes nothing and leaves the runner, which holds the browser,
    registered in the manager.  If the next click is a run with a
    language model, that runner is replaced in the manager without
    having been released, and nothing that is clicked later closes its
    browser. *)
Theorem failed_initialisation_keeps_browser (tenv : Tab.TabEnv)
    (components : Tab.Inputs) (t : Tab.TabSt) (e : exn) :
  Tab.py_truthy (Tab.llm_provider components) = true ->
  Tab.py_truthy (Tab.llm_model_name components) = true ->
  Tab.get_llm_model tenv = None ->
  launch (Tab.runner_env tenv) = ContextFails e ->
  is_Exception e = true ->
  let r := Tab.run_rpa_challenge tenv components t in
  let t' := snd (fst r) in
  let runner := Tab.next t in
  Tab.get Tab.status (Tab.final (snd r))
  = Some (Tab.text ("Erro: " ++ Tab.MSG_NO_BROWSER)%string) /\
  w_trace (Tab.tab_world t')
  = w_trace (Tab.tab_world t) ++ [EvLog (ErrInitBrowser e)] /\
  Tab.rpa_challenge_runner (Tab.manager t') = Some runner /\
  browser (Tab.store t' runner) = Some Browser /\
  context (Tab.store t' runner) = None /\
  forall tenv2 components2 clicks,
    Tab.py_truthy (Tab.llm_provider components2) = true ->
    Tab.py_truthy (Tab.llm_model_name components2) = true ->
    Tab.get_llm_model tenv2 = None ->
    let t2 := Tab.session (Tab.ClickRun tenv2 components2 :: clicks) t' in
    browser (Tab.store t2 runner) = Some Browser /\
    Tab.rpa_challenge_runner (Tab.manager t2) <> Some runner.
Proof.
  intros Hp Hm Hllm Hl He r t' runner.
  destruct (run_click_registers_new tenv components t Hp Hm Hllm)
    as [Hreg [Hnext _]].
  fold r in Hreg, Hnext. fold t' in Hreg, Hnext.
  assert (Hrun :
    Tab.get Tab.status (Tab.final (snd r))
    = Some (Tab.text ("Erro: " ++ Tab.MSG_NO_BROWSER)%string) /\
    w_trace (Tab.tab_world t')
    = w_trace (Tab.tab_world t) ++ [EvLog (ErrInitBrowser e)] /\
    browser (Tab.store t' runner) = Some Browser /\
    context (Tab.store t' runner) = None).
  { unfold t', r, runner. tab_unfold. rewrite Hp, Hm, Hllm.
    cbn [negb orb Tab.store Tab.tab_world Tab.next Tab.manager].
    match goal with
    | |- context [initialize_browser ?env ?s] =>
        destruct (initialize_browser_context_fails env s e Hl He)
          as [s' [Hi [Hb [Hc Ht]]]]
    end.
    rewrite Hi. tab_project. rewrite !update_same.
    split; [reflexivity|]. split; [exact Ht|]. split; [exact Hb|].
    rewrite Hc. cbn [start self]. now rewrite update_same. }
  destruct Hrun as [H1 [H2 [H3 H4]]].
  split; [exact H1|]. split; [exact H2|]. split; [exact Hreg|].
  split; [exact H3|]. split; [exact H4|].
  intros tenv2 components2 clicks Hp2 Hm2 Hllm2 t2.
  destruct (run_click_registers_new tenv2 components2 t' Hp2 Hm2 Hllm2)
    as [Hreg2 [Hnext2 Hold]].
  unfold t2.
  change (Tab.session (Tab.ClickRun tenv2 components2 :: clicks) t')
    with (Tab.session clicks
            (snd (fst (Tab.run_rpa_challenge tenv2 components2 t')))).
  destruct (session_frame clicks
              (snd (fst (Tab.run_rpa_challenge tenv2 components2 t')))
              runner) as [Hs Hr].
  - rewrite Hnext2, Hnext. unfold runner. lia.
  - rewrite Hreg2, Hnext. unfold runner. intro H. injection H. lia.
  - split; [|exact Hr]. rewrite Hs, Hold; [exact H3|].
    rewrite Hnext. unfold runner. lia.
Qed.

Lemma failed_initialisation_keeps_browser_witness :
  let tenv := TabSample.tenv_of TabSample.env_no_context in
  let components := TabSample.configured in
  let t := TabSample.fresh_tab in
  let e := Exception "Target closed" in
  let r := Tab.run_rpa_challenge tenv components t in
  let t' := snd (fst r) in
  Tab.py_truthy (Tab.llm_provider components) = true /\
  Tab.py_truthy (Tab.llm_model_name components) = true /\
  Tab.get_llm_model tenv = None /\
  launch (Tab.runner_env tenv) = ContextFails e /\
  is_Exception e = true /\
  browser (Tab.store t' (Tab.next t)) = Some Browser /\
  context (Tab.store t' (Tab.next t)) = None.
Proof.
  intros tenv components t e r t'.
  assert (H1 : Tab.py_truthy (Tab.llm_provider components) = true)
    by reflexivity.
  assert (H2 : Tab.py_truthy (Tab.llm_model_name components) = true)
    by reflexivity.
  assert (H3 : Tab.get_llm_model tenv = None) by reflexivity.
  assert (H4 : launch (Tab.runner_env tenv) = ContextFails e) by reflexivity.
  assert (H5 : is_Exception e = true) by reflexivity.
  split; [exact H1|]. split; [exact H2|]. split; [exact H3|].
  split; [exact H4|]. split; [exact H5|].
  destruct (failed_initialisation_keeps_browser tenv components t e
              H1 H2 H3 H4 H5) as [_ [_ [_ [Hb [Hc _]]]]].
  split; [exact Hb|exact Hc].
Defined.


(** X24.  Stop and Clear release what the registered runner holds, in
    the way of [close_resources]: the context first, then the browser,
    which is skipped when closing the context raises.  Stop keeps
    the runner registered and forgets the task; Clear forgets the
    runner and keeps the task.  When both closes return, the runner
    holds nothing afterwards. *)
Theorem stop_and_clear_release_registered_runner (env : Env)
    (t : Tab.TabSt) (r : Tab.Ref) :
  Tab.rpa_challenge_runner (Tab.manager t) = Some r ->
  release_not_cancelled env ->
  let t1 := Tab.session [Tab.ClickStop env] t in
  let t2 := Tab.session [Tab.ClickClear env] t in
  w_trace (Tab.tab_world t1)
  = w_trace (Tab.tab_world t) ++ release_events env (Tab.store t r) /\
  w_trace (Tab.tab_world t2)
  = w_trace (Tab.tab_world t) ++ release_events env (Tab.store t r) /\
  Tab.manager t1 = Tab.mkManager None (Some r) /\
  Tab.manager t2
  = Tab.mkManager (Tab.rpa_challenge_task (Tab.manager t)) None /\
  (context_close env = None -> browser_close env = None ->
   context (Tab.store t1 r) = None /\ browser (Tab.store t1 r) = None /\
   context (Tab.store t2 r) = None /\ browser (Tab.store t2 r) = None).
Proof.
  intros Hreg Hrel.
  destruct (close_resources_spec env (start (Tab.store t r) (Tab.tab_world t))
              Hrel) as [s' [Hc [Ha [_ [_ [_ Hself]]]]]].
  unfold added in Ha. cbn [start self world] in Ha.
  cbv zeta. cbn [Tab.session Tab.click].
  tab_unfold. destruct (Tab.manager t) as [k r0] eqn:Hm.
  cbn [Tab.rpa_challenge_runner Tab.rpa_challenge_task] in *. subst r0.
  destruct k; tab_project; rewrite ?Hm; tab_project; rewrite Hc;
    tab_project; rewrite !update_same;
    (split; [exact Ha|]); (split; [exact Ha|]);
    (split; [reflexivity|]); (split; [reflexivity|]);
    intros H1 H2; destruct (Hself H1 H2) as [H3 H4]; auto.
Qed.

Lemma stop_and_clear_release_registered_runner_witness :
  let t := Tab.mkTabSt (fun _ => Sample.runner_a) 1
             (Tab.mkManager None (Some 0)) Sample.empty_world in
  Tab.rpa_challenge_runner (Tab.manager t) = Some 0 /\
  release_not_cancelled Sample.env_retry /\
  w_trace (Tab.tab_world (Tab.session [Tab.ClickClear Sample.env_retry] t))
  = [EvCloseContext; EvLog (ErrCloseResources (Exception "Target closed"))].
Proof.
  intro t.
  assert (H1 : Tab.rpa_challenge_runner (Tab.manager t) = Some 0)
    by reflexivity.
  assert (H2 : release_not_cancelled Sample.env_retry).
  { split; intros e H; vm_compute in H;
      first [discriminate H|injection H as <-; reflexivity]. }
  split; [exact H1|]. split; [exact H2|].
  destruct (stop_and_clear_release_registered_runner Sample.env_retry t 0
              H1 H2) as [_ [H _]].
  exact H.
Defined.

(** X25.  Apart from a context that cannot be created, a run handler
    that was given a language model leaves no browser behind when
    closing works: however the run ends (success, failure, exception
    or cancellation), the runner that the handler registered holds
    neither context nor browser afterwards, and a later Stop or Clear
    closes nothing. *)
Theorem finished_run_holds_nothing (tenv : Tab.TabEnv)
    (components : Tab.Inputs) (t : Tab.TabSt) :
  Tab.py_truthy (Tab.llm_provider components) = true ->
  Tab.py_truthy (Tab.llm_model_name components) = true ->
  Tab.get_llm_model tenv = None ->
  (forall e, launch (Tab.runner_env tenv) <> ContextFails e) ->
  context_close (Tab.runner_env tenv) = None ->
  browser_close (Tab.runner_env tenv) = None ->
  let t' := snd (fst (Tab.run_rpa_challenge tenv components t)) in
  let runner := Tab.next t in
  Tab.rpa_challenge_runner (Tab.manager t') = Some runner /\
  context (Tab.store t' runner) = None /\
  browser (Tab.store t' runner) = None /\
  forall env2,
    w_trace (Tab.tab_world (Tab.session [Tab.ClickStop env2] t'))
    = w_trace (Tab.tab_world t') /\
    w_trace (Tab.tab_world (Tab.session [Tab.ClickClear env2] t'))
    = w_trace (Tab.tab_world t').
Proof.
  intros Hp Hm Hllm Hl Hcc Hbc t' runner.
  destruct (run_click_registers_new tenv components t Hp Hm Hllm)
    as [Hreg _].
  fold t' in Hreg.
  assert (Hheld : context (Tab.store t' runner) = None /\
                  browser (Tab.store t' runner) = None).
  { unfold t', runner. tab_unfold. rewrite Hp, Hm, Hllm.
    cbn [negb orb Tab.store Tab.tab_world Tab.next Tab.manager].
    rewrite update_same.
    set (env := Tab.without_callback (Tab.runner_env tenv)).
    destruct (launch (Tab.runner_env tenv)) as [|e|e] eqn:Hlaunch.
    - match goal with
      | |- context [initialize_browser env ?s] =>
          destruct (initialize_browser_ok env s Hlaunch) as [s1 [Hi _]]
      end.
      rewrite Hi. tab_project. rewrite update_same.
      assert (Hrel : release_not_cancelled env).
      { split; intros e H; cbn in H; congruence. }
      match goal with
      | |- context [run_automation env ?s] =>
          destruct (run_automation_shape env s Hrel)
            as [s2 [Hr [_ [_ [_ Hself]]]]]
      end.
      destruct (Hself Hcc Hbc) as [H1 H2].
      rewrite Hr.
      match goal with
      | |- context [fst ?body] => destruct (fst body) as [d|[]]
      end; tab_project; rewrite !update_same; split; assumption.
    - match goal with
      | |- context [initialize_browser env ?s] =>
          destruct (initialize_browser_no_browser env s e Hlaunch)
            as [Hs Hn];
          destruct (initialize_browser env s) as [[[]|e1] s1]
      end; [exfalso; apply Hn; reflexivity| |];
        cbn [snd] in Hs; [|destruct e1]; tab_project;
        rewrite !update_same, Hs; split; reflexivity.
    - now destruct (Hl e). }
  destruct Hheld as [H1 H2].
  split; [exact Hreg|]. split; [exact H1|]. split; [exact H2|].
  fold runner in Hreg. clearbody t' runner.
  intro env2. cbn [Tab.session Tab.click]. tab_unfold.
  destruct (Tab.manager t') as [k r0] eqn:Hmgr.
  cbn [Tab.rpa_challenge_runner Tab.rpa_challenge_task] in *.
  subst r0.
  assert (Hc : close_resources env2 (start (Tab.store t' runner)
                                       (Tab.tab_world t'))
               = (Ret tt, start (Tab.store t' runner) (Tab.tab_world t')))
    by (apply close_resources_nothing_held; assumption).
  destruct k; tab_project; rewrite ?Hmgr; tab_project; rewrite Hc;
    tab_project; split; reflexivity.
Qed.

Lemma finished_run_holds_nothing_witness :
  let tenv := TabSample.tenv_of Sample.env_cancelled in
  let components := TabSample.configured in
  let t := TabSample.fresh_tab in
  let r := Tab.run_rpa_challenge tenv components t in
  Tab.py_truthy (Tab.llm_provider components) = true /\
  Tab.py_truthy (Tab.llm_model_name components) = true /\
  Tab.get_llm_model tenv = None /\
  (forall e, launch (Tab.runner_env tenv) <> ContextFails e) /\
  context_close (Tab.runner_env tenv) = None /\
  browser_close (Tab.runner_env tenv) = None /\
  Tab.get Tab.status (Tab.final (snd r)) = Some (Tab.text Tab.MSG_CANCELLED) /\
  context (Tab.store (snd (fst r)) (Tab.next t)) = None /\
  browser (Tab.store (snd (fst r)) (Tab.next t)) = None.
Proof.
  intros tenv components t r.
  assert (H1 : Tab.py_truthy (Tab.llm_provider components) = true)
    by reflexivity.
  assert (H2 : Tab.py_truthy (Tab.llm_model_name components) = true)
    by reflexivity.
  assert (H3 : Tab.get_llm_model tenv = None) by reflexivity.
  assert (H4 : forall e, launch (Tab.runner_env tenv) <> ContextFails e)
    by (intros e; discriminate).
  assert (H5 : context_close (Tab.runner_env tenv) = None) by reflexivity.
  assert (H6 : browser_close (Tab.runner_env tenv) = None) by reflexivity.
  split; [exact H1|]. split; [exact H2|]. split; [exact H3|].
  split; [exact H4|]. split; [exact H5|]. split; [exact H6|].
  split; [vm_compute; reflexivity|].
  destruct (finished_run_holds_nothing tenv components t H1 H2 H3 H4 H5 H6)
    as [_ [Hc [Hb _]]].
  split; [exact Hc|exact Hb].
Defined.
